(** * Structure-preserving edits of ESLint flat configs and import sections

    A shallow embedding of [EslintTsMorphUtil] (eslint-tsmorph-util.ts) and
    [ImportTsMorphUtil] (import-tsmorph-util.ts).

    The two classes work on a live ts-morph syntax tree.  The tree is
    modelled by the inductive types of [Ast]; the JavaScript values that the
    utilities receive and return are modelled by [Js.JsValue].  What the
    host library contributes (the source text of a node, and the node that
    results when text is inserted into the tree and re-parsed) is the
    interface [TsMorph]; every general theorem holds for any implementation
    of that interface. *)

From Stdlib Require Import ZArith Ascii String.
From stdpp Require Import base tactics option list sorting strings pretty.

Set Warnings "-register-all".

Open Scope string_scope.
Open Scope list_scope.

(* ===================================================================== *)
(** * JavaScript values and the string primitives the utilities call *)
(* ===================================================================== *)

Module Js.

(** The values of type [unknown] that flow through the utilities: what
    [parsePropertyValue] returns and what [valueToString] accepts.  An
    object is its list of own enumerable entries in [Object.entries] order
    (keys pairwise distinct; insertion order, as JavaScript keeps it for
    keys that are not array indices).  Numbers are the integers;
    [String(n)] is their decimal rendering. *)
Inductive JsValue : Type :=
| VUndefined
| VNull
| VBool (b : bool)
| VNumber (n : Z)
| VString (s : string)
| VArray (elements : list JsValue)
| VObject (entries : list (string * JsValue)).

Definition LF : ascii := ascii_of_nat 10.
Definition CR : ascii := ascii_of_nat 13.
Definition TAB : ascii := ascii_of_nat 9.
Definition SQUOTE : ascii := ascii_of_nat 39.
Definition DQUOTE : ascii := ascii_of_nat 34.
Definition BACKSLASH : ascii := ascii_of_nat 92.

(** [obj[key] = value]: an existing key keeps its position. *)
Fixpoint objSet (key : string) (value : JsValue) (entries : list (string * JsValue))
  : list (string * JsValue) :=
  match entries with
  | [] => [(key, value)]
  | (k, v) :: rest =>
      if String.eqb k key then (k, value) :: rest
      else (k, v) :: objSet key value rest
  end.

(** [obj[key]], [undefined] when the key is absent. *)
Fixpoint objGet (key : string) (entries : list (string * JsValue)) : JsValue :=
  match entries with
  | [] => VUndefined
  | (k, v) :: rest => if String.eqb k key then v else objGet key rest
  end.

(** [key in obj]. *)
Definition objHas (key : string) (entries : list (string * JsValue)) : bool :=
  existsb (fun kv => String.eqb (fst kv) key) entries.

(** JavaScript truthiness. *)
Definition truthy (v : JsValue) : bool :=
  match v with
  | VUndefined | VNull => false
  | VBool b => b
  | VNumber n => negb (n =? 0)%Z
  | VString s => negb (String.eqb s "")
  | VArray _ | VObject _ => true
  end.

(** [Array.prototype.join]. *)
Definition join (sep : string) (parts : list string) : string :=
  String.concat sep parts.

(** The string conversion of a template literal, [`${v}`]. *)
Fixpoint toStr (v : JsValue) : string :=
  match v with
  | VUndefined => "undefined"
  | VNull => "null"
  | VBool true => "true"
  | VBool false => "false"
  | VNumber n => pretty n
  | VString s => s
  | VArray vs =>
      join "," (List.map (fun e => match e with
                                   | VUndefined | VNull => ""
                                   | _ => toStr e
                                   end) vs)
  | VObject _ => "[object Object]"
  end.

(** [s.replace] of every single quote by a backslash and the quote. *)
Fixpoint escapeSingleQuotes (s : string) : string :=
  match s with
  | EmptyString => EmptyString
  | String c rest =>
      if Ascii.eqb c SQUOTE
      then String BACKSLASH (String SQUOTE (escapeSingleQuotes rest))
      else String c (escapeSingleQuotes rest)
  end.

(** [s.startsWith(p)]. *)
Definition startsWith (p s : string) : bool := String.prefix p s.

(** [Object.entries(v)] for a value whose [typeof] is ['object']: the
    entries of an object, the index/element pairs of an array. *)
Definition entriesOf (v : JsValue) : list (string * JsValue) :=
  match v with
  | VObject entries => entries
  | VArray vs => imap (fun i e => (pretty (Z.of_nat i), e)) vs
  | _ => []
  end.

(** [typeof v === 'object' && v !== null]. *)
Definition isObjectLike (v : JsValue) : bool :=
  match v with
  | VArray _ | VObject _ => true
  | _ => false
  end.

(** A line terminator of the regular-expression dot: LF, CR, and the UTF-8
    encodings of U+2028 and U+2029. *)
Fixpoint hasLineTerminator (s : string) : bool :=
  match s with
  | EmptyString => false
  | String c rest =>
      if Ascii.eqb c LF || Ascii.eqb c CR then true
      else if String.prefix (String (ascii_of_nat 226) (String (ascii_of_nat 128)
                               (String (ascii_of_nat 168) EmptyString))) s
           || String.prefix (String (ascii_of_nat 226) (String (ascii_of_nat 128)
                               (String (ascii_of_nat 169) EmptyString))) s
      then true
      else hasLineTerminator rest
  end.

(** Splits off the last character. *)
Fixpoint unsnoc (s : string) : option (string * ascii) :=
  match s with
  | EmptyString => None
  | String c rest =>
      match unsnoc rest with
      | None => Some (EmptyString, c)
      | Some (init, last) => Some (String c init, last)
      end
  end.

(** The quote-stripping [replace] of [parseRulesObject] and
    [parseObjectLiteral], with the pattern: start, a single or double
    quote, any characters but line terminators, the same quote, end.  A
    name wrapped in one pair of matching quotes, on a single line, loses
    the pair; any other name is returned as it is. *)
Definition stripQuotes (s : string) : string :=
  match s with
  | String q rest =>
      if Ascii.eqb q SQUOTE || Ascii.eqb q DQUOTE then
        match unsnoc rest with
        | Some (middle, q') =>
            if Ascii.eqb q' q && negb (hasLineTerminator middle) then middle else s
        | None => s
        end
      else s
  | EmptyString => s
  end.

End Js.

(* ===================================================================== *)
(** * The syntax tree *)
(* ===================================================================== *)

Module Ast.

(** Expression nodes by syntax kind, and the members of an object literal.
    [name] of a member is what [getName()] returns: the text of the name
    node, quotes included. *)
Inductive Node : Type :=
| StringLiteral (literalValue : string)
| NumericLiteral (literalValue : Z)
| TrueKeyword
| FalseKeyword
| NullKeyword
| UndefinedKeyword
| ImportKeyword
| Identifier (name : string)
| ArrayLiteralExpression (elements : list Node)
| ObjectLiteralExpression (properties : list Member)
| SpreadElement (expression : Node)
| AwaitExpression (expression : Node)
| CallExpression (expression : Node) (arguments : list Node)
| OtherExpression (text : string)
with Member : Type :=
| PropertyAssignment (name : string) (initializer : Node)
| ShorthandPropertyAssignment (name : string)
| SpreadAssignment (expression : Node)
| MethodDeclaration (name : string) (text : string)
| GetAccessorDeclaration (name : string) (text : string)
| SetAccessorDeclaration (name : string) (text : string).

Definition isStringLiteral (n : Node) : bool :=
  match n with StringLiteral _ => true | _ => false end.
Definition isNumericLiteral (n : Node) : bool :=
  match n with NumericLiteral _ => true | _ => false end.
Definition isIdentifier (n : Node) : bool :=
  match n with Identifier _ => true | _ => false end.
Definition isArrayLiteralExpression (n : Node) : bool :=
  match n with ArrayLiteralExpression _ => true | _ => false end.
Definition isObjectLiteralExpression (n : Node) : bool :=
  match n with ObjectLiteralExpression _ => true | _ => false end.
Definition isAwaitExpression (n : Node) : bool :=
  match n with AwaitExpression _ => true | _ => false end.
Definition isCallExpression (n : Node) : bool :=
  match n with CallExpression _ _ => true | _ => false end.
(** [Node.isImportExpression]: the [import] keyword in call position. *)
Definition isImportExpression (n : Node) : bool :=
  match n with ImportKeyword => true | _ => false end.

Definition isPropertyAssignment (m : Member) : bool :=
  match m with PropertyAssignment _ _ => true | _ => false end.
Definition isSpreadAssignment (m : Member) : bool :=
  match m with SpreadAssignment _ => true | _ => false end.

(** [getName()] of a member; a spread assignment has none. *)
Definition getName (m : Member) : option string :=
  match m with
  | PropertyAssignment name _ => Some name
  | ShorthandPropertyAssignment name => Some name
  | SpreadAssignment _ => None
  | MethodDeclaration name _ => Some name
  | GetAccessorDeclaration name _ => Some name
  | SetAccessorDeclaration name _ => Some name
  end.

(** [objectLiteral.getProperty(name)]: the first member that has a name
    and whose name text is [name], with its position. *)
Definition getProperty (name : string) (properties : list Member) : option (nat * Member) :=
  list_find (fun m => getName m = Some name) properties.

(** The string literals among the elements of an array literal, as
    [getElements().filter(Node.isStringLiteral).map(el => el.getLiteralValue())]. *)
Definition stringLiteralValues (elements : list Node) : list string :=
  omap (fun n => match n with StringLiteral v => Some v | _ => None end) elements.

(** Top-level statements of a source file, as far as the configuration
    utility looks at them.  An export assignment is [export default e]
    or, when [isExportEquals], [export = e]. *)
Inductive Statement : Type :=
| ExportAssignment (isExportEquals : bool) (expression : Node)
| OtherStatement (text : string).

Record SourceFile : Type := mkSourceFile {
  sfFilePath : string;
  sfStatements : list Statement
}.

(** [sourceFile.getExportAssignments()], as their expressions. *)
Definition getExportAssignments (sf : SourceFile) : list Node :=
  omap (fun st => match st with
                  | ExportAssignment _ e => Some e
                  | OtherStatement _ => None
                  end) (sfStatements sf).

End Ast.

Import Js Ast.

(** What the utilities take from ts-morph besides the tree structure:
    [getText n] is the source text of node [n]; [parseExpression text] is
    the expression node the tree holds after [text] has been inserted
    ([setInitializer], [addPropertyAssignment], [addSpreadAssignment],
    [addElement]); [createSourceFile path content] is
    [project.createSourceFile]. *)
Class TsMorph : Type := {
  getText : Node -> string;
  parseExpression : string -> Node;
  createSourceFile : string -> string -> SourceFile
}.

(** Outcome of a method that may [throw new Error(message)]. *)
Inductive Result (A : Type) : Type :=
| Ok (value : A)
| Throw (message : string).
Arguments Ok {A} value.
Arguments Throw {A} message.

Definition isThrow {A} (r : Result A) : bool :=
  match r with Ok _ => false | Throw _ => true end.

Definition bind {A B} (r : Result A) (k : A -> Result B) : Result B :=
  match r with
  | Ok a => k a
  | Throw message => Throw message
  end.

Notation "'let!' x ':=' r 'in' k" := (bind r (fun x => k))
  (at level 10, x name, r at level 100, k at level 200).

(* ===================================================================== *)
(** * [EslintTsMorphUtil] *)
(* ===================================================================== *)

Module EslintTsMorphUtil.

(** The Nx [Tree], as far as the constructor reads from it. *)
Record Tree : Type := mkTree {
  read : string -> option string
}.

Inductive SourceFileOrTree : Type :=
| OfSourceFile (sourceFile : SourceFile)
| OfTree (tree : Tree).

(** The fields of an instance.  [configArray] holds the elements of the
    exported array literal, which every operation mutates in place. *)
Record Session : Type := mkSession {
  sourceFile : SourceFile;
  tree : option Tree;
  filePath : string;
  configArray : option (list Node)
}.

Definition setElements (s : Session) (elements : list Node) : Session :=
  {| sourceFile := sourceFile s; tree := tree s; filePath := filePath s;
     configArray := Some elements |}.

(** [a.every((val, index) => p(val, index))]. *)
Fixpoint everyFrom {A} (index : nat) (p : A -> nat -> bool) (a : list A) : bool :=
  match a with
  | [] => true
  | val :: rest => p val index && everyFrom (S index) p rest
  end.
Definition every {A} (p : A -> nat -> bool) (a : list A) : bool := everyFrom 0 p a.

(** [[...a].sort()] on strings: the default sort orders by code units; any
    total order yields the same answer in [arraysEqual]. *)
Definition sort (a : list string) : list string := merge_sort String.le a.

Definition arraysEqual (a b : list string) : bool :=
  if negb (length a =? length b)%nat then false
  else
    let sortedA := sort a in
    let sortedB := sort b in
    every (fun val index =>
             match sortedB !! index with
             | Some other => String.eqb val other
             | None => false
             end) sortedA.

Section WithTsMorph.
Context `{TsMorph}.

(** ** Construction *)

Definition parseConfigArray (sf : SourceFile) (path : string) : Result (list Node) :=
  match getExportAssignments sf !! 0 with
  | None => Throw ("No export default found in ESLint config file: " +:+ path)
  | Some defaultExpression =>
      match defaultExpression with
      | ArrayLiteralExpression elements => Ok elements
      | _ => Throw ("Export default must be an array literal in ESLint flat config: "
                      +:+ path)
      end
  end.

(** [new EslintTsMorphUtil(sourceFileOrTree, filePath?)]. *)
Definition constructor (sourceFileOrTree : SourceFileOrTree) (path : option string)
  : Result Session :=
  match sourceFileOrTree with
  | OfSourceFile sf =>
      let path' := match path with
                   | Some p => if String.eqb p "" then sfFilePath sf else p
                   | None => sfFilePath sf
                   end in
      let! elements := parseConfigArray sf path' in
      Ok {| sourceFile := sf; tree := None; filePath := path';
            configArray := Some elements |}
  | OfTree t =>
      match path with
      | None => Throw "filePath is required when using Tree constructor"
      | Some p =>
          if String.eqb p "" then Throw "filePath is required when using Tree constructor"
          else
            let fileContent := match read t p with
                               | Some content => content
                               | None => ""
                               end in
            let sf := createSourceFile p fileContent in
            let! elements := parseConfigArray sf p in
            Ok {| sourceFile := sf; tree := Some t; filePath := p;
                  configArray := Some elements |}
      end
  end.

(** ** Decoding *)

Definition parseDynamicImport (expression : Node) (callArguments : list Node)
  : option JsValue :=
  let isImportExpression :=
    Ast.isImportExpression expression
    || (isIdentifier expression && String.eqb (getText expression) "import") in
  if isImportExpression && (0 <? length callArguments)%nat then
    match callArguments !! 0 with
    | Some (StringLiteral literalValue) =>
        Some (VObject [("__dynamicImport", VString literalValue)])
    | _ => None
    end
  else None.

(** [parsePropertyValue] on a node that is present, with [parseObjectLiteral]
    inlined as the local loop over the members. *)
Fixpoint parsePropertyValueNode (valueNode : Node) : JsValue :=
  match valueNode with
  | StringLiteral literalValue => VString literalValue
  | NumericLiteral literalValue => VNumber literalValue
  | TrueKeyword => VBool true
  | FalseKeyword => VBool false
  | NullKeyword => VNull
  | UndefinedKeyword => VUndefined
  | Identifier _ =>
      if String.eqb (getText valueNode) "undefined" then VUndefined
      else VString (getText valueNode)
  | ArrayLiteralExpression elements =>
      VArray (List.map parsePropertyValueNode elements)
  | ObjectLiteralExpression properties =>
      VObject
        ((fix loop (properties : list Member) (resultObject : list (string * JsValue)) :=
            match properties with
            | [] => resultObject
            | property :: rest =>
                match property with
                | PropertyAssignment propertyName propertyValue =>
                    loop rest (objSet (stripQuotes propertyName)
                                      (parsePropertyValueNode propertyValue) resultObject)
                | SpreadAssignment spreadExpression =>
                    loop rest (objSet ("..." +:+ getText spreadExpression)
                                      VUndefined resultObject)
                | _ => loop rest resultObject
                end
            end) properties [])
  | AwaitExpression awaitedExpression =>
      match awaitedExpression with
      | CallExpression expression callArguments =>
          match parseDynamicImport expression callArguments with
          | Some dynamicImport => dynamicImport
          | None => VString (getText valueNode)
          end
      | _ => VString (getText valueNode)
      end
  | _ => VString (getText valueNode)
  end.

Definition parsePropertyValue (valueNode : option Node) : JsValue :=
  match valueNode with
  | None => VUndefined
  | Some node => parsePropertyValueNode node
  end.

Definition parseObjectLiteral (properties : list Member) : list (string * JsValue) :=
  foldl (fun resultObject property =>
           match property with
           | PropertyAssignment propertyName propertyValue =>
               objSet (stripQuotes propertyName)
                      (parsePropertyValue (Some propertyValue)) resultObject
           | SpreadAssignment spreadExpression =>
               objSet ("..." +:+ getText spreadExpression) VUndefined resultObject
           | _ => resultObject
           end) [] properties.

Definition parseRulesObject (properties : list Member) : list (string * JsValue) :=
  foldl (fun rulesConfig property =>
           match property with
           | PropertyAssignment ruleName ruleValue =>
               objSet (stripQuotes ruleName)
                      (parsePropertyValue (Some ruleValue)) rulesConfig
           | SpreadAssignment spreadExpression =>
               objSet ("..." +:+ getText spreadExpression) VNull rulesConfig
           | _ => rulesConfig
           end) [] properties.

Definition parseStringArrayProperty (propertyValue : Node) : JsValue :=
  match propertyValue with
  | ArrayLiteralExpression elements =>
      VArray (List.map VString (stringLiteralValues elements))
  | _ => VUndefined
  end.

Definition parseRulesProperty (propertyValue : Node) : JsValue :=
  match propertyValue with
  | ObjectLiteralExpression properties => VObject (parseRulesObject properties)
  | _ => VUndefined
  end.

Definition parseObjectProperty (propertyValue : Node) : JsValue :=
  match propertyValue with
  | ObjectLiteralExpression properties => VObject (parseObjectLiteral properties)
  | _ => VUndefined
  end.

Definition parseConfigObject (properties : list Member) : list (string * JsValue) :=
  foldl (fun configObject property =>
           match property with
           | PropertyAssignment propertyName propertyValue =>
               if String.eqb propertyName "files" || String.eqb propertyName "ignores"
               then objSet propertyName (parseStringArrayProperty propertyValue) configObject
               else if String.eqb propertyName "rules"
               then objSet "rules" (parseRulesProperty propertyValue) configObject
               else if String.eqb propertyName "languageOptions"
               then objSet "languageOptions" (parseObjectProperty propertyValue) configObject
               else objSet propertyName (parsePropertyValue (Some propertyValue)) configObject
           | SpreadAssignment spreadExpression =>
               objSet ("..." +:+ getText spreadExpression) VUndefined configObject
           | _ => configObject
           end) [] properties.

Definition getConfigs (s : Session) : list JsValue :=
  match configArray s with
  | None => []
  | Some elements =>
      omap (fun element =>
              match element with
              | ObjectLiteralExpression properties =>
                  Some (VObject (parseConfigObject properties))
              | _ => None
              end) elements
  end.

(** ** Encoding *)

Fixpoint valueToString (value : JsValue) : string :=
  match value with
  | VNull => "null"
  | VUndefined => "undefined"
  | VString s => "'" +:+ escapeSingleQuotes s +:+ "'"
  | VNumber n => pretty n
  | VBool true => "true"
  | VBool false => "false"
  | VArray elements =>
      "[" +:+ join ", " (List.map valueToString elements) +:+ "]"
  | VObject obj =>
      if truthy (objGet "__dynamicImport" obj)
      then "await import('" +:+ toStr (objGet "__dynamicImport" obj) +:+ "')"
      else
        "{ " +:+ join ", "
                 (List.map (fun entry =>
                              let '(key, value) := entry in
                              if startsWith "..." key then key
                              else "'" +:+ key +:+ "': " +:+ valueToString value) obj)
             +:+ " }"
  end.

(** ** Lookup by file patterns *)

(** The patterns an element is found under: it must be an object literal
    whose [files] member is a property assignment with an array literal;
    only the string literals of the array count. *)
Definition existingFiles (element : Node) : option (list string) :=
  match element with
  | ObjectLiteralExpression properties =>
      match getProperty "files" properties with
      | Some (_, PropertyAssignment _ (ArrayLiteralExpression filesElements)) =>
          Some (stringLiteralValues filesElements)
      | _ => None
      end
  | _ => None
  end.

(** The loop of [findConfigByFiles] (and of [removeConfig]) from position
    [index] on: the first matching element, as its position and members. *)
Fixpoint findFrom (index : nat) (files : list string) (elements : list Node)
  : option (nat * list Member) :=
  match elements with
  | [] => None
  | element :: rest =>
      match element, existingFiles element with
      | ObjectLiteralExpression properties, Some existing =>
          if arraysEqual existing files then Some (index, properties)
          else findFrom (S index) files rest
      | _, _ => findFrom (S index) files rest
      end
  end.

Definition findConfigByFiles (files : list string) (s : Session)
  : option (nat * list Member) :=
  match configArray s with
  | None => None
  | Some elements => findFrom 0 files elements
  end.

(** [config.files || []]; the field is typed [string[] | undefined]. *)
Definition filesOf (config : list (string * JsValue)) : list string :=
  let files := objGet "files" config in
  if truthy files then
    match files with
    | VArray elements =>
        omap (fun e => match e with VString pattern => Some pattern | _ => None end) elements
    | _ => []
    end
  else [].

(** ** Patching *)

Definition setInitializer (index : nat) (name text : string) (properties : list Member)
  : list Member :=
  <[index := PropertyAssignment name (parseExpression text)]> properties.

Definition addPropertyAssignment (name initializer : string) (properties : list Member)
  : list Member :=
  properties ++ [PropertyAssignment name (parseExpression initializer)].

Definition addSpreadAssignment (expression : string) (properties : list Member)
  : list Member :=
  properties ++ [SpreadAssignment (parseExpression expression)].

(** One round of the loop of [updateRulesProperty]. *)
Definition updateRulesEntry (rulesObj : list Member) (entry : string * JsValue)
  : list Member :=
  let '(ruleName, ruleConfig) := entry in
  match getProperty ruleName rulesObj with
  | Some (index, PropertyAssignment name _) =>
      setInitializer index name (valueToString ruleConfig) rulesObj
  | _ =>
      addPropertyAssignment ("'" +:+ ruleName +:+ "'") (valueToString ruleConfig) rulesObj
  end.

(** [updateRulesProperty], on the initializer of the [rules] property;
    the result is the initializer afterwards. *)
Definition updateRulesProperty (rulesObj : Node) (newRules : JsValue) : Node :=
  match rulesObj with
  | ObjectLiteralExpression properties =>
      ObjectLiteralExpression (foldl updateRulesEntry properties (entriesOf newRules))
  | _ => parseExpression (valueToString newRules)
  end.

(** One round of the loop of [updateConfigObject]. *)
Definition updateConfigEntry (configObj : list Member) (entry : string * JsValue)
  : list Member :=
  let '(key, value) := entry in
  match getProperty key configObj with
  | Some (index, PropertyAssignment name initializer) =>
      if String.eqb key "rules" && isObjectLike value
      then <[index := PropertyAssignment name (updateRulesProperty initializer value)]>
             configObj
      else setInitializer index name (valueToString value) configObj
  | _ => addPropertyAssignment key (valueToString value) configObj
  end.

Definition updateConfigObject (configObj : list Member) (newConfig : list (string * JsValue))
  : list Member :=
  foldl updateConfigEntry configObj newConfig.

(** The text that [addNewConfigObject] hands to [addElement]. *)
Definition newConfigObjectText (config : list (string * JsValue)) : string :=
  let properties :=
    List.map (fun entry => let '(key, value) := entry in (key, valueToString value)) config in
  "{" +:+ String LF "" +:+
  join ("," +:+ String LF "")
       (List.map (fun p => "  " +:+ fst p +:+ ": " +:+ snd p) properties)
  +:+ String LF "" +:+ "}".

Definition addNewConfigObject (config : list (string * JsValue)) (s : Session) : Session :=
  match configArray s with
  | None => s
  | Some elements =>
      setElements s (elements ++ [parseExpression (newConfigObjectText config)])
  end.

Definition addOrUpdateConfig (config : list (string * JsValue)) (s : Session)
  : Result Session :=
  match configArray s with
  | None => Throw "Config array not found"
  | Some elements =>
      let files := filesOf config in
      match findConfigByFiles files s with
      | Some (index, existingConfig) =>
          Ok (setElements s
                (<[index := ObjectLiteralExpression
                              (updateConfigObject existingConfig config)]> elements))
      | None => Ok (addNewConfigObject config s)
      end
  end.

Definition removeConfig (filePattern : list string) (s : Session) : Session :=
  match configArray s with
  | None => s
  | Some elements =>
      match findFrom 0 filePattern elements with
      | Some (index, _) => setElements s (delete index elements)
      | None => s
      end
  end.

(** ** Rules *)

(** Puts new members into the element at [index]. *)
Definition setConfigObject (s : Session) (index : nat) (properties : list Member)
  : Session :=
  match configArray s with
  | None => s
  | Some elements =>
      setElements s (<[index := ObjectLiteralExpression properties]> elements)
  end.

Definition addRule (filePattern : list string) (ruleName : string) (ruleConfig : JsValue)
    (s : Session) : Result Session :=
  match findConfigByFiles filePattern s with
  | None =>
      addOrUpdateConfig
        [("files", VArray (List.map VString filePattern));
         ("rules", VObject [(ruleName, ruleConfig)])] s
  | Some (index, configObj) =>
      match getProperty "rules" configObj with
      | Some (j, PropertyAssignment name rulesObj) =>
          match rulesObj with
          | ObjectLiteralExpression rules =>
              Ok (setConfigObject s index
                    (<[j := PropertyAssignment name
                              (ObjectLiteralExpression
                                 (addPropertyAssignment ("'" +:+ ruleName +:+ "'")
                                    (valueToString ruleConfig) rules))]> configObj))
          | _ => Ok s
          end
      | _ =>
          Ok (setConfigObject s index
                (addPropertyAssignment "rules"
                   ("{ '" +:+ ruleName +:+ "': " +:+ valueToString ruleConfig +:+ " }")
                   configObj))
      end
  end.

(** [rulesObj.getProperty(n) || rulesObj.getProperty(`'${n}'`) ||
    rulesObj.getProperty] of the double-quoted name. *)
Definition getRuleProperty (ruleName : string) (rules : list Member)
  : option (nat * Member) :=
  match getProperty ruleName rules with
  | Some found => Some found
  | None =>
      match getProperty ("'" +:+ ruleName +:+ "'") rules with
      | Some found => Some found
      | None => getProperty (String DQUOTE ruleName +:+ String DQUOTE "") rules
      end
  end.

Definition removeRule (filePattern : list string) (ruleName : string) (s : Session)
  : Session :=
  match findConfigByFiles filePattern s with
  | None => s
  | Some (index, configObj) =>
      match getProperty "rules" configObj with
      | Some (j, PropertyAssignment name (ObjectLiteralExpression rules)) =>
          match getRuleProperty ruleName rules with
          | Some (k, _) =>
              setConfigObject s index
                (<[j := PropertyAssignment name
                          (ObjectLiteralExpression (delete k rules))]> configObj)
          | None => s
          end
      | _ => s
      end
  end.

Definition updateRule (filePattern : list string) (ruleName : string) (ruleConfig : JsValue)
    (s : Session) : Result Session :=
  match findConfigByFiles filePattern s with
  | None => addRule filePattern ruleName ruleConfig s
  | Some (index, configObj) =>
      match getProperty "rules" configObj with
      | Some (j, PropertyAssignment name (ObjectLiteralExpression rules)) =>
          let rules' :=
            match getRuleProperty ruleName rules with
            | Some (k, PropertyAssignment ruleKey _) =>
                setInitializer k ruleKey (valueToString ruleConfig) rules
            | _ =>
                addPropertyAssignment ("'" +:+ ruleName +:+ "'")
                  (valueToString ruleConfig) rules
            end in
          Ok (setConfigObject s index
                (<[j := PropertyAssignment name (ObjectLiteralExpression rules')]> configObj))
      | _ => Ok s
      end
  end.

Definition ensureRule := updateRule.

(** ** Spread members *)

(** The first spread member whose expression text is [spreadExpression]
    is removed. *)
Fixpoint removeSpread (spreadExpression : string) (properties : list Member)
  : list Member :=
  match properties with
  | [] => []
  | property :: rest =>
      match property with
      | SpreadAssignment expression =>
          if String.eqb (getText expression) spreadExpression then rest
          else property :: removeSpread spreadExpression rest
      | _ => property :: removeSpread spreadExpression rest
      end
  end.

Definition noConfigFound (filePattern : list string) : string :=
  "No config found for files: " +:+ join ", " filePattern.

Definition rulesMustBeObject : string := "Rules property must be an object literal".

(** The common part of [addSpreadToRules] and [removeSpreadFromRules]:
    locate the rules object literal, or throw. *)
Definition onRulesObject (filePattern : list string)
    (edit : list Member -> list Member) (s : Session) : Result Session :=
  match findConfigByFiles filePattern s with
  | None => Throw (noConfigFound filePattern)
  | Some (index, config) =>
      match getProperty "rules" config with
      | Some (j, PropertyAssignment name rulesObj) =>
          match rulesObj with
          | ObjectLiteralExpression rules =>
              Ok (setConfigObject s index
                    (<[j := PropertyAssignment name
                              (ObjectLiteralExpression (edit rules))]> config))
          | _ => Throw rulesMustBeObject
          end
      | _ => Throw rulesMustBeObject
      end
  end.

Definition addSpreadToRules (filePattern : list string) (spreadExpression : string)
  : Session -> Result Session :=
  onRulesObject filePattern (addSpreadAssignment spreadExpression).

Definition removeSpreadFromRules (filePattern : list string) (spreadExpression : string)
  : Session -> Result Session :=
  onRulesObject filePattern (removeSpread spreadExpression).

Definition addSpreadToConfig (filePattern : list string) (spreadExpression : string)
    (s : Session) : Result Session :=
  match findConfigByFiles filePattern s with
  | None => Throw (noConfigFound filePattern)
  | Some (index, config) =>
      Ok (setConfigObject s index (addSpreadAssignment spreadExpression config))
  end.

Definition removeSpreadFromConfig (filePattern : list string) (spreadExpression : string)
    (s : Session) : Result Session :=
  match findConfigByFiles filePattern s with
  | None => Throw (noConfigFound filePattern)
  | Some (index, config) =>
      Ok (setConfigObject s index (removeSpread spreadExpression config))
  end.

(** ** Helper methods *)

Definition removeRuleIfExists := removeRule.

(** [Object.entries(rules).forEach(... addRule ...)]; a throw ends the
    loop. *)
Definition addMultipleRules (filePattern : list string) (rules : list (string * JsValue))
    (s : Session) : Result Session :=
  foldl (fun acc entry =>
           let! s' := acc in addRule filePattern (fst entry) (snd entry) s')
        (Ok s) rules.

Definition removeMultipleRules (filePattern : list string) (ruleNames : list string)
    (s : Session) : Session :=
  foldl (fun s' ruleName => removeRule filePattern ruleName s') s ruleNames.

(** The decoded rules of the entry found, [None] for [undefined]. *)
Definition getRulesForPattern (filePattern : list string) (s : Session)
  : option (list (string * JsValue)) :=
  match findConfigByFiles filePattern s with
  | None => None
  | Some (_, config) =>
      match getProperty "rules" config with
      | Some (_, PropertyAssignment _ (ObjectLiteralExpression rulesObject)) =>
          Some (parseRulesObject rulesObject)
      | _ => None
      end
  end.

(** The property names every plain object inherits from
    [Object.prototype]. *)
Definition objectPrototypeKeys : list string :=
  ["constructor"; "__defineGetter__"; "__defineSetter__"; "hasOwnProperty";
   "__lookupGetter__"; "__lookupSetter__"; "isPrototypeOf"; "propertyIsEnumerable";
   "toString"; "valueOf"; "__proto__"; "toLocaleString"].

(** [key in obj] for a plain object: own or inherited. *)
Definition objIn (key : string) (entries : list (string * JsValue)) : bool :=
  objHas key entries || bool_decide (key ∈ objectPrototypeKeys).

Definition hasRule (filePattern : list string) (ruleName : string) (s : Session) : bool :=
  match getRulesForPattern filePattern s with
  | Some rules => objIn ruleName rules
  | None => false
  end.

Definition clearAllRules (filePattern : list string) (s : Session) : Session :=
  match findConfigByFiles filePattern s with
  | None => s
  | Some (index, config) =>
      match getProperty "rules" config with
      | Some (j, PropertyAssignment _ _) => setConfigObject s index (delete j config)
      | _ => s
      end
  end.

Definition hasConfigForPattern (filePattern : list string) (s : Session) : bool :=
  bool_decide (is_Some (findConfigByFiles filePattern s)).

Definition mergeRulesFromPattern (sourcePattern targetPattern : list string)
    (s : Session) : Result Session :=
  match getRulesForPattern sourcePattern s with
  | Some sourceRules => addMultipleRules targetPattern sourceRules s
  | None => Ok s
  end.

End WithTsMorph.
End EslintTsMorphUtil.

(* ===================================================================== *)
(** * [ImportTsMorphUtil] *)
(* ===================================================================== *)

Module ImportTsMorphUtil.

Inductive ImportType : Type := named | default | namespace | full.

Definition ImportType_eqb (a b : ImportType) : bool :=
  match a, b with
  | named, named | default, default | namespace, namespace | full, full => true
  | _, _ => false
  end.

(** A named import, [name] or [name as alias]. *)
Record ImportSpecifier : Type := mkSpecifier {
  specName : string;
  specAlias : option string
}.

(** An import declaration of the tree.  The grammar gives a declaration at
    most one default import and at most one namespace import. *)
Record ImportDeclaration : Type := mkImport {
  moduleSpecifierValue : string;
  defaultImport : option string;
  namespaceImport : option string;
  namedImports : list ImportSpecifier
}.

(** The state an instance works on: [sourceFile.getImportDeclarations()],
    in file order. *)
Abbreviation Imports := (list ImportDeclaration).

(** ** The ts-morph operations on a declaration *)

(** [StringUtils.isNullOrWhitespace]. *)
Fixpoint isNullOrWhitespace (text : string) : bool :=
  match text with
  | EmptyString => true
  | String c rest => Ascii.is_space c && isNullOrWhitespace rest
  end.

Definition removeDefaultImport (d : ImportDeclaration) : ImportDeclaration :=
  {| moduleSpecifierValue := moduleSpecifierValue d; defaultImport := None;
     namespaceImport := namespaceImport d; namedImports := namedImports d |}.

Definition removeNamespaceImport (d : ImportDeclaration) : ImportDeclaration :=
  {| moduleSpecifierValue := moduleSpecifierValue d; defaultImport := defaultImport d;
     namespaceImport := None; namedImports := namedImports d |}.

(** [setDefaultImport(text)]: blank text removes the default import. *)
Definition setDefaultImport (text : string) (d : ImportDeclaration) : ImportDeclaration :=
  if isNullOrWhitespace text then removeDefaultImport d
  else {| moduleSpecifierValue := moduleSpecifierValue d; defaultImport := Some text;
          namespaceImport := namespaceImport d; namedImports := namedImports d |}.

(** [setNamespaceImport(text)]: blank text removes the namespace import; a
    declaration with named imports cannot take a namespace import. *)
Definition setNamespaceImport (text : string) (d : ImportDeclaration)
  : Result ImportDeclaration :=
  if isNullOrWhitespace text then Ok (removeNamespaceImport d)
  else
    match namespaceImport d, namedImports d with
    | None, _ :: _ =>
        Throw "Cannot add a namespace import to an import declaration that has named imports."
    | _, _ =>
        Ok {| moduleSpecifierValue := moduleSpecifierValue d;
              defaultImport := defaultImport d;
              namespaceImport := Some text; namedImports := namedImports d |}
    end.

(** [addNamedImport(name)]: a declaration with a namespace import cannot
    take named imports. *)
Definition addNamedImport (name : string) (d : ImportDeclaration)
  : Result ImportDeclaration :=
  match namedImports d, namespaceImport d with
  | [], Some _ =>
      Throw "Cannot add a named import to an import declaration that has a namespace import."
  | _, _ =>
      Ok {| moduleSpecifierValue := moduleSpecifierValue d;
            defaultImport := defaultImport d; namespaceImport := namespaceImport d;
            namedImports := namedImports d ++ [mkSpecifier name None] |}
  end.

(** ** The private helpers *)

Definition findImportDeclaration (moduleSpecifier : string) (s : Imports)
  : option (nat * ImportDeclaration) :=
  list_find (fun importDecl => moduleSpecifierValue importDecl = moduleSpecifier) s.

(** [ni.getName() === specifier || ni.getAliasNode()?.getText() === specifier]. *)
Definition specifierMatches (specifier : string) (ni : ImportSpecifier) : bool :=
  String.eqb (specName ni) specifier
  || match specAlias ni with
     | Some aliasText => String.eqb aliasText specifier
     | None => false
     end.

(** [node?.getText() === specifier]. *)
Definition textIs (node : option string) (specifier : string) : bool :=
  match node with
  | Some text => String.eqb text specifier
  | None => false
  end.

Definition hasImportSpecifier (importDecl : ImportDeclaration) (specifier : string)
    (importType : ImportType) : bool :=
  match importType with
  | default => textIs (defaultImport importDecl) specifier
  | namespace => textIs (namespaceImport importDecl) specifier
  | named => existsb (specifierMatches specifier) (namedImports importDecl)
  | full => false
  end.

Definition addSpecifierToImport (importDecl : ImportDeclaration) (specifier : string)
    (importType : ImportType) : Result ImportDeclaration :=
  match importType with
  | default =>
      match defaultImport importDecl with
      | None => Ok (setDefaultImport specifier importDecl)
      | Some _ => Ok importDecl
      end
  | namespace =>
      match namespaceImport importDecl with
      | None => setNamespaceImport specifier importDecl
      | Some _ => Ok importDecl
      end
  | named =>
      if negb (hasImportSpecifier importDecl specifier named)
      then addNamedImport specifier importDecl
      else Ok importDecl
  | full => Ok importDecl
  end.

(** The declaration that [createImportDeclaration] adds. *)
Definition newImportDeclaration (specifier moduleSpecifier : string)
    (importType : ImportType) : ImportDeclaration :=
  match importType with
  | default => mkImport moduleSpecifier (Some specifier) None []
  | namespace => mkImport moduleSpecifier None (Some specifier) []
  | named => mkImport moduleSpecifier None None [mkSpecifier specifier None]
  | full => mkImport moduleSpecifier None None []
  end.

Definition createImportDeclaration (specifier moduleSpecifier : string)
    (importType : ImportType) (s : Imports) : Imports :=
  s ++ [newImportDeclaration specifier moduleSpecifier importType].

(** [namedImport.remove()] on the first named import that matches. *)
Fixpoint removeNamedImport (specifier : string) (l : list ImportSpecifier)
  : list ImportSpecifier :=
  match l with
  | [] => []
  | ni :: rest =>
      if specifierMatches specifier ni then rest
      else ni :: removeNamedImport specifier rest
  end.

(** The declaration afterwards, and the returned flag. *)
Definition removeSpecifierFromImport (importDecl : ImportDeclaration) (specifier : string)
    (importType : ImportType) : ImportDeclaration * bool :=
  match importType with
  | default =>
      if textIs (defaultImport importDecl) specifier
      then (removeDefaultImport importDecl, true)
      else (importDecl, false)
  | namespace =>
      if textIs (namespaceImport importDecl) specifier
      then (removeNamespaceImport importDecl, true)
      else (importDecl, false)
  | named =>
      if existsb (specifierMatches specifier) (namedImports importDecl)
      then ({| moduleSpecifierValue := moduleSpecifierValue importDecl;
               defaultImport := defaultImport importDecl;
               namespaceImport := namespaceImport importDecl;
               namedImports := removeNamedImport specifier (namedImports importDecl) |},
            true)
      else (importDecl, false)
  | full => (importDecl, false)
  end.

Definition isImportEmpty (importDecl : ImportDeclaration) : bool :=
  negb (bool_decide (is_Some (defaultImport importDecl)))
  && negb (bool_decide (is_Some (namespaceImport importDecl)))
  && (length (namedImports importDecl) =? 0)%nat.

(** ** The public methods *)

Definition ensureImport (importSpecifier moduleSpecifier : string)
    (importType : ImportType) (s : Imports) : Result Imports :=
  match findImportDeclaration moduleSpecifier s with
  | Some (index, existingImport) =>
      if ImportType_eqb importType full
         || hasImportSpecifier existingImport importSpecifier importType
      then Ok s
      else
        let! updated := addSpecifierToImport existingImport importSpecifier importType in
        Ok (<[index := updated]> s)
  | None => Ok (createImportDeclaration importSpecifier moduleSpecifier importType s)
  end.

Definition removeImport (importSpecifier moduleSpecifier : string)
    (importType : ImportType) (s : Imports) : Imports :=
  match findImportDeclaration moduleSpecifier s with
  | None => s
  | Some (index, importDeclaration) =>
      if ImportType_eqb importType full then delete index s
      else
        let '(importDeclaration', removed) :=
          removeSpecifierFromImport importDeclaration importSpecifier importType in
        if removed && isImportEmpty importDeclaration'
        then delete index s
        else <[index := importDeclaration']> s
  end.

Definition hasImport (importSpecifier moduleSpecifier : string)
    (importType : ImportType) (s : Imports) : bool :=
  match findImportDeclaration moduleSpecifier s with
  | None => false
  | Some (_, importDeclaration) =>
      if ImportType_eqb importType full then true
      else hasImportSpecifier importDeclaration importSpecifier importType
  end.

(** An entry of the list that [getImports] returns for a declaration. *)
Record SpecifierInfo : Type := mkInfo {
  infoName : string;
  infoType : ImportType;
  infoAlias : option string
}.

Definition getImportSpecifiers (importDecl : ImportDeclaration) : list SpecifierInfo :=
  match defaultImport importDecl with
  | Some text => [mkInfo text default None]
  | None => []
  end
  ++ match namespaceImport importDecl with
     | Some text => [mkInfo text namespace None]
     | None => []
     end
  ++ List.map (fun namedImport => mkInfo (specName namedImport) named (specAlias namedImport))
       (namedImports importDecl).

Definition getImports (s : Imports) : list (string * list SpecifierInfo) :=
  List.map (fun importDecl => (moduleSpecifierValue importDecl, getImportSpecifiers importDecl)) s.

End ImportTsMorphUtil.

(* ===================================================================== *)
(** * A reference host for the worked examples *)
(* ===================================================================== *)

(** An executable [TsMorph] for the examples: a printer giving each node a
    canonical text, and a reader for the literal notation that
    [valueToString] and [addNewConfigObject] emit (strings, decimal
    numbers, keywords, identifiers, arrays, objects with spread members,
    [await] and [import(...)] calls).  Any other expression is kept as an
    [OtherExpression] holding its text. *)
Module Reference.

Fixpoint nodeText (n : Node) : string :=
  match n with
  | StringLiteral v => "'" +:+ escapeSingleQuotes v +:+ "'"
  | NumericLiteral v => pretty v
  | TrueKeyword => "true"
  | FalseKeyword => "false"
  | NullKeyword => "null"
  | UndefinedKeyword => "undefined"
  | ImportKeyword => "import"
  | Identifier name => name
  | ArrayLiteralExpression elements =>
      "[" +:+ join ", " (List.map nodeText elements) +:+ "]"
  | ObjectLiteralExpression properties =>
      "{ " +:+ join ", " (List.map memberText properties) +:+ " }"
  | SpreadElement e => "..." +:+ nodeText e
  | AwaitExpression e => "await " +:+ nodeText e
  | CallExpression f args =>
      nodeText f +:+ "(" +:+ join ", " (List.map nodeText args) +:+ ")"
  | OtherExpression text => text
  end
with memberText (m : Member) : string :=
  match m with
  | PropertyAssignment name init => name +:+ ": " +:+ nodeText init
  | ShorthandPropertyAssignment name => name
  | SpreadAssignment e => "..." +:+ nodeText e
  | MethodDeclaration _ text => text
  | GetAccessorDeclaration _ text => text
  | SetAccessorDeclaration _ text => text
  end.

Definition isWs (c : ascii) : bool :=
  Ascii.eqb c " " || Ascii.eqb c TAB || Ascii.eqb c LF || Ascii.eqb c CR.

Definition between (lo hi : nat) (c : ascii) : bool :=
  (lo <=? nat_of_ascii c)%nat && (nat_of_ascii c <=? hi)%nat.

Definition isDigit (c : ascii) : bool := between 48 57 c.

Definition isIdentStart (c : ascii) : bool :=
  between 65 90 c || between 97 122 c || Ascii.eqb c "_" || Ascii.eqb c "$".

Definition isIdentPart (c : ascii) : bool := isIdentStart c || isDigit c.

Definition isDelimiter (c : ascii) : bool :=
  Ascii.eqb c "," || Ascii.eqb c "]" || Ascii.eqb c "}" || Ascii.eqb c ")".

Fixpoint skipWs (s : string) : string :=
  match s with
  | String c rest => if isWs c then skipWs rest else s
  | EmptyString => s
  end.

Definition trim (s : string) : string :=
  String.rev (skipWs (String.rev (skipWs s))).

Fixpoint takeWhile (p : ascii -> bool) (s : string) : string * string :=
  match s with
  | String c rest =>
      if p c then let '(word, rest') := takeWhile p rest in (String c word, rest')
      else (EmptyString, s)
  | EmptyString => (EmptyString, EmptyString)
  end.

Definition unescape (c : ascii) : ascii :=
  if Ascii.eqb c "n" then LF
  else if Ascii.eqb c "t" then TAB
  else if Ascii.eqb c "r" then CR
  else c.

(** The body of a string literal opened by [q]: its value, its raw text,
    and what follows the closing quote. *)
Fixpoint scanString (q : ascii) (s : string) : option (string * string * string) :=
  match s with
  | EmptyString => None
  | String c rest =>
      if Ascii.eqb c q then Some (EmptyString, EmptyString, rest)
      else if Ascii.eqb c LF || Ascii.eqb c CR then None
      else if Ascii.eqb c BACKSLASH then
        match rest with
        | String e rest' =>
            match scanString q rest' with
            | Some (v, raw, r) => Some (String (unescape e) v, String c (String e raw), r)
            | None => None
            end
        | EmptyString => None
        end
      else
        match scanString q rest with
        | Some (v, raw, r) => Some (String c v, String c raw, r)
        | None => None
        end
  end.

Fixpoint digitsValue (acc : Z) (digits : string) : Z :=
  match digits with
  | String c rest => digitsValue (10 * acc + Z.of_nat (nat_of_ascii c - 48))%Z rest
  | EmptyString => acc
  end.

(** The text up to the next delimiter outside brackets and strings. *)
Fixpoint scanRaw (inString : option ascii) (depth : nat) (s : string) : string * string :=
  match s with
  | EmptyString => (EmptyString, EmptyString)
  | String c rest =>
      let keep st d := let '(raw, r) := scanRaw st d rest in (String c raw, r) in
      match inString with
      | Some q =>
          if Ascii.eqb c BACKSLASH then
            match rest with
            | String e rest' =>
                let '(raw, r) := scanRaw inString depth rest' in
                (String c (String e raw), r)
            | EmptyString => (String c EmptyString, EmptyString)
            end
          else if Ascii.eqb c q then keep None depth
          else keep inString depth
      | None =>
          if Ascii.eqb c SQUOTE || Ascii.eqb c DQUOTE then keep (Some c) depth
          else if Ascii.eqb c "(" || Ascii.eqb c "[" || Ascii.eqb c "{" then keep None (S depth)
          else if isDelimiter c then
            match depth with
            | O => (EmptyString, s)
            | S d => if Ascii.eqb c "," then keep None depth else keep None d
            end
          else keep None depth
      end
  end.

Definition atDelimiter (s : string) : bool :=
  match skipWs s with
  | String c _ => isDelimiter c
  | EmptyString => true
  end.

(** What follows the three dots of a spread. *)
Definition afterDots (s : string) : string :=
  String.substring 3 (String.length s - 3) s.

Definition keyword (word : string) : Node :=
  if String.eqb word "true" then TrueKeyword
  else if String.eqb word "false" then FalseKeyword
  else if String.eqb word "null" then NullKeyword
  else Identifier word.

Fixpoint readValue (fuel : nat) (s : string) : option (Node * string) :=
  match fuel with
  | O => None
  | S fuel' =>
      match skipWs s with
      | EmptyString => None
      | String c rest =>
          if Ascii.eqb c SQUOTE || Ascii.eqb c DQUOTE then
            match scanString c rest with
            | Some (v, _, r) => Some (StringLiteral v, r)
            | None => None
            end
          else if isDigit c then
            let '(digits, r) := takeWhile isDigit (String c rest) in
            Some (NumericLiteral (digitsValue 0 digits), r)
          else if Ascii.eqb c "[" then
            match readElements fuel' rest with
            | Some (elements, r) => Some (ArrayLiteralExpression elements, r)
            | None => None
            end
          else if Ascii.eqb c "{" then
            match readMembers fuel' rest with
            | Some (members, r) => Some (ObjectLiteralExpression members, r)
            | None => None
            end
          else if isIdentStart c then
            let '(word, r) := takeWhile isIdentPart (String c rest) in
            if String.eqb word "await" then
              match readItem fuel' r with
              | Some (e, r') => Some (AwaitExpression e, r')
              | None => None
              end
            else if String.eqb word "import" then
              match skipWs r with
              | String "(" r' =>
                  match readElements fuel' r' with
                  | Some (args, r'') => Some (CallExpression ImportKeyword args, r'')
                  | None => None
                  end
              | _ => None
              end
            else Some (keyword word, r)
          else None
      end
  end
(** An expression in a delimited position: a value followed by a
    delimiter, or else the raw text up to the delimiter. *)
with readItem (fuel : nat) (s : string) : option (Node * string) :=
  match fuel with
  | O => None
  | S fuel' =>
      let raw := scanRaw None 0 (skipWs s) in
      match readValue fuel' s with
      | Some (n, r) =>
          if atDelimiter r then Some (n, r)
          else if String.eqb (trim (fst raw)) "" then None
          else Some (OtherExpression (trim (fst raw)), snd raw)
      | None =>
          if String.eqb (trim (fst raw)) "" then None
          else Some (OtherExpression (trim (fst raw)), snd raw)
      end
  end
(** Comma-separated elements up to the closing bracket. *)
with readElements (fuel : nat) (s : string) : option (list Node * string) :=
  match fuel with
  | O => None
  | S fuel' =>
      match skipWs s with
      | EmptyString => None
      | String c rest =>
          if Ascii.eqb c "]" || Ascii.eqb c ")" then Some ([], rest)
          else
            let item :=
              if String.prefix "..." (String c rest)
              then match readItem fuel' (afterDots (String c rest)) with
                   | Some (e, r) => Some (SpreadElement e, r)
                   | None => None
                   end
              else readItem fuel' (String c rest) in
            match item with
            | None => None
            | Some (e, r) =>
                match skipWs r with
                | String d r' =>
                    if Ascii.eqb d "," then
                      match readElements fuel' r' with
                      | Some (es, r'') => Some (e :: es, r'')
                      | None => None
                      end
                    else if Ascii.eqb d "]" || Ascii.eqb d ")" then Some ([e], r')
                    else None
                | EmptyString => None
                end
            end
      end
  end
(** Comma-separated members up to the closing brace. *)
with readMembers (fuel : nat) (s : string) : option (list Member * string) :=
  match fuel with
  | O => None
  | S fuel' =>
      match skipWs s with
      | EmptyString => None
      | String c rest =>
          if Ascii.eqb c "}" then Some ([], rest)
          else
            let member :=
              if String.prefix "..." (String c rest)
              then match readItem fuel' (afterDots (String c rest)) with
                   | Some (e, r) => Some (SpreadAssignment e, r)
                   | None => None
                   end
              else
                let name :=
                  if Ascii.eqb c SQUOTE || Ascii.eqb c DQUOTE then
                    match scanString c rest with
                    | Some (_, raw, r) => Some (String c raw +:+ String c "", r, false)
                    | None => None
                    end
                  else if isIdentPart c then
                    let '(word, r) := takeWhile isIdentPart (String c rest) in
                    Some (word, r, isIdentStart c)
                  else None in
                match name with
                | None => None
                | Some (text, r, canBeShorthand) =>
                    match skipWs r with
                    | String ":" r' =>
                        match readItem fuel' r' with
                        | Some (e, r'') => Some (PropertyAssignment text e, r'')
                        | None => None
                        end
                    | _ =>
                        if canBeShorthand && atDelimiter r
                        then Some (ShorthandPropertyAssignment text, r)
                        else None
                    end
                end in
            match member with
            | None => None
            | Some (m, r) =>
                match skipWs r with
                | String d r' =>
                    if Ascii.eqb d "," then
                      match readMembers fuel' r' with
                      | Some (ms, r'') => Some (m :: ms, r'')
                      | None => None
                      end
                    else if Ascii.eqb d "}" then Some ([m], r')
                    else None
                | EmptyString => None
                end
            end
      end
  end.

Definition readExpression (text : string) : Node :=
  match readValue (2 * String.length text + 4) text with
  | Some (n, rest) =>
      if String.eqb (skipWs rest) "" then n else OtherExpression (trim text)
  | None => OtherExpression (trim text)
  end.

(** Files of one statement, [export default e] or [export = e]. *)
Definition readSourceFile (path content : string) : SourceFile :=
  let text := trim content in
  let expressionOf (rest : string) :=
    readExpression (match unsnoc (trim rest) with
                    | Some (init, ";"%char) => init
                    | _ => rest
                    end) in
  mkSourceFile path
    (if String.eqb text "" then []
     else if String.prefix "export default " text
     then [ExportAssignment false (expressionOf (String.substring 15 (String.length text) text))]
     else if String.prefix "export = " text
     then [ExportAssignment true (expressionOf (String.substring 9 (String.length text) text))]
     else [OtherStatement text]).

Definition host : TsMorph := {|
  getText := nodeText;
  parseExpression := readExpression;
  createSourceFile := readSourceFile
|}.

End Reference.

(* ===================================================================== *)
(** * Vocabulary of the statements *)
(* ===================================================================== *)

Import EslintTsMorphUtil.

Section Vocabulary.
Context `{TsMorph}.

(** The callee forms of a dynamic import: the [import] keyword in call
    position, or an identifier whose text is [import]. *)
Definition isImportCallee (callee : Node) : bool :=
  Ast.isImportExpression callee
  || (isIdentifier callee && String.eqb (getText callee) "import").

(** The shapes that the decoder gives a structured value, as the
    specification lists them; the dynamic import is an awaited call of an
    import callee whose first argument is a string literal. *)
Definition isRecognizedShape (valueNode : Node) : bool :=
  match valueNode with
  | StringLiteral _ | NumericLiteral _ => true
  | TrueKeyword | FalseKeyword | NullKeyword | UndefinedKeyword => true
  | Identifier _ => String.eqb (getText valueNode) "undefined"
  | ArrayLiteralExpression _ | ObjectLiteralExpression _ => true
  | AwaitExpression (CallExpression callee (StringLiteral _ :: _)) => isImportCallee callee
  | _ => false
  end.

(** The tagged value of a dynamic import of [modulePath]. *)
Definition dynamicImport (modulePath : string) : JsValue :=
  VObject [("__dynamicImport", VString modulePath)].

(** The source file a construction reads: the handle itself, or what the
    tree holds at the path (a missing file reads as empty text).  There is
    none when a tree comes without a path. *)
Definition sourceFileOf (input : SourceFileOrTree) (path : option string)
  : option SourceFile :=
  match input with
  | OfSourceFile sf => Some sf
  | OfTree t =>
      match path with
      | Some p =>
          if String.eqb p "" then None
          else Some (createSourceFile p (default "" (read t p)))
      | None => None
      end
  end.

(** The file has an [export default] statement. *)
Definition hasExportDefault (sf : SourceFile) : Prop :=
  exists e, ExportAssignment false e ∈ sfStatements sf.

(** No usable configuration array: the file has no export assignment, or
    the expression of its first export assignment is not an array
    literal. *)
Definition lacksConfigArray (sf : SourceFile) : Prop :=
  getExportAssignments sf = [] \/
  exists e rest, getExportAssignments sf = e :: rest /\ isArrayLiteralExpression e = false.

(** An element whose [files] array is set-equal to [patterns]: an object
    literal with a [files] property holding an array literal whose string
    literals are a reordering of [patterns]. *)
Definition matchesPatterns (patterns : list string) (element : Node) : Prop :=
  exists existing, existingFiles element = Some existing /\ existing ≡ₚ patterns.

(** The keys of a rules object literal as [parseRulesObject] reads them:
    the quote-stripped names of its property assignments, in order, with
    repetitions. *)
Definition ruleKeys (rules : list Member) : list string :=
  omap (fun m => match m with
                 | PropertyAssignment name _ => Some (stripQuotes name)
                 | _ => None
                 end) rules.

(** An element with a literal empty [files] array, [files: []]. *)
Definition hasEmptyFilesArray (element : Node) : Prop :=
  exists properties index name,
    element = ObjectLiteralExpression properties /\
    getProperty "files" properties
    = Some (index, PropertyAssignment name (ArrayLiteralExpression [])).

(** What an operation leaves alone in the exported array: nothing is
    dropped, and every element that is not an object literal (a spread of a
    base configuration, say) stays where it is. *)
Definition keepsOtherElements (s s' : Session) : Prop :=
  forall elements, configArray s = Some elements ->
  exists elements',
    configArray s' = Some elements' /\
    length elements <= length elements' /\
    forall j element,
      elements !! j = Some element ->
      isObjectLiteralExpression element = false ->
      elements' !! j = Some element.

(** The positions that the lookups return are the same in both sessions,
    for every list of patterns. *)
Definition sameLookups (s s' : Session) : Prop :=
  forall patterns,
    fst <$> findConfigByFiles patterns s' = fst <$> findConfigByFiles patterns s.

(** The key under which the decoders of object literals enter a member:
    the quote-stripped name of a property assignment, the three dots and
    the expression text of a spread; other members are skipped. *)
Definition decodedKey (m : Member) : option string :=
  match m with
  | PropertyAssignment name _ => Some (stripQuotes name)
  | SpreadAssignment expression => Some ("..." +:+ getText expression)
  | _ => None
  end.

(** A key that a JavaScript object keeps as an own property in the order
    of insertion: not [__proto__], and not made of decimal digits only
    (among the digit keys are the array indices, which an object lists
    first and in ascending order). *)
Definition isOrdinaryKey (key : string) : bool :=
  negb (String.eqb key "__proto__")
  && (String.eqb key ""
      || negb (forallb Reference.isDigit (list_ascii_of_string key))).

(** A text that is one identifier by its characters: a letter, [_] or
    [$], then letters, digits, [_] or [$].  An import specifier of this
    form is read back as the name that was written. *)
Definition isIdentifierText (text : string) : bool :=
  match text with
  | EmptyString => false
  | String c rest =>
      Reference.isIdentStart c && forallb Reference.isIdentPart (list_ascii_of_string rest)
  end.

(** The declarations of the modules other than [m], in file order. *)
Definition otherModules (m : string) (s : list ImportTsMorphUtil.ImportDeclaration)
  : list ImportTsMorphUtil.ImportDeclaration :=
  filter (fun d => ImportTsMorphUtil.moduleSpecifierValue d <> m) s.

End Vocabulary.

(** Data of the worked examples. *)
Module Examples.

(** A session on [export default [];]. *)
Definition emptySession : Session :=
  mkSession
    (mkSourceFile "eslint.config.mjs" [ExportAssignment false (ArrayLiteralExpression [])])
    None "eslint.config.mjs" (Some []).

(** A session whose array holds the given elements. *)
Definition sessionOf (elements : list Node) : Session :=
  mkSession
    (mkSourceFile "eslint.config.mjs"
       [ExportAssignment false (ArrayLiteralExpression elements)])
    None "eslint.config.mjs" (Some elements).

(** [{ files: ['a', 'b'], rules: { x: 1 } }] and
    [{ files: ['b', 'a'], rules: { x: 2 } }]. *)
Definition upsertAB : list (string * JsValue) :=
  [("files", VArray [VString "a"; VString "b"]); ("rules", VObject [("x", VNumber 1)])].
Definition upsertBA : list (string * JsValue) :=
  [("files", VArray [VString "b"; VString "a"]); ("rules", VObject [("x", VNumber 2)])].

(** The entry and the upsert of the unit test "should update existing
    config when files pattern matches". *)
Definition tsEntry : Node :=
  ObjectLiteralExpression
    [PropertyAssignment "files" (ArrayLiteralExpression [StringLiteral "**/*.ts"]);
     PropertyAssignment "rules"
       (ObjectLiteralExpression
          [PropertyAssignment "'no-console'" (StringLiteral "error")])].
Definition tsUpdate : list (string * JsValue) :=
  [("files", VArray [VString "**/*.ts"]);
   ("rules", VObject [("no-console", VString "warn"); ("no-debugger", VString "error")])].

(** [{ files: [tsFiles], rules: {} }], whose [files] array holds an
    identifier and no string literal. *)
Definition variableFilesEntry : Node :=
  ObjectLiteralExpression
    [PropertyAssignment "files" (ArrayLiteralExpression [Identifier "tsFiles"]);
     PropertyAssignment "rules" (ObjectLiteralExpression [])].

(** An upsert without a [files] property, [{ rules: { x: 1 } }]. *)
Definition rulesOnly : list (string * JsValue) :=
  [("rules", VObject [("x", VNumber 1)])].

(** The rules and the members of [tsEntry]. *)
Definition tsRules : list Member :=
  [PropertyAssignment "'no-console'" (StringLiteral "error")].
Definition tsConfig : list Member :=
  [PropertyAssignment "files" (ArrayLiteralExpression [StringLiteral "**/*.ts"]);
   PropertyAssignment "rules" (ObjectLiteralExpression tsRules)].

(** The array element [...baseConfig]. *)
Definition baseSpread : Node := SpreadElement (Identifier "baseConfig").

(** An entry for the JavaScript files whose rules start with a spread,
    [rules: { ...baseRules, 'semi': 'error' }]. *)
Definition jsRules : list Member :=
  [SpreadAssignment (Identifier "baseRules");
   PropertyAssignment "'semi'" (StringLiteral "error")].
Definition jsEntry : Node :=
  ObjectLiteralExpression
    [PropertyAssignment "files" (ArrayLiteralExpression [StringLiteral "**/*.js"]);
     PropertyAssignment "rules" (ObjectLiteralExpression jsRules)].

(** [import React, { useState } from 'react';], [import _ from 'lodash';]
    and the side-effect import [import './polyfill';]. *)
Definition reactImport : ImportTsMorphUtil.ImportDeclaration :=
  ImportTsMorphUtil.mkImport "react" (Some "React") None
    [ImportTsMorphUtil.mkSpecifier "useState" None].
Definition lodashImport : ImportTsMorphUtil.ImportDeclaration :=
  ImportTsMorphUtil.mkImport "lodash" (Some "_") None [].
Definition polyfillImport : ImportTsMorphUtil.ImportDeclaration :=
  ImportTsMorphUtil.mkImport "./polyfill" None None [].

End Examples.

(* ===================================================================== *)
(** * Decoding of property values *)
(* ===================================================================== *)

Section Decoding.
Context `{TsMorph}.

Lemma parseDynamicImport_Some callee args value :
  parseDynamicImport callee args = Some value <->
  isImportCallee callee = true /\
  exists modulePath rest,
    args = StringLiteral modulePath :: rest /\ value = dynamicImport modulePath.
Proof.
  unfold parseDynamicImport, isImportCallee, dynamicImport.
  destruct (_ || _); simpl.
  - destruct args as [|first rest]; simpl.
    + split; [discriminate | intros [_ (m & r & Hargs & _)]; discriminate].
    + destruct first; simpl;
        try (split; [discriminate | intros [_ (m & r & Hargs & _)]; discriminate]).
      split.
      * intros [= <-]. eauto.
      * intros [_ (m & r & [= -> ->] & ->)]. reflexivity.
  - split; [discriminate | intros [? _]; discriminate].
Qed.

Lemma parseDynamicImport_None callee args :
  parseDynamicImport callee args = None <->
  ~ (isImportCallee callee = true /\
     exists modulePath rest, args = StringLiteral modulePath :: rest).
Proof.
  split.
  - intros Hnone [Hc (m & r & Hargs)].
    assert (parseDynamicImport callee args = Some (dynamicImport m)) as Hsome
      by (apply parseDynamicImport_Some; eauto).
    congruence.
  - intros Hnot. destruct (parseDynamicImport callee args) as [v|] eqn:E; [|reflexivity].
    apply parseDynamicImport_Some in E as [Hc (m & r & Hargs & _)].
    exfalso. apply Hnot. eauto.
Qed.

(** The local loop of [parsePropertyValueNode] is [parseObjectLiteral]. *)
Lemma parsePropertyValue_object properties :
  parsePropertyValue (Some (ObjectLiteralExpression properties))
  = VObject (parseObjectLiteral properties).
Proof.
  unfold parseObjectLiteral. simpl. f_equal.
  generalize (@nil (string * JsValue)) as acc.
  induction properties as [|property rest IH]; intros acc; simpl; [reflexivity|].
  destruct property; simpl; apply IH.
Qed.

Lemma parsePropertyValue_array elements :
  parsePropertyValue (Some (ArrayLiteralExpression elements))
  = VArray (List.map (fun element => parsePropertyValue (Some element)) elements).
Proof. reflexivity. Qed.

(** C3.  Decoding is total and falls back to text: [parsePropertyValue]
    yields a value for every expression node (it has no failing outcome),
    and a node that is not of a recognized shape (string or numeric
    literal, boolean, null or undefined keyword, the identifier
    [undefined], array literal, object literal, recognized awaited dynamic
    import) decodes to its verbatim source text. *)
Theorem parsePropertyValue_total_with_text_fallback (valueNode : Node) :
  (exists value, parsePropertyValue (Some valueNode) = value) /\
  (isRecognizedShape valueNode = false ->
   parsePropertyValue (Some valueNode) = VString (getText valueNode)).
Proof.
  split; [eexists; reflexivity|].
  destruct valueNode as [| | | | | | |name|els|props|e|e|f args|text];
    simpl; try discriminate; try reflexivity.
  - intros ->. reflexivity.
  - destruct e as [| | | | | | |n|els|props|e'|e'|callee args|text]; try reflexivity.
    intros Hshape.
    destruct (parseDynamicImport callee args) as [v|] eqn:E; [|reflexivity].
    apply parseDynamicImport_Some in E as [Hc (m & r & -> & _)].
    congruence.
Qed.

(** C4, as the code has it.  An awaited call decodes to the tagged dynamic
    import of [modulePath] exactly when the callee is the import-expression
    form or the bare identifier [import] and the call has at least one
    argument, the first being the string literal [modulePath]; further
    arguments are ignored.  An awaited call of any other shape decodes to
    its verbatim source text. *)
Theorem awaited_call_decoding (callee : Node) (args : list Node) :
  let valueNode := AwaitExpression (CallExpression callee args) in
  (forall modulePath,
     parsePropertyValue (Some valueNode) = dynamicImport modulePath <->
     isImportCallee callee = true /\ exists rest, args = StringLiteral modulePath :: rest)
  /\ (~ (isImportCallee callee = true /\
         exists modulePath rest, args = StringLiteral modulePath :: rest) ->
      parsePropertyValue (Some valueNode) = VString (getText valueNode)).
Proof.
  simpl. split.
  - intros modulePath. split.
    + destruct (parseDynamicImport callee args) as [v|] eqn:E; [|discriminate].
      apply parseDynamicImport_Some in E as [Hc (m & r & -> & ->)].
      intros [= ->]. eauto.
    + intros [Hc [rest ->]].
      assert (parseDynamicImport callee (StringLiteral modulePath :: rest)
              = Some (dynamicImport modulePath)) as ->
        by (apply parseDynamicImport_Some; eauto).
      reflexivity.
  - intros Hnot. apply parseDynamicImport_None in Hnot. rewrite Hnot. reflexivity.
Qed.

End Decoding.

Lemma parsePropertyValue_total_with_text_fallback_witness :
  isRecognizedShape (H := Reference.host)
    (CallExpression (Identifier "require") [StringLiteral "m"]) = false /\
  parsePropertyValue (H := Reference.host)
    (Some (CallExpression (Identifier "require") [StringLiteral "m"]))
  = VString "require('m')".
Proof.
  split; [reflexivity|].
  apply (parsePropertyValue_total_with_text_fallback (H := Reference.host)
           (CallExpression (Identifier "require") [StringLiteral "m"])).
  reflexivity.
Defined.

Lemma awaited_call_decoding_witness :
  parsePropertyValue (H := Reference.host)
    (Some (AwaitExpression (CallExpression (Identifier "load") [StringLiteral "m"])))
  = VString "await load('m')".
Proof.
  apply (awaited_call_decoding (H := Reference.host) (Identifier "load") [StringLiteral "m"]).
  intros [Hcallee _]. vm_compute in Hcallee. discriminate.
Defined.

(** C4 as stated fails: with two arguments, the first a string literal,
    the call still decodes to the dynamic import, although it does not have
    exactly one argument. *)
Lemma awaited_call_exactly_one_argument_counterexample :
  ~ (forall modulePath,
       parsePropertyValue (H := Reference.host)
         (Some (AwaitExpression
                  (CallExpression ImportKeyword
                     [StringLiteral "jsonc-eslint-parser"; Identifier "options"])))
       = dynamicImport modulePath <->
       isImportCallee (H := Reference.host) ImportKeyword = true /\
       [StringLiteral "jsonc-eslint-parser"; Identifier "options"]
       = [StringLiteral modulePath]).
Proof.
  intros Hclaim.
  destruct (Hclaim "jsonc-eslint-parser") as [Hto _].
  destruct (Hto eq_refl) as [_ Hargs]. discriminate Hargs.
Qed.

(* ===================================================================== *)
(** * Construction *)
(* ===================================================================== *)

Section Construction.
Context `{TsMorph}.

Lemma parseConfigArray_throws sf path :
  isThrow (parseConfigArray sf path) = true <-> lacksConfigArray sf.
Proof.
  unfold parseConfigArray, lacksConfigArray.
  destruct (getExportAssignments sf) as [|e rest]; simpl.
  - split; auto.
  - destruct (isArrayLiteralExpression e) eqn:Hkind.
    + destruct e; try discriminate Hkind; simpl. split; [discriminate|].
      intros [Hnil | (e & r & [= <- <-] & Hkind')]; discriminate.
    + split; [intros _; right; eauto|].
      intros _. destruct e; try reflexivity; discriminate Hkind.
Qed.

Lemma parseConfigArray_ok sf path elements :
  parseConfigArray sf path = Ok elements <->
  exists rest, getExportAssignments sf = ArrayLiteralExpression elements :: rest.
Proof.
  unfold parseConfigArray.
  destruct (getExportAssignments sf) as [|e rest]; simpl.
  - split; [discriminate | intros [? ?]; discriminate].
  - destruct e; simpl; split; try discriminate; try (intros [? [=]]).
    + intros [= ->]. eauto.
    + subst. reflexivity.
Qed.

(** C8.  [parseConfigArray] takes the first export assignment without
    looking whether it is [export default e] or [export = e].  So for a
    source file that has no export-default statement and whose first
    export assignment is [export = [...]], construction does not throw:
    it returns a session on the elements of that array, where the claim,
    and the documentation of [parseConfigArray], have it fail with
    "No export default found". *)
Theorem constructor_accepts_export_equals (input : SourceFileOrTree)
    (path : option string) (sf : SourceFile) (elements rest : list Node) :
  sourceFileOf input path = Some sf ->
  ~ hasExportDefault sf ->
  getExportAssignments sf = ArrayLiteralExpression elements :: rest ->
  isThrow (constructor input path) = false /\
  exists s, constructor input path = Ok s /\
            sourceFile s = sf /\ configArray s = Some elements.
Proof.
  intros Hsf _ Hexport.
  assert (forall p, parseConfigArray sf p = Ok elements) as Hparse
    by (intros p; apply parseConfigArray_ok; eauto).
  destruct input as [sf'|t]; simpl in Hsf |- *.
  - injection Hsf as ->. rewrite Hparse. simpl. eauto.
  - destruct path as [p|]; [|discriminate].
    destruct (String.eqb p ""); [discriminate|].
    injection Hsf as Hsf. unfold default in Hsf. simpl in Hsf.
    rewrite Hsf, Hparse. simpl. eauto.
Qed.

(** X22.  Construction throws exactly when a tree is given without a
    file path, or the source file has no export assignment at all
    ([export default e] or [export = e]), or the expression of its first
    export assignment is not an array literal.  A throw leaves no
    session; a successful construction holds the elements of that array
    literal. *)
Theorem constructor_throws_iff (input : SourceFileOrTree) (path : option string) :
  (isThrow (constructor input path) = true <->
   match sourceFileOf input path with
   | None => True
   | Some sf => lacksConfigArray sf
   end)
  /\ (isThrow (constructor input path) = true ->
      forall s, constructor input path <> Ok s)
  /\ (forall s, constructor input path = Ok s ->
      exists sf elements rest,
        sourceFileOf input path = Some sf /\ sourceFile s = sf /\
        getExportAssignments sf = ArrayLiteralExpression elements :: rest /\
        configArray s = Some elements).
Proof.
  split; [|split].
  - destruct input as [sf|t]; simpl.
    + rewrite <- (parseConfigArray_throws sf
                    (match path with
                     | Some p => if String.eqb p "" then sfFilePath sf else p
                     | None => sfFilePath sf
                     end)).
      destruct (parseConfigArray sf _); reflexivity.
    + destruct path as [p|]; [|tauto].
      destruct (String.eqb p ""); [tauto|].
      rewrite <- (parseConfigArray_throws _ p).
      destruct (parseConfigArray _ p); reflexivity.
  - intros Hthrow s Hok. rewrite Hok in Hthrow. discriminate.
  - intros s. destruct input as [sf|t]; simpl.
    + destruct (parseConfigArray sf _) as [elements|] eqn:E; simpl; [|discriminate].
      intros [= <-]. apply parseConfigArray_ok in E as [rest E].
      exists sf, elements, rest. auto.
    + destruct path as [p|]; [|discriminate].
      destruct (String.eqb p ""); [discriminate|].
      destruct (parseConfigArray _ p) as [elements|] eqn:E; simpl; [|discriminate].
      intros [= <-]. apply parseConfigArray_ok in E as [rest E].
      eexists _, elements, rest. eauto.
Qed.

End Construction.

Lemma constructor_throws_iff_witness :
  isThrow (constructor (H := Reference.host)
             (OfSourceFile (Reference.readSourceFile "eslint.config.mjs"
                              "export default { rules: {} };")) None) = true /\
  forall s,
    constructor (H := Reference.host)
      (OfSourceFile (Reference.readSourceFile "eslint.config.mjs"
                       "export default { rules: {} };")) None <> Ok s.
Proof.
  split; [reflexivity|].
  apply (constructor_throws_iff (H := Reference.host)
           (OfSourceFile (Reference.readSourceFile "eslint.config.mjs"
                            "export default { rules: {} };")) None).
  reflexivity.
Defined.

Lemma constructor_accepts_export_equals_witness :
  let sf := mkSourceFile "eslint.config.cts"
              [ExportAssignment true (ArrayLiteralExpression [])] in
  isThrow (constructor (H := Reference.host) (OfSourceFile sf) None) = false /\
  exists s, constructor (H := Reference.host) (OfSourceFile sf) None = Ok s /\
            sourceFile s = sf /\ configArray s = Some [].
Proof.
  apply (constructor_accepts_export_equals (H := Reference.host)
           (OfSourceFile (mkSourceFile "eslint.config.cts"
                            [ExportAssignment true (ArrayLiteralExpression [])]))
           None
           (mkSourceFile "eslint.config.cts"
              [ExportAssignment true (ArrayLiteralExpression [])]) [] []).
  - reflexivity.
  - intros [e He]. simpl in He.
    inversion He as [|? ? ? Hrest]; subst. inversion Hrest.
  - reflexivity.
Defined.

(** At the file [export = [];] the equivalence that the claim states does
    not hold: there is no export-default statement, and construction does
    not throw. *)
Lemma constructor_export_equals_counterexample :
  let sf := mkSourceFile "eslint.config.cts"
              [ExportAssignment true (ArrayLiteralExpression [])] in
  ~ (isThrow (constructor (H := Reference.host) (OfSourceFile sf) None) = true <->
     (~ (exists e, In (ExportAssignment false e) (sfStatements sf)) \/
      exists e rest, getExportAssignments sf = e :: rest /\
                     isArrayLiteralExpression e = false)).
Proof.
  simpl. intros [_ Hfrom].
  assert (false = true) as Habs; [|discriminate].
  apply Hfrom. left. intros [e [Hin|[]]]. discriminate.
Qed.

(* ===================================================================== *)
(** * Lookup by file patterns *)
(* ===================================================================== *)

Section Lookup.

#[local] Arguments existingFiles : simpl never.

Lemma everyFrom_prefix (pre la lb : list string) :
  everyFrom (length pre)
    (fun val index =>
       match (pre ++ lb) !! index with
       | Some other => String.eqb val other
       | None => false
       end) la = true
  <-> exists rest, lb = la ++ rest.
Proof.
  revert pre lb. induction la as [|x la IH]; intros pre lb; simpl.
  - split; eauto.
  - rewrite lookup_app_r, Nat.sub_diag by lia.
    destruct lb as [|y lb]; simpl.
    + split; [discriminate | intros [rest [=]]].
    + replace (pre ++ y :: lb) with ((pre ++ [y]) ++ lb)
        by (rewrite <- app_assoc; reflexivity).
      replace (S (length pre)) with (length (pre ++ [y]))
        by (rewrite length_app; simpl; lia).
      rewrite andb_true_iff, IH, String.eqb_eq.
      split.
      * intros [-> [rest ->]]. eauto.
      * intros [rest [= -> ->]]. eauto.
Qed.

Lemma sort_eq_iff (a b : list string) : sort a = sort b <-> a ≡ₚ b.
Proof.
  unfold sort. split.
  - intros Heq.
    rewrite <- (merge_sort_Permutation String.le a), Heq.
    apply merge_sort_Permutation.
  - intros Hperm.
    apply (StronglySorted_unique String.le);
      try apply StronglySorted_merge_sort; try apply _.
    rewrite !merge_sort_Permutation. exact Hperm.
Qed.

(** [arraysEqual] decides equality up to reordering. *)
Lemma arraysEqual_Permutation (a b : list string) :
  arraysEqual a b = true <-> a ≡ₚ b.
Proof.
  unfold arraysEqual, every.
  destruct (Nat.eqb_spec (length a) (length b)) as [Hlen|Hlen]; simpl.
  - rewrite (everyFrom_prefix [] (sort a) (sort b)). rewrite <- sort_eq_iff.
    split.
    + intros [rest Hrest].
      assert (length (sort b) = length (sort a)) as Hl.
      { unfold sort. rewrite !merge_sort_Permutation. congruence. }
      rewrite Hrest, length_app in Hl.
      destruct rest; simpl in Hl; [|lia].
      rewrite Hrest, app_nil_r. reflexivity.
    + intros ->. exists []. rewrite app_nil_r. reflexivity.
  - split; [discriminate|].
    intros Hperm. apply Permutation_length in Hperm. contradiction.
Qed.

Lemma arraysEqual_reorder (existing p p' : list string) :
  p ≡ₚ p' -> arraysEqual existing p = arraysEqual existing p'.
Proof.
  intros Hperm. apply eq_true_iff_eq.
  rewrite !arraysEqual_Permutation. rewrite Hperm. reflexivity.
Qed.

Lemma findFrom_reorder (k : nat) (p p' : list string) (elements : list Node) :
  p ≡ₚ p' -> findFrom k p elements = findFrom k p' elements.
Proof.
  intros Hperm. revert k.
  induction elements as [|element rest IH]; intros k; simpl; [reflexivity|].
  destruct element; try apply IH.
  destruct (existingFiles (ObjectLiteralExpression properties)) as [existing|];
    [|apply IH].
  rewrite (arraysEqual_reorder existing p p' Hperm).
  destruct (arraysEqual existing p'); [reflexivity | apply IH].
Qed.

Lemma existingFiles_object (element : Node) (existing : list string) :
  existingFiles element = Some existing ->
  exists properties, element = ObjectLiteralExpression properties.
Proof. destruct element; try discriminate. eauto. Qed.

(** [findFrom] returns the first element that matches the patterns. *)
Lemma findFrom_Some (k : nat) (files : list string) (elements : list Node)
    (index : nat) (properties : list Member) :
  findFrom k files elements = Some (index, properties) <->
  exists j,
    index = k + j /\
    elements !! j = Some (ObjectLiteralExpression properties) /\
    matchesPatterns files (ObjectLiteralExpression properties) /\
    forall j' element, j' < j -> elements !! j' = Some element ->
                       ~ matchesPatterns files element.
Proof.
  revert k. induction elements as [|element rest IH]; intros k.
  - simpl. split; [discriminate | intros (j & _ & Hj & _); discriminate].
  - assert (forall existing, existingFiles element = Some existing ->
                             arraysEqual existing files = false ->
                             ~ matchesPatterns files element) as Hno.
    { intros existing He Hneq (existing' & He' & Hperm).
      rewrite He in He'. injection He' as <-.
      apply arraysEqual_Permutation in Hperm. congruence. }
    assert ((findFrom (S k) files rest = Some (index, properties) /\
             ~ matchesPatterns files element) <->
            exists j, index = k + j /\
              (element :: rest) !! j = Some (ObjectLiteralExpression properties) /\
              matchesPatterns files (ObjectLiteralExpression properties) /\
              (forall j' e, j' < j -> (element :: rest) !! j' = Some e ->
                            ~ matchesPatterns files e) /\ j <> 0) as Hstep.
    { rewrite IH. split.
      - intros [(j & -> & Hj & Hm & Hfirst) Hne].
        exists (S j). split_and!; [lia | exact Hj | exact Hm | | lia].
        intros [|j'] e Hlt He; simpl in He.
        + injection He as <-. exact Hne.
        + apply (Hfirst j' e); [lia | exact He].
      - intros (j & -> & Hj & Hm & Hfirst & Hnz).
        destruct j as [|j]; [contradiction|]. split.
        + exists j. split_and!; [lia | exact Hj | exact Hm |].
          intros j' e Hlt He. apply (Hfirst (S j') e); [lia | exact He].
        + apply (Hfirst 0 element); [lia | reflexivity]. }
    simpl findFrom.
    destruct (existingFiles element) as [existing|] eqn:He.
    + destruct (existingFiles_object _ _ He) as [ps ->]. rewrite He.
      destruct (arraysEqual existing files) eqn:Heq.
      * split.
        -- intros [= <- <-]. exists 0. split_and!; [lia | reflexivity | | intros; lia].
           exists existing. split; [exact He | by apply arraysEqual_Permutation].
        -- intros (j & -> & Hj & Hm & Hfirst).
           destruct j as [|j].
           ++ injection Hj as ->. f_equal. f_equal. lia.
           ++ exfalso. apply (Hfirst 0 (ObjectLiteralExpression ps)); [lia | reflexivity |].
              exists existing. split; [exact He | by apply arraysEqual_Permutation].
      * split.
        -- intros Hfind. destruct (proj1 Hstep) as (j & ? & ? & ? & ? & _); eauto.
        -- intros (j & -> & Hj & Hm & Hfirst).
           apply Hstep. exists j. split_and!; try done.
           intros ->. injection Hj as <-. eapply Hno; eauto.
    + assert (~ matchesPatterns files element) as Hne
          by (intros (ex & He' & _); congruence).
      clear Hno.
      transitivity (findFrom (S k) files rest = Some (index, properties)).
      { destruct element; try reflexivity. rewrite He. reflexivity. }
      split.
      * intros Hfind. destruct (proj1 Hstep) as (j & ? & ? & ? & ? & _); eauto.
      * intros (j & -> & Hj & Hm & Hfirst).
        apply Hstep. exists j. split_and!; try done.
        intros ->. injection Hj as ->. contradiction.
Qed.

Lemma findFrom_None (k : nat) (files : list string) (elements : list Node) :
  findFrom k files elements = None <->
  forall element, element ∈ elements -> ~ matchesPatterns files element.
Proof.
  revert k. induction elements as [|element rest IH]; intros k.
  - simpl. split; [intros _ e He; inversion He | reflexivity].
  - simpl findFrom.
    assert (~ matchesPatterns files element ->
            (findFrom (S k) files rest = None <->
             forall e, e ∈ element :: rest -> ~ matchesPatterns files e)) as Hskip.
    { intros Hne. rewrite IH. split.
      - intros Hall e [->|Hin]%elem_of_cons; auto.
      - intros Hall e Hin. apply Hall. by right. }
    destruct (existingFiles element) as [existing|] eqn:He.
    + destruct (existingFiles_object _ _ He) as [ps ->]. rewrite He.
      destruct (arraysEqual existing files) eqn:Heq.
      * split; [discriminate|]. intros Hall. exfalso.
        apply (Hall (ObjectLiteralExpression ps)); [by left|].
        exists existing. split; [exact He | by apply arraysEqual_Permutation].
      * apply Hskip. intros (ex & He' & Hperm).
        rewrite He in He'. injection He' as <-.
        apply arraysEqual_Permutation in Hperm. congruence.
    + transitivity (findFrom (S k) files rest = None).
      { destruct element; try reflexivity. rewrite He. reflexivity. }
      apply Hskip. intros (ex & He' & _). congruence.
Qed.

End Lookup.

(* ===================================================================== *)
(** * Upsert *)
(* ===================================================================== *)

Section Upsert.
Context `{TsMorph}.

Lemma findConfigByFiles_first (s : Session) (elements : list Node)
    (patterns : list string) (index : nat) (existingConfig : list Member) :
  configArray s = Some elements ->
  elements !! index = Some (ObjectLiteralExpression existingConfig) ->
  matchesPatterns patterns (ObjectLiteralExpression existingConfig) ->
  (forall j element, j < index -> elements !! j = Some element ->
                     ~ matchesPatterns patterns element) ->
  findConfigByFiles patterns s = Some (index, existingConfig).
Proof.
  intros Hs Hindex Hmatch Hfirst. unfold findConfigByFiles. rewrite Hs.
  apply findFrom_Some. exists index. auto.
Qed.

Lemma addOrUpdateConfig_found (s : Session) (elements : list Node)
    (config : list (string * JsValue)) (index : nat) (existingConfig : list Member) :
  configArray s = Some elements ->
  findConfigByFiles (filesOf config) s = Some (index, existingConfig) ->
  addOrUpdateConfig config s
  = Ok (setElements s
          (<[index := ObjectLiteralExpression (updateConfigObject existingConfig config)]>
             elements)).
Proof. intros Hs Hfind. unfold addOrUpdateConfig. rewrite Hs, Hfind. reflexivity. Qed.

Lemma addOrUpdateConfig_not_found (s : Session) (elements : list Node)
    (config : list (string * JsValue)) :
  configArray s = Some elements ->
  findConfigByFiles (filesOf config) s = None ->
  addOrUpdateConfig config s
  = Ok (setElements s (elements ++ [parseExpression (newConfigObjectText config)])).
Proof.
  intros Hs Hfind. unfold addOrUpdateConfig, addNewConfigObject.
  rewrite Hs, Hfind. reflexivity.
Qed.

End Upsert.

(** C1.  The identity of an entry is its set of patterns, whatever their
    order.  When the first element whose [files] array is set-equal to
    [patterns] sits at [index], [addOrUpdateConfig] with any reordering of
    [patterns] finds that element, patches it in place and appends
    nothing.  In particular, starting from an empty array, the upsert of
    [files: ['a', 'b'], rules: {x: 1}] followed by the upsert of
    [files: ['b', 'a'], rules: {x: 2}] leaves one entry, and it decodes
    with [rules.x = 2]. *)
Theorem upsert_pattern_set_order_independent :
  (forall (H : TsMorph) (s : Session) (elements : list Node) (patterns : list string)
          (index : nat) (existingConfig : list Member) (config : list (string * JsValue)),
      configArray s = Some elements ->
      elements !! index = Some (ObjectLiteralExpression existingConfig) ->
      matchesPatterns patterns (ObjectLiteralExpression existingConfig) ->
      (forall j element, j < index -> elements !! j = Some element ->
                         ~ matchesPatterns patterns element) ->
      filesOf config ≡ₚ patterns ->
      findConfigByFiles (filesOf config) s = Some (index, existingConfig) /\
      addOrUpdateConfig config s
      = Ok (setElements s
              (<[index := ObjectLiteralExpression (updateConfigObject existingConfig config)]>
                 elements)) /\
      length (<[index := ObjectLiteralExpression (updateConfigObject existingConfig config)]>
                elements) = length elements)
  /\ (exists s1 s2 entry,
        addOrUpdateConfig (H := Reference.host) Examples.upsertAB Examples.emptySession = Ok s1 /\
        addOrUpdateConfig (H := Reference.host) Examples.upsertBA s1 = Ok s2 /\
        configArray s2 = Some [entry] /\
        getConfigs (H := Reference.host) s2
        = [VObject [("files", VArray [VString "b"; VString "a"]);
                    ("rules", VObject [("x", VNumber 2)])]]).
Proof.
  split.
  - intros H s elements patterns index existingConfig config Hs Hindex Hmatch Hfirst Hperm.
    assert (findConfigByFiles (filesOf config) s = Some (index, existingConfig)) as Hfind.
    { unfold findConfigByFiles. rewrite Hs.
      rewrite (findFrom_reorder 0 (filesOf config) patterns elements Hperm).
      pose proof (findConfigByFiles_first s elements patterns index existingConfig
                    Hs Hindex Hmatch Hfirst) as Hf.
      unfold findConfigByFiles in Hf. rewrite Hs in Hf. exact Hf. }
    split_and!.
    + exact Hfind.
    + apply addOrUpdateConfig_found; assumption.
    + apply length_insert.
  - eexists _, _, _. split_and!; vm_compute; reflexivity.
Qed.

Lemma upsert_pattern_set_order_independent_witness :
  let elements :=
    [ObjectLiteralExpression
       [PropertyAssignment "files"
          (ArrayLiteralExpression [StringLiteral "a"; StringLiteral "b"]);
        PropertyAssignment "rules"
          (ObjectLiteralExpression [PropertyAssignment "'x'" (NumericLiteral 1)])]] in
  findConfigByFiles (filesOf Examples.upsertBA) (Examples.sessionOf elements)
  = Some (0, [PropertyAssignment "files"
                (ArrayLiteralExpression [StringLiteral "a"; StringLiteral "b"]);
              PropertyAssignment "rules"
                (ObjectLiteralExpression [PropertyAssignment "'x'" (NumericLiteral 1)])]).
Proof.
  intros elements.
  apply (proj1 upsert_pattern_set_order_independent Reference.host
           (Examples.sessionOf elements) elements ["a"; "b"] 0).
  - reflexivity.
  - reflexivity.
  - exists ["a"; "b"]. split; reflexivity.
  - intros j element Hj. lia.
  - vm_compute. apply perm_swap.
Defined.

(* ===================================================================== *)
(** * Patching the rules of an entry *)
(* ===================================================================== *)

Section Rules.
Context `{TsMorph}.

(** A rule found under its exact name text is given the new value in
    place. *)
Lemma updateRulesEntry_found (rules : list Member) (ruleName : string)
    (ruleConfig : JsValue) (index : nat) (name : string) (old : Node) :
  getProperty ruleName rules = Some (index, PropertyAssignment name old) ->
  updateRulesEntry rules (ruleName, ruleConfig)
  = <[index := PropertyAssignment name (parseExpression (valueToString ruleConfig))]> rules.
Proof. intros Hget. unfold updateRulesEntry. rewrite Hget. reflexivity. Qed.

(** A rule not found under its exact name text is appended under the
    single-quoted name. *)
Lemma updateRulesEntry_not_found (rules : list Member) (ruleName : string)
    (ruleConfig : JsValue) :
  getProperty ruleName rules = None ->
  updateRulesEntry rules (ruleName, ruleConfig)
  = rules ++ [PropertyAssignment ("'" +:+ ruleName +:+ "'")
                (parseExpression (valueToString ruleConfig))].
Proof. intros Hget. unfold updateRulesEntry. rewrite Hget. reflexivity. Qed.

(** A field other than an object-valued [rules] replaces the initializer
    of the property found under its name. *)
Lemma updateConfigEntry_found (configObj : list Member) (key : string) (value : JsValue)
    (index : nat) (name : string) (old : Node) :
  getProperty key configObj = Some (index, PropertyAssignment name old) ->
  String.eqb key "rules" && isObjectLike value = false ->
  updateConfigEntry configObj (key, value)
  = <[index := PropertyAssignment name (parseExpression (valueToString value))]> configObj.
Proof.
  intros Hget Hother. unfold updateConfigEntry. rewrite Hget, Hother. reflexivity.
Qed.

(** A field without a property of its name is appended. *)
Lemma updateConfigEntry_not_found (configObj : list Member) (key : string)
    (value : JsValue) :
  getProperty key configObj = None ->
  updateConfigEntry configObj (key, value)
  = configObj ++ [PropertyAssignment key (parseExpression (valueToString value))].
Proof. intros Hget. unfold updateConfigEntry. rewrite Hget. reflexivity. Qed.

Lemma unsnoc_snoc (s : string) (c : ascii) :
  unsnoc (s +:+ String c EmptyString) = Some (s, c).
Proof.
  induction s as [|c' s IH]; simpl; [reflexivity|].
  rewrite IH. reflexivity.
Qed.

(** Stripping undoes the single quotes that the utilities put around a
    rule name. *)
Lemma stripQuotes_quoted (ruleName : string) :
  hasLineTerminator ruleName = false ->
  stripQuotes ("'" +:+ ruleName +:+ "'") = ruleName.
Proof.
  intros Hline. unfold stripQuotes. simpl.
  change (unsnoc _) with (unsnoc (ruleName +:+ String SQUOTE EmptyString)).
  rewrite unsnoc_snoc. simpl. rewrite Hline. reflexivity.
Qed.

Lemma ruleKeys_app (rules more : list Member) :
  ruleKeys (rules ++ more) = ruleKeys rules ++ ruleKeys more.
Proof. unfold ruleKeys. apply omap_app. Qed.

(** C2, at the input of the unit test "should update existing config when
    files pattern matches".  The entry
    [{ files: ['**/*.ts'], rules: { 'no-console': 'error' } }] is upserted
    with rules [no-console: 'warn'] and [no-debugger: 'error'].  The rule
    that is already present is not given its new value in place: the
    lookup goes by the bare name while the key is written with quotes, so
    a second ['no-console'] property is appended and the rules object
    literal holds the key twice.  The sibling [updateRule] on the same
    entry does replace the value in place.  The upsert does not even find
    a rule it has written itself: upserting [rules: {x: 1}] twice for the
    same patterns leaves the key [x] twice. *)
Theorem upsert_appends_duplicate_of_quoted_rule :
  addOrUpdateConfig Examples.tsUpdate (Examples.sessionOf [Examples.tsEntry])
  = Ok (setElements (Examples.sessionOf [Examples.tsEntry])
          [ObjectLiteralExpression
             [PropertyAssignment "files" (parseExpression "['**/*.ts']");
              PropertyAssignment "rules"
                (ObjectLiteralExpression
                   [PropertyAssignment "'no-console'" (StringLiteral "error");
                    PropertyAssignment "'no-console'" (parseExpression "'warn'");
                    PropertyAssignment "'no-debugger'" (parseExpression "'error'")])]])
  /\ updateRule ["**/*.ts"] "no-console" (VString "warn")
       (Examples.sessionOf [Examples.tsEntry])
     = Ok (setElements (Examples.sessionOf [Examples.tsEntry])
             [ObjectLiteralExpression
                [PropertyAssignment "files"
                   (ArrayLiteralExpression [StringLiteral "**/*.ts"]);
                 PropertyAssignment "rules"
                   (ObjectLiteralExpression
                      [PropertyAssignment "'no-console'" (parseExpression "'warn'")])]])
  /\ ruleKeys [PropertyAssignment "'no-console'" (StringLiteral "error");
               PropertyAssignment "'no-console'" (parseExpression "'warn'");
               PropertyAssignment "'no-debugger'" (parseExpression "'error'")]
     = ["no-console"; "no-console"; "no-debugger"]
  /\ (let! s1 := addOrUpdateConfig (H := Reference.host) Examples.upsertAB
                    Examples.emptySession in
      addOrUpdateConfig (H := Reference.host) Examples.upsertAB s1)
     = Ok (setElements Examples.emptySession
             [ObjectLiteralExpression
                [PropertyAssignment "files"
                   (ArrayLiteralExpression [StringLiteral "a"; StringLiteral "b"]);
                 PropertyAssignment "rules"
                   (ObjectLiteralExpression
                      [PropertyAssignment "'x'" (NumericLiteral 1);
                       PropertyAssignment "'x'" (NumericLiteral 1)])]]).
Proof. split_and!; reflexivity. Qed.

(** C9.  When the entry found for the patterns has a [rules] property
    holding an object literal, [addRule] appends a property for the rule
    under its single-quoted name, whatever the object already holds.  The
    keys of the object are then the former keys followed by the rule name,
    so a name that was already a key occurs (at least) twice. *)
Theorem addRule_appends_without_duplicate_check (s : Session) (elements : list Node)
    (filePattern : list string) (index : nat) (configObj : list Member)
    (j : nat) (name : string) (rules : list Member)
    (ruleName : string) (ruleConfig : JsValue) :
  configArray s = Some elements ->
  findConfigByFiles filePattern s = Some (index, configObj) ->
  getProperty "rules" configObj
  = Some (j, PropertyAssignment name (ObjectLiteralExpression rules)) ->
  let rules' :=
    rules ++ [PropertyAssignment ("'" +:+ ruleName +:+ "'")
                (parseExpression (valueToString ruleConfig))] in
  addRule filePattern ruleName ruleConfig s
  = Ok (setElements s
          (<[index := ObjectLiteralExpression
                        (<[j := PropertyAssignment name (ObjectLiteralExpression rules')]>
                           configObj)]> elements))
  /\ (hasLineTerminator ruleName = false ->
      ruleKeys rules' = ruleKeys rules ++ [ruleName] /\
      (ruleName ∈ ruleKeys rules -> ~ NoDup (ruleKeys rules'))).
Proof.
  intros Hs Hfind Hrules rules'. split.
  - unfold addRule, setConfigObject, addPropertyAssignment.
    rewrite Hfind, Hrules, Hs. reflexivity.
  - intros Hline.
    assert (ruleKeys rules' = ruleKeys rules ++ [ruleName]) as Hkeys.
    { unfold rules'. rewrite ruleKeys_app. f_equal.
      change (ruleKeys [PropertyAssignment ("'" +:+ ruleName +:+ "'")
                          (parseExpression (valueToString ruleConfig))])
        with [stripQuotes ("'" +:+ ruleName +:+ "'")].
      rewrite (stripQuotes_quoted ruleName Hline). reflexivity. }
    split; [exact Hkeys|].
    intros Hin Hnodup. rewrite Hkeys in Hnodup.
    apply NoDup_app in Hnodup as (_ & Hdisjoint & _).
    apply (Hdisjoint ruleName Hin). by left.
Qed.

End Rules.

Lemma addRule_appends_without_duplicate_check_witness :
  addRule (H := Reference.host) ["**/*.ts"] "no-console" (VString "warn")
    (Examples.sessionOf [Examples.tsEntry])
  = Ok (setElements (Examples.sessionOf [Examples.tsEntry])
          [ObjectLiteralExpression
             [PropertyAssignment "files"
                (ArrayLiteralExpression [StringLiteral "**/*.ts"]);
              PropertyAssignment "rules"
                (ObjectLiteralExpression
                   [PropertyAssignment "'no-console'" (StringLiteral "error");
                    PropertyAssignment "'no-console'" (StringLiteral "warn")])]])
  /\ ~ NoDup (ruleKeys [PropertyAssignment "'no-console'" (StringLiteral "error");
                        PropertyAssignment "'no-console'" (StringLiteral "warn")]).
Proof.
  pose proof (addRule_appends_without_duplicate_check (H := Reference.host)
                (Examples.sessionOf [Examples.tsEntry]) [Examples.tsEntry]
                ["**/*.ts"] 0
                [PropertyAssignment "files"
                   (ArrayLiteralExpression [StringLiteral "**/*.ts"]);
                 PropertyAssignment "rules"
                   (ObjectLiteralExpression
                      [PropertyAssignment "'no-console'" (StringLiteral "error")])]
                1 "rules" [PropertyAssignment "'no-console'" (StringLiteral "error")]
                "no-console" (VString "warn")
                eq_refl eq_refl eq_refl) as [Hrun Hkeys].
  split.
  - exact Hrun.
  - apply (proj2 (Hkeys eq_refl)). vm_compute. by left.
Defined.

(* ===================================================================== *)
(** * Upserts without a [files] property *)
(* ===================================================================== *)

Section WithoutFiles.
Context `{TsMorph}.

Lemma objGet_absent (key : string) (entries : list (string * JsValue)) :
  objHas key entries = false -> objGet key entries = VUndefined.
Proof.
  unfold objHas. induction entries as [|[k v] rest IH]; simpl; [reflexivity|].
  destruct (String.eqb k key); simpl; [discriminate | exact IH].
Qed.

Lemma filesOf_absent (config : list (string * JsValue)) :
  objHas "files" config = false -> filesOf config = [].
Proof. intros Habsent. unfold filesOf. rewrite (objGet_absent _ _ Habsent). reflexivity. Qed.

Lemma matchesPatterns_nil (element : Node) :
  matchesPatterns [] element <-> existingFiles element = Some [].
Proof.
  split.
  - intros (existing & He & Hperm). apply Permutation_nil_r in Hperm. congruence.
  - intros He. exists []. split; [exact He | reflexivity].
Qed.

Lemma existingFiles_Some (properties : list Member) (existing : list string) :
  existingFiles (ObjectLiteralExpression properties) = Some existing ->
  exists index name filesElements,
    getProperty "files" properties
    = Some (index, PropertyAssignment name (ArrayLiteralExpression filesElements)) /\
    stringLiteralValues filesElements = existing.
Proof.
  unfold existingFiles.
  destruct (getProperty "files" properties) as [[index member]|]; [|discriminate].
  destruct member as [name init| | | | |]; try discriminate.
  destruct init; try discriminate.
  intros [= <-]. eauto.
Qed.

(** C10, as the code has it.  Let the upserted object have no [files]
    property, so that the patterns are the empty list.  It is never merged
    into an entry without a [files] property: an entry found has a [files]
    property assignment whose array literal holds no string literal (an
    empty array, or one of other expressions only).  When no element of the
    array is of that kind, the call appends one new element; and when the
    appended element is not of that kind either, repeating the call appends
    a second copy. *)
Theorem upsert_without_files_property (s : Session) (elements : list Node)
    (config : list (string * JsValue)) :
  configArray s = Some elements ->
  objHas "files" config = false ->
  let newElement := parseExpression (newConfigObjectText config) in
  (forall index existingConfig,
      findConfigByFiles (filesOf config) s = Some (index, existingConfig) ->
      exists i name filesElements,
        getProperty "files" existingConfig
        = Some (i, PropertyAssignment name (ArrayLiteralExpression filesElements)) /\
        stringLiteralValues filesElements = [])
  /\ ((forall element, element ∈ elements -> existingFiles element <> Some []) ->
      addOrUpdateConfig config s = Ok (setElements s (elements ++ [newElement])) /\
      (existingFiles newElement <> Some [] ->
       addOrUpdateConfig config (setElements s (elements ++ [newElement]))
       = Ok (setElements s (elements ++ [newElement; newElement])))).
Proof.
  intros Hs Habsent newElement. rewrite (filesOf_absent config Habsent). split.
  - intros index existingConfig Hfind.
    unfold findConfigByFiles in Hfind. rewrite Hs in Hfind.
    apply findFrom_Some in Hfind as (j & _ & _ & Hmatch & _).
    apply matchesPatterns_nil in Hmatch.
    apply existingFiles_Some in Hmatch. exact Hmatch.
  - intros Hnone.
    assert (forall l : list Node,
               (forall element, element ∈ l -> existingFiles element <> Some []) ->
               findFrom 0 [] l = None) as Hfind.
    { intros l Hl. apply findFrom_None. intros element Hin Hmatch.
      apply matchesPatterns_nil in Hmatch. exact (Hl element Hin Hmatch). }
    split.
    + apply addOrUpdateConfig_not_found; [exact Hs|].
      rewrite (filesOf_absent config Habsent).
      unfold findConfigByFiles. rewrite Hs. apply Hfind, Hnone.
    + intros Hnew.
      rewrite (addOrUpdateConfig_not_found (setElements s (elements ++ [newElement]))
                 (elements ++ [newElement]) config eq_refl).
      * unfold setElements. simpl. rewrite <- app_assoc. reflexivity.
      * rewrite (filesOf_absent config Habsent).
        unfold findConfigByFiles. simpl. apply Hfind.
        intros element [Hin | ->%list_elem_of_singleton]%elem_of_app; auto.
Qed.

End WithoutFiles.

Lemma upsert_without_files_property_witness :
  let s := Examples.sessionOf [Examples.tsEntry] in
  let newElement :=
    ObjectLiteralExpression
      [PropertyAssignment "rules"
         (ObjectLiteralExpression [PropertyAssignment "'x'" (NumericLiteral 1)])] in
  addOrUpdateConfig (H := Reference.host) Examples.rulesOnly s
  = Ok (setElements s [Examples.tsEntry; newElement]) /\
  addOrUpdateConfig (H := Reference.host) Examples.rulesOnly
    (setElements s [Examples.tsEntry; newElement])
  = Ok (setElements s [Examples.tsEntry; newElement; newElement]).
Proof.
  intros s newElement.
  destruct (upsert_without_files_property (H := Reference.host) s [Examples.tsEntry]
              Examples.rulesOnly eq_refl eq_refl) as [_ Happend].
  destruct Happend as [Hfirst Hsecond].
  - intros element ->%list_elem_of_singleton. vm_compute. discriminate.
  - split; [exact Hfirst|].
    apply Hsecond. vm_compute. discriminate.
Defined.

(** C10 as stated fails: no element has a literal empty [files] array, yet
    the upsert of an object without [files] is merged into the entry whose
    [files] array holds only an identifier, and nothing is appended. *)
Lemma upsert_without_files_counterexample :
  ~ ((forall element,
         element ∈ [Examples.variableFilesEntry] -> ~ hasEmptyFilesArray element) ->
     exists newElement,
       addOrUpdateConfig (H := Reference.host) Examples.rulesOnly
         (Examples.sessionOf [Examples.variableFilesEntry])
       = Ok (setElements (Examples.sessionOf [Examples.variableFilesEntry])
               ([Examples.variableFilesEntry] ++ [newElement]))).
Proof.
  intros Hclaim. destruct Hclaim as [newElement Hrun].
  - intros element ->%list_elem_of_singleton (properties & index & name & Hobj & Hfiles).
    injection Hobj as <-. vm_compute in Hfiles. discriminate.
  - vm_compute in Hrun. discriminate.
Qed.

(* ===================================================================== *)
(** * Missing targets: throwing and silent operations *)
(* ===================================================================== *)

Section MissingTargets.
Context `{TsMorph}.

(** C7.  The four spread operations throw when no entry is found for the
    patterns, and the two on rules also throw when the entry found has no
    [rules] property assignment holding an object literal.  [removeConfig]
    and [removeRule] leave the session as it is when their target (the
    entry, its rules object, or the rule) is absent. *)
Theorem spread_operations_throw_where_removals_are_silent (s : Session)
    (filePattern : list string) (spreadExpression ruleName : string) :
  (findConfigByFiles filePattern s = None ->
   addSpreadToRules filePattern spreadExpression s = Throw (noConfigFound filePattern) /\
   removeSpreadFromRules filePattern spreadExpression s = Throw (noConfigFound filePattern) /\
   addSpreadToConfig filePattern spreadExpression s = Throw (noConfigFound filePattern) /\
   removeSpreadFromConfig filePattern spreadExpression s = Throw (noConfigFound filePattern) /\
   removeConfig filePattern s = s /\
   removeRule filePattern ruleName s = s)
  /\ (forall index config,
        findConfigByFiles filePattern s = Some (index, config) ->
        (forall j name rules,
            getProperty "rules" config
            <> Some (j, PropertyAssignment name (ObjectLiteralExpression rules))) ->
        addSpreadToRules filePattern spreadExpression s = Throw rulesMustBeObject /\
        removeSpreadFromRules filePattern spreadExpression s = Throw rulesMustBeObject /\
        removeRule filePattern ruleName s = s)
  /\ (forall index config j name rules,
        findConfigByFiles filePattern s = Some (index, config) ->
        getProperty "rules" config
        = Some (j, PropertyAssignment name (ObjectLiteralExpression rules)) ->
        getRuleProperty ruleName rules = None ->
        removeRule filePattern ruleName s = s).
Proof.
  split_and!.
  - intros Hfind.
    unfold addSpreadToRules, removeSpreadFromRules, onRulesObject,
      addSpreadToConfig, removeSpreadFromConfig, removeRule.
    rewrite Hfind. split_and!; try reflexivity.
    unfold removeConfig. unfold findConfigByFiles in Hfind.
    destruct (configArray s) as [elements|]; [|reflexivity].
    rewrite Hfind. reflexivity.
  - intros index config Hfind Hrules.
    unfold addSpreadToRules, removeSpreadFromRules, onRulesObject, removeRule.
    rewrite Hfind.
    destruct (getProperty "rules" config) as [[j member]|]; [|auto].
    destruct member as [name init| | | | |]; auto.
    destruct init; auto.
    exfalso. exact (Hrules _ _ _ eq_refl).
  - intros index config j name rules Hfind Hrules Hrule.
    unfold removeRule. rewrite Hfind, Hrules, Hrule. reflexivity.
Qed.

End MissingTargets.

Lemma spread_operations_throw_where_removals_are_silent_witness :
  addSpreadToRules (H := Reference.host) ["**/*.ts"] "baseRules" Examples.emptySession
  = Throw "No config found for files: **/*.ts" /\
  removeConfig ["**/*.ts"] Examples.emptySession = Examples.emptySession.
Proof.
  destruct (spread_operations_throw_where_removals_are_silent (H := Reference.host)
              Examples.emptySession ["**/*.ts"] "baseRules" "no-console")
    as [Hmissing _].
  destruct (Hmissing eq_refl) as (Hadd & _ & _ & _ & Hremove & _).
  split; [exact Hadd | exact Hremove].
Defined.

(* ===================================================================== *)
(** * Imports *)
(* ===================================================================== *)

Section Imports.
Import ImportTsMorphUtil.

Lemma findImportDeclaration_Some (m : string) (s : Imports) (index : nat)
    (d : ImportDeclaration) :
  findImportDeclaration m s = Some (index, d) ->
  s !! index = Some d /\ moduleSpecifierValue d = m /\
  forall j d', j < index -> s !! j = Some d' -> moduleSpecifierValue d' <> m.
Proof.
  unfold findImportDeclaration. intros (Hlookup & Hm & Hfirst)%list_find_Some.
  split_and!; [exact Hlookup | exact Hm |].
  intros j d' Hlt Hj. exact (Hfirst j d' Hj Hlt).
Qed.

(** Replacing the declaration found by one of the same module leaves it
    the declaration found. *)
Lemma findImportDeclaration_insert (m : string) (s : Imports) (index : nat)
    (d d' : ImportDeclaration) :
  findImportDeclaration m s = Some (index, d) ->
  moduleSpecifierValue d' = m ->
  findImportDeclaration m (<[index := d']> s) = Some (index, d').
Proof.
  intros Hfind Hm. pose proof Hfind as (Hlookup & _ & Hfirst)%list_find_Some.
  unfold findImportDeclaration. apply list_find_Some. split_and!.
  - apply list_lookup_insert_eq. by eapply lookup_lt_Some.
  - exact Hm.
  - intros j y Hj Hlt. rewrite list_lookup_insert_ne in Hj by lia.
    exact (Hfirst j y Hj Hlt).
Qed.

Lemma findImportDeclaration_new (m : string) (s : Imports) (d : ImportDeclaration) :
  findImportDeclaration m s = None ->
  moduleSpecifierValue d = m ->
  findImportDeclaration m (s ++ [d]) = Some (length s, d).
Proof.
  intros Hnone Hm. unfold findImportDeclaration in *.
  apply list_find_app_Some. right. split_and!; [lia | exact Hnone |].
  rewrite Nat.sub_diag. simpl. rewrite decide_True by exact Hm. reflexivity.
Qed.

(** A second specifier for an occupied slot changes nothing. *)
Lemma ensureImport_occupied_default (s : Imports) (m b : string) (index : nat)
    (d : ImportDeclaration) (current : string) :
  findImportDeclaration m s = Some (index, d) ->
  defaultImport d = Some current ->
  ensureImport b m default s = Ok s.
Proof.
  intros Hfind Hdefault. unfold ensureImport. rewrite Hfind. simpl.
  destruct (textIs (defaultImport d) b); [reflexivity|].
  rewrite Hdefault. simpl. f_equal. apply list_insert_id.
  by apply findImportDeclaration_Some in Hfind as [? _].
Qed.

Lemma ensureImport_occupied_namespace (s : Imports) (m b : string) (index : nat)
    (d : ImportDeclaration) (current : string) :
  findImportDeclaration m s = Some (index, d) ->
  namespaceImport d = Some current ->
  ensureImport b m namespace s = Ok s.
Proof.
  intros Hfind Hnamespace. unfold ensureImport. rewrite Hfind. simpl.
  destruct (textIs (namespaceImport d) b); [reflexivity|].
  rewrite Hnamespace. simpl. f_equal. apply list_insert_id.
  by apply findImportDeclaration_Some in Hfind as [? _].
Qed.

(** C5, as amended.  The default slot and the namespace slot of a
    declaration hold at most one specifier, and no call changes an
    occupied slot.  Let the declaration found for module [m], if there is
    one, have no default import.  After [ensureImport(a, m, 'default')]
    the declaration found for [m] has the default import [a], and a
    following [ensureImport(b, m, 'default')] returns without a change and
    without an error.  The same holds for namespace imports unless the
    declaration has named imports: then the first call throws, since a
    namespace import cannot be added to a declaration with named imports.
    In any state, a call for a slot that is occupied leaves the state as
    it is. *)
Theorem default_and_namespace_slots_are_singletons (s : Imports) (m a b : string) :
  isNullOrWhitespace a = false ->
  ((findImportDeclaration m s = None \/
    exists index d, findImportDeclaration m s = Some (index, d) /\ defaultImport d = None) ->
   exists s1 index d1,
     ensureImport a m default s = Ok s1 /\
     findImportDeclaration m s1 = Some (index, d1) /\
     defaultImport d1 = Some a /\
     ensureImport b m default s1 = Ok s1)
  /\ ((findImportDeclaration m s = None \/
       exists index d, findImportDeclaration m s = Some (index, d) /\
                       namespaceImport d = None /\ namedImports d = []) ->
      exists s1 index d1,
        ensureImport a m namespace s = Ok s1 /\
        findImportDeclaration m s1 = Some (index, d1) /\
        namespaceImport d1 = Some a /\
        ensureImport b m namespace s1 = Ok s1)
  /\ (forall index d,
        findImportDeclaration m s = Some (index, d) ->
        namespaceImport d = None -> namedImports d <> [] ->
        ensureImport a m namespace s
        = Throw "Cannot add a namespace import to an import declaration that has named imports.")
  /\ (forall index d current,
        findImportDeclaration m s = Some (index, d) ->
        (defaultImport d = Some current -> ensureImport b m default s = Ok s) /\
        (namespaceImport d = Some current -> ensureImport b m namespace s = Ok s)).
Proof.
  intros Ha. split_and!.
  - intros [Hnone | (index & d & Hfind & Hdefault)].
    + exists (s ++ [newImportDeclaration a m default]), (length s),
        (newImportDeclaration a m default).
      pose proof (findImportDeclaration_new m s (newImportDeclaration a m default)
                    Hnone eq_refl) as Hnew.
      split_and!.
      * unfold ensureImport, createImportDeclaration. rewrite Hnone. reflexivity.
      * exact Hnew.
      * reflexivity.
      * eapply ensureImport_occupied_default; [exact Hnew | reflexivity].
    + pose proof (findImportDeclaration_Some m s index d Hfind) as (_ & Hm & _).
      exists (<[index := setDefaultImport a d]> s), index, (setDefaultImport a d).
      assert (defaultImport (setDefaultImport a d) = Some a) as Hset
        by (unfold setDefaultImport; rewrite Ha; reflexivity).
      assert (moduleSpecifierValue (setDefaultImport a d) = m) as Hm'
        by (unfold setDefaultImport; rewrite Ha; exact Hm).
      pose proof (findImportDeclaration_insert m s index d _ Hfind Hm') as Hnew.
      split_and!.
      * unfold ensureImport. rewrite Hfind. simpl. rewrite Hdefault. reflexivity.
      * exact Hnew.
      * exact Hset.
      * eapply ensureImport_occupied_default; [exact Hnew | exact Hset].
  - intros [Hnone | (index & d & Hfind & Hnamespace & Hnamed)].
    + exists (s ++ [newImportDeclaration a m namespace]), (length s),
        (newImportDeclaration a m namespace).
      pose proof (findImportDeclaration_new m s (newImportDeclaration a m namespace)
                    Hnone eq_refl) as Hnew.
      split_and!.
      * unfold ensureImport, createImportDeclaration. rewrite Hnone. reflexivity.
      * exact Hnew.
      * reflexivity.
      * eapply ensureImport_occupied_namespace; [exact Hnew | reflexivity].
    + pose proof (findImportDeclaration_Some m s index d Hfind) as (_ & Hm & _).
      set (d1 := {| moduleSpecifierValue := moduleSpecifierValue d;
                    defaultImport := defaultImport d;
                    namespaceImport := Some a; namedImports := namedImports d |}).
      assert (setNamespaceImport a d = Ok d1) as Hset
        by (unfold setNamespaceImport, d1; rewrite Ha, Hnamespace, Hnamed; reflexivity).
      pose proof (findImportDeclaration_insert m s index d d1 Hfind Hm) as Hnew.
      exists (<[index := d1]> s), index, d1.
      split_and!.
      * unfold ensureImport. rewrite Hfind. simpl. rewrite Hnamespace. simpl.
        rewrite Hset. reflexivity.
      * exact Hnew.
      * reflexivity.
      * eapply ensureImport_occupied_namespace; [exact Hnew | reflexivity].
  - intros index d Hfind Hnamespace Hnamed.
    unfold ensureImport. rewrite Hfind. simpl. rewrite Hnamespace. simpl.
    unfold setNamespaceImport. rewrite Ha, Hnamespace.
    destruct (namedImports d); [done | reflexivity].
  - intros index d current Hfind. split; intros Hslot.
    + eapply ensureImport_occupied_default; eassumption.
    + eapply ensureImport_occupied_namespace; eassumption.
Qed.

(** C6.  When [removeImport] of kind named, default or namespace removes
    a specifier and the declaration is left without default import,
    namespace import and named imports, the declaration is deleted.  In
    particular, when the only declaration for module [m] is
    [import { only } from 'm'], removing [only] leaves no declaration for
    [m]. *)
Theorem removeImport_deletes_emptied_declaration (m : string) :
  (forall (s : Imports) (specifier : string) (importType : ImportType)
          (index : nat) (d d' : ImportDeclaration),
      importType <> full ->
      findImportDeclaration m s = Some (index, d) ->
      removeSpecifierFromImport d specifier importType = (d', true) ->
      isImportEmpty d' = true ->
      removeImport specifier m importType s = delete index s)
  /\ (forall (before after : Imports) (only : string),
        (forall d, d ∈ before ++ after -> moduleSpecifierValue d <> m) ->
        removeImport only m named
          (before ++ mkImport m None None [mkSpecifier only None] :: after)
        = before ++ after /\
        findImportDeclaration m (before ++ after) = None).
Proof.
  assert (forall (s : Imports) (specifier : string) (importType : ImportType)
                 (index : nat) (d d' : ImportDeclaration),
             importType <> full ->
             findImportDeclaration m s = Some (index, d) ->
             removeSpecifierFromImport d specifier importType = (d', true) ->
             isImportEmpty d' = true ->
             removeImport specifier m importType s = delete index s) as Hgeneral.
  { intros s specifier importType index d d' Hkind Hfind Hremove Hempty.
    unfold removeImport. rewrite Hfind.
    destruct importType; try contradiction; simpl ImportType_eqb; cbv iota;
      rewrite Hremove, Hempty; reflexivity. }
  split; [exact Hgeneral|].
  intros before after only Hothers.
  set (d := mkImport m None None [mkSpecifier only None]).
  assert (Forall (fun x => moduleSpecifierValue x <> m) before) as Hbefore.
  { apply Forall_forall. intros x Hx. apply Hothers, elem_of_app. by left. }
  assert (Forall (fun x => moduleSpecifierValue x <> m) after) as Hafter.
  { apply Forall_forall. intros x Hx. apply Hothers, elem_of_app. by right. }
  assert (findImportDeclaration m (before ++ d :: after) = Some (length before, d))
    as Hfind.
  { unfold findImportDeclaration. apply list_find_app_Some. right.
    split_and!; [lia | by apply list_find_None |].
    rewrite Nat.sub_diag. simpl. rewrite decide_True by reflexivity. reflexivity. }
  split.
  - rewrite (Hgeneral (before ++ d :: after) only named (length before) d
               (mkImport m None None [])); try done.
    + rewrite delete_middle. reflexivity.
    + unfold removeSpecifierFromImport, d. simpl.
      unfold specifierMatches. simpl. rewrite String.eqb_refl. reflexivity.
  - unfold findImportDeclaration. apply list_find_None.
    apply Forall_app. split; assumption.
Qed.

End Imports.

Lemma default_and_namespace_slots_are_singletons_witness :
  let s := [ImportTsMorphUtil.mkImport "lodash" (Some "_") None [];
            ImportTsMorphUtil.mkImport "m" None None []] in
  (exists s1 index d1,
      ImportTsMorphUtil.ensureImport "A" "m" ImportTsMorphUtil.default s = Ok s1 /\
      ImportTsMorphUtil.findImportDeclaration "m" s1 = Some (index, d1) /\
      ImportTsMorphUtil.defaultImport d1 = Some "A" /\
      ImportTsMorphUtil.ensureImport "B" "m" ImportTsMorphUtil.default s1 = Ok s1) /\
  (exists s1 index d1,
      ImportTsMorphUtil.ensureImport "A" "m" ImportTsMorphUtil.namespace s = Ok s1 /\
      ImportTsMorphUtil.findImportDeclaration "m" s1 = Some (index, d1) /\
      ImportTsMorphUtil.namespaceImport d1 = Some "A" /\
      ImportTsMorphUtil.ensureImport "B" "m" ImportTsMorphUtil.namespace s1 = Ok s1).
Proof.
  destruct (default_and_namespace_slots_are_singletons
              [ImportTsMorphUtil.mkImport "lodash" (Some "_") None [];
               ImportTsMorphUtil.mkImport "m" None None []]
              "m" "A" "B" eq_refl) as (Hdefault & Hnamespace & _).
  split.
  - apply Hdefault. right.
    exists 1, (ImportTsMorphUtil.mkImport "m" None None []). split; reflexivity.
  - apply Hnamespace. right.
    exists 1, (ImportTsMorphUtil.mkImport "m" None None []). split_and!; reflexivity.
Defined.

(** C5 as stated fails for the namespace slot: on [import { x } from 'm';]
    the declaration has no namespace import, yet
    [ensureImport('A', 'm', 'namespace')] throws, so no following state
    holds the namespace import [A]. *)
Lemma namespace_slot_with_named_imports_counterexample :
  let s := [ImportTsMorphUtil.mkImport "m" None None
              [ImportTsMorphUtil.mkSpecifier "x" None]] in
  (exists index d,
      ImportTsMorphUtil.findImportDeclaration "m" s = Some (index, d) /\
      ImportTsMorphUtil.namespaceImport d = None) /\
  ImportTsMorphUtil.ensureImport "A" "m" ImportTsMorphUtil.namespace s
  = Throw "Cannot add a namespace import to an import declaration that has named imports."
  /\ ~ (exists s1 index d1,
          ImportTsMorphUtil.ensureImport "A" "m" ImportTsMorphUtil.namespace s = Ok s1 /\
          ImportTsMorphUtil.findImportDeclaration "m" s1 = Some (index, d1) /\
          ImportTsMorphUtil.namespaceImport d1 = Some "A" /\
          ImportTsMorphUtil.ensureImport "B" "m" ImportTsMorphUtil.namespace s1 = Ok s1).
Proof.
  simpl. split_and!.
  - eexists 0, _. split; reflexivity.
  - reflexivity.
  - intros (s1 & index & d1 & Hfirst & _). discriminate Hfirst.
Qed.

Lemma removeImport_deletes_emptied_declaration_witness :
  ImportTsMorphUtil.removeImport "only" "m" ImportTsMorphUtil.named
    [ImportTsMorphUtil.mkImport "m" None None [ImportTsMorphUtil.mkSpecifier "only" None]]
  = [].
Proof.
  apply (proj1 (removeImport_deletes_emptied_declaration "m")
           [ImportTsMorphUtil.mkImport "m" None None
              [ImportTsMorphUtil.mkSpecifier "only" None]]
           "only" ImportTsMorphUtil.named 0
           (ImportTsMorphUtil.mkImport "m" None None
              [ImportTsMorphUtil.mkSpecifier "only" None])
           (ImportTsMorphUtil.mkImport "m" None None [])).
  - discriminate.
  - reflexivity.
  - reflexivity.
  - reflexivity.
Defined.

(* ===================================================================== *)
(** * Further properties of the lookup *)
(* ===================================================================== *)

Section LookupProperties.
Context `{TsMorph}.

Lemma elem_of_delete {A} (l : list A) (i : nat) (x : A) :
  x ∈ delete i l <-> exists j, j <> i /\ l !! j = Some x.
Proof.
  revert i. induction l as [|y l IH]; intros i.
  - destruct i; simpl; split; [inversion 1 | intros (j & _ & Hj); discriminate
                                | inversion 1 | intros (j & _ & Hj); discriminate].
  - destruct i as [|i]; simpl.
    + rewrite list_elem_of_lookup. split.
      * intros [j Hj]. exists (S j). split; [lia | exact Hj].
      * intros (j & Hne & Hj). destruct j as [|j]; [lia|]. exists j. exact Hj.
    + rewrite elem_of_cons, IH. split.
      * intros [-> | (j & Hne & Hj)].
        -- exists 0. split; [lia | reflexivity].
        -- exists (S j). split; [lia | exact Hj].
      * intros (j & Hne & Hj). destruct j as [|j].
        -- left. injection Hj as ->. reflexivity.
        -- right. exists j. split; [lia | exact Hj].
Qed.

Lemma findConfigByFiles_lookup (s : Session) (elements : list Node)
    (files : list string) (index : nat) (properties : list Member) :
  configArray s = Some elements ->
  findConfigByFiles files s = Some (index, properties) ->
  elements !! index = Some (ObjectLiteralExpression properties).
Proof.
  intros Hs Hfind. unfold findConfigByFiles in Hfind. rewrite Hs in Hfind.
  apply findFrom_Some in Hfind as (j & -> & Hj & _). exact Hj.
Qed.

Lemma hasConfigForPattern_false (s : Session) (elements : list Node)
    (files : list string) :
  configArray s = Some elements ->
  hasConfigForPattern files s = false <->
  forall element, element ∈ elements -> ~ matchesPatterns files element.
Proof.
  intros Hs. unfold hasConfigForPattern, findConfigByFiles. rewrite Hs.
  rewrite <- (findFrom_None 0), bool_decide_eq_false.
  destruct (findFrom 0 files elements) as [found|].
  - split; [intros Hno; destruct Hno; eauto | intros Heq; discriminate Heq].
  - split; [reflexivity | intros _ Hsome; by apply is_Some_None in Hsome].
Qed.

(** X1.  [arraysEqual] holds exactly when the second list is a reordering
    of the first, repetitions counted; it is symmetric. *)
Theorem arraysEqual_decides_reordering (a b : list string) :
  (arraysEqual a b = true <-> a ≡ₚ b) /\ arraysEqual b a = arraysEqual a b.
Proof.
  split; [apply arraysEqual_Permutation|].
  apply eq_true_iff_eq. rewrite !arraysEqual_Permutation.
  split; intros Hperm; symmetry; exact Hperm.
Qed.

(** X2.  [findConfigByFiles] returns the first element, in array order,
    that is an object literal whose [files] array is a reordering of the
    patterns, and [hasConfigForPattern] is false exactly when no element is
    one. *)
Theorem findConfigByFiles_returns_first_match (s : Session) (elements : list Node)
    (files : list string) :
  configArray s = Some elements ->
  (forall index properties,
      findConfigByFiles files s = Some (index, properties) <->
      elements !! index = Some (ObjectLiteralExpression properties) /\
      matchesPatterns files (ObjectLiteralExpression properties) /\
      forall j element, j < index -> elements !! j = Some element ->
                        ~ matchesPatterns files element)
  /\ (hasConfigForPattern files s = false <->
      forall element, element ∈ elements -> ~ matchesPatterns files element).
Proof.
  intros Hs. split.
  - unfold findConfigByFiles. rewrite Hs.
    intros index properties. rewrite findFrom_Some. split.
    + intros (j & -> & Hrest). exact Hrest.
    + intros Hrest. exists index. split; [reflexivity | exact Hrest].
  - apply hasConfigForPattern_false. exact Hs.
Qed.

(** X3.  [removeConfig] deletes the first matching element and nothing
    else: the other elements stay, and afterwards the patterns find
    nothing exactly when no other element matched them. *)
Theorem removeConfig_deletes_first_match_only (s : Session) (elements : list Node)
    (filePattern : list string) (index : nat) (properties : list Member) :
  configArray s = Some elements ->
  findConfigByFiles filePattern s = Some (index, properties) ->
  removeConfig filePattern s = setElements s (delete index elements) /\
  S (length (delete index elements)) = length elements /\
  (forall element, element ∈ delete index elements <->
                   exists j, j <> index /\ elements !! j = Some element) /\
  (hasConfigForPattern filePattern (removeConfig filePattern s) = false <->
   forall j element, j <> index -> elements !! j = Some element ->
                     ~ matchesPatterns filePattern element).
Proof.
  intros Hs Hfind.
  pose proof (findConfigByFiles_lookup s elements filePattern index properties Hs Hfind)
    as Hindex.
  assert (removeConfig filePattern s = setElements s (delete index elements)) as Hremove.
  { unfold removeConfig. unfold findConfigByFiles in Hfind. rewrite Hs in *.
    rewrite Hfind. reflexivity. }
  split_and!.
  - exact Hremove.
  - rewrite length_delete by eauto.
    apply lookup_lt_Some in Hindex. lia.
  - intros element. apply elem_of_delete.
  - rewrite Hremove.
    rewrite (hasConfigForPattern_false (setElements s (delete index elements))
               (delete index elements) filePattern eq_refl).
    split.
    + intros Hall j element Hne Hj. apply Hall, elem_of_delete. eauto.
    + intros Hall element (j & Hne & Hj)%elem_of_delete. eauto.
Qed.

End LookupProperties.

Lemma arraysEqual_decides_reordering_witness :
  arraysEqual ["src/**/*.ts"; "**/*.tsx"] ["**/*.tsx"; "src/**/*.ts"] = true.
Proof.
  apply (proj2 (proj1 (arraysEqual_decides_reordering
                         ["src/**/*.ts"; "**/*.tsx"] ["**/*.tsx"; "src/**/*.ts"]))).
  apply perm_swap.
Defined.

Lemma findConfigByFiles_returns_first_match_witness :
  matchesPatterns ["**/*.ts"] (ObjectLiteralExpression Examples.tsConfig).
Proof.
  pose proof (findConfigByFiles_returns_first_match
                (Examples.sessionOf [Examples.baseSpread; Examples.tsEntry])
                [Examples.baseSpread; Examples.tsEntry] ["**/*.ts"] eq_refl) as [Hfirst _].
  destruct (proj1 (Hfirst 1 Examples.tsConfig) eq_refl) as (_ & Hmatch & _).
  exact Hmatch.
Defined.

Lemma removeConfig_deletes_first_match_only_witness :
  removeConfig ["**/*.ts"] (Examples.sessionOf [Examples.baseSpread; Examples.tsEntry])
  = setElements (Examples.sessionOf [Examples.baseSpread; Examples.tsEntry])
      [Examples.baseSpread].
Proof.
  exact (proj1 (removeConfig_deletes_first_match_only
                  (Examples.sessionOf [Examples.baseSpread; Examples.tsEntry])
                  [Examples.baseSpread; Examples.tsEntry] ["**/*.ts"] 1 Examples.tsConfig
                  eq_refl eq_refl)).
Defined.

(* ===================================================================== *)
(** * Members of an object literal under edits *)
(* ===================================================================== *)

Section Members.
Context `{TsMorph}.

#[local] Arguments existingFiles : simpl never.

(** Replacing a member by one of the same name changes no lookup by
    name, except for the member returned. *)
Lemma getProperty_insert (name : string) (properties : list Member) (k : nat)
    (m m' : Member) :
  properties !! k = Some m ->
  getName m' = getName m ->
  getProperty name (<[k := m']> properties)
  = (fun found : nat * Member =>
       (found.1, if decide (found.1 = k) then m' else found.2))
      <$> getProperty name properties.
Proof.
  unfold getProperty. revert k.
  induction properties as [|x rest IH]; intros k Hk Hname; [discriminate|].
  destruct k as [|k]; simpl in *.
  - injection Hk as ->. rewrite Hname.
    destruct (decide (getName m = Some name)); simpl; [reflexivity|].
    destruct (list_find _ rest) as [[i y]|]; reflexivity.
  - destruct (decide (getName x = Some name)); simpl; [reflexivity|].
    rewrite (IH k Hk Hname).
    destruct (list_find _ rest) as [[i y]|]; simpl; [|reflexivity].
    destruct (decide (i = k)), (decide (S i = S k)); try lia; reflexivity.
Qed.

Lemma getProperty_insert_same (name : string) (properties : list Member) (k : nat)
    (m m' : Member) :
  getProperty name properties = Some (k, m) ->
  getName m' = getName m ->
  getProperty name (<[k := m']> properties) = Some (k, m').
Proof.
  intros Hget Hname.
  assert (properties !! k = Some m) as Hk
    by (unfold getProperty in Hget; by apply list_find_Some in Hget as [? _]).
  rewrite (getProperty_insert name properties k m m' Hk Hname), Hget. simpl.
  rewrite decide_True by reflexivity. reflexivity.
Qed.

Lemma getProperty_insert_other (name : string) (properties : list Member) (k : nat)
    (m m' : Member) :
  properties !! k = Some m ->
  getName m' = getName m ->
  getName m <> Some name ->
  getProperty name (<[k := m']> properties) = getProperty name properties.
Proof.
  intros Hk Hname Hother.
  rewrite (getProperty_insert name properties k m m' Hk Hname).
  destruct (getProperty name properties) as [[i y]|] eqn:Hget; [|reflexivity].
  simpl. destruct (decide (i = k)) as [->|]; [|reflexivity].
  unfold getProperty in Hget. apply list_find_Some in Hget as (Hi & Hy & _).
  rewrite Hk in Hi. injection Hi as ->. contradiction.
Qed.

Lemma getProperty_name (name : string) (properties : list Member) (k : nat) (m : Member) :
  getProperty name properties = Some (k, m) ->
  properties !! k = Some m /\ getName m = Some name.
Proof.
  unfold getProperty. intros (Hk & Hm & _)%list_find_Some. auto.
Qed.

(** Appending a member that does not bear the name changes no lookup by
    that name. *)
Lemma getProperty_app_other (name : string) (properties : list Member) (m : Member) :
  getName m <> Some name ->
  getProperty name (properties ++ [m]) = getProperty name properties.
Proof.
  intros Hother. unfold getProperty.
  destruct (list_find _ properties) as [[i y]|] eqn:Hfind.
  - by apply list_find_app_l.
  - apply list_find_None. apply Forall_app. split.
    + apply list_find_None in Hfind. exact Hfind.
    + constructor; [exact Hother | constructor].
Qed.

(** Appending a member that bears the name, when no member did. *)
Lemma getProperty_app_new (name : string) (properties : list Member) (m : Member) :
  getProperty name properties = None ->
  getName m = Some name ->
  getProperty name (properties ++ [m]) = Some (length properties, m).
Proof.
  intros Hnone Hname. unfold getProperty in *.
  apply list_find_app_Some. right. split_and!; [lia | exact Hnone |].
  rewrite Nat.sub_diag. simpl. rewrite decide_True by exact Hname. reflexivity.
Qed.

(** Deleting a member that does not bear the name keeps the member found
    under that name. *)
Lemma getProperty_delete_other (name : string) (properties : list Member) (k : nat)
    (m : Member) :
  properties !! k = Some m ->
  getName m <> Some name ->
  snd <$> getProperty name (delete k properties) = snd <$> getProperty name properties.
Proof.
  unfold getProperty. revert k.
  induction properties as [|x rest IH]; intros k Hk Hother; [discriminate|].
  destruct k as [|k]; simpl in *.
  - injection Hk as ->. rewrite decide_False by exact Hother.
    destruct (list_find _ rest) as [[i y]|]; reflexivity.
  - destruct (decide (getName x = Some name)); simpl; [reflexivity|].
    specialize (IH k Hk Hother).
    destruct (list_find _ (delete k rest)) as [[i y]|],
             (list_find _ rest) as [[i' y']|]; simpl in *; congruence.
Qed.

Lemma existingFiles_same_files (properties properties' : list Member) :
  snd <$> getProperty "files" properties' = snd <$> getProperty "files" properties ->
  existingFiles (ObjectLiteralExpression properties')
  = existingFiles (ObjectLiteralExpression properties).
Proof.
  unfold existingFiles. intros Hsame.
  destruct (getProperty "files" properties') as [[i y]|],
           (getProperty "files" properties) as [[i' y']|]; simpl in Hsame;
    try discriminate; [|reflexivity].
  injection Hsame as ->. reflexivity.
Qed.

(** The first spread member with the given text is the only member that
    [removeSpread] takes out. *)
Lemma getProperty_removeSpread (name spreadExpression : string) (properties : list Member) :
  snd <$> getProperty name (removeSpread spreadExpression properties)
  = snd <$> getProperty name properties.
Proof.
  unfold getProperty.
  induction properties as [|x rest IH]; [reflexivity|].
  assert (snd <$> list_find (fun m => getName m = Some name)
                    (x :: removeSpread spreadExpression rest)
          = snd <$> list_find (fun m => getName m = Some name) (x :: rest)) as Hkeep.
  { simpl. destruct (decide (getName x = Some name)); [reflexivity|].
    destruct (list_find _ (removeSpread spreadExpression rest)) as [[i y]|],
             (list_find _ rest) as [[i' y']|]; simpl in *; congruence. }
  destruct x; try exact Hkeep.
  simpl removeSpread.
  destruct (String.eqb (getText expression) spreadExpression); [|exact Hkeep].
  simpl. destruct (list_find _ rest) as [[i y]|]; reflexivity.
Qed.

(** Replacing the element at [index] by an object literal with the same
    [files] leaves every lookup at the same position. *)
Lemma findFrom_insert (k : nat) (patterns : list string) (elements : list Node)
    (index : nat) (properties properties' : list Member) :
  elements !! index = Some (ObjectLiteralExpression properties) ->
  existingFiles (ObjectLiteralExpression properties')
  = existingFiles (ObjectLiteralExpression properties) ->
  findFrom k patterns (<[index := ObjectLiteralExpression properties']> elements)
  = (fun found : nat * list Member =>
       (found.1, if decide (found.1 = k + index) then properties' else found.2))
      <$> findFrom k patterns elements.
Proof.
  intros Hindex Hfiles. revert k index Hindex.
  induction elements as [|element rest IH]; intros k index Hindex; [discriminate|].
  assert (forall j, (fun found : nat * list Member =>
                       (found.1, if decide (found.1 = k + S j) then properties'
                                 else found.2))
                      <$> findFrom (S k) patterns rest
                    = (fun found : nat * list Member =>
                         (found.1, if decide (found.1 = S k + j) then properties'
                                   else found.2))
                        <$> findFrom (S k) patterns rest) as Hshift.
  { intros j. destruct (findFrom (S k) patterns rest) as [[i ps]|]; simpl; [|reflexivity].
    destruct (decide (i = k + S j)), (decide (i = S (k + j))); try lia; reflexivity. }
  assert ((fun found : nat * list Member =>
             (found.1, if decide (found.1 = k + 0) then properties' else found.2))
            <$> findFrom (S k) patterns rest
          = findFrom (S k) patterns rest) as Hlater.
  { destruct (findFrom (S k) patterns rest) as [[i ps]|] eqn:Hfind; simpl; [|reflexivity].
    apply findFrom_Some in Hfind as (j & -> & _).
    rewrite decide_False by lia. reflexivity. }
  destruct index as [|index]; simpl in Hindex.
  - injection Hindex as ->. simpl insert. simpl findFrom. rewrite Hfiles.
    destruct (existingFiles (ObjectLiteralExpression properties)) as [existing|].
    + destruct (arraysEqual existing patterns).
      * simpl. rewrite decide_True by lia. reflexivity.
      * symmetry. exact Hlater.
    + symmetry. exact Hlater.
  - simpl insert. simpl findFrom. rewrite (IH (S k) index Hindex), <- Hshift.
    destruct element; try reflexivity.
    destruct (existingFiles (ObjectLiteralExpression properties0)) as [existing|];
      [|reflexivity].
    destruct (arraysEqual existing patterns); [|reflexivity].
    simpl. rewrite decide_False by lia. reflexivity.
Qed.

Lemma setElements_setElements (s : Session) (elements elements' : list Node) :
  setElements (setElements s elements) elements' = setElements s elements'.
Proof. reflexivity. Qed.

Lemma setElements_same (s : Session) (elements : list Node) :
  configArray s = Some elements -> setElements s elements = s.
Proof. destruct s. simpl. intros ->. reflexivity. Qed.

(** After new members are put into the element found, the same patterns
    find it with the new members, and every list of patterns finds an
    element at the position it did. *)
Lemma findConfigByFiles_setConfigObject (s : Session) (elements : list Node)
    (filePattern : list string) (index : nat) (properties properties' : list Member) :
  configArray s = Some elements ->
  findConfigByFiles filePattern s = Some (index, properties) ->
  existingFiles (ObjectLiteralExpression properties')
  = existingFiles (ObjectLiteralExpression properties) ->
  setConfigObject s index properties'
  = setElements s (<[index := ObjectLiteralExpression properties']> elements) /\
  findConfigByFiles filePattern (setConfigObject s index properties')
  = Some (index, properties') /\
  sameLookups s (setConfigObject s index properties').
Proof.
  intros Hs Hfind Hfiles.
  pose proof (findConfigByFiles_lookup s elements filePattern index properties Hs Hfind)
    as Hindex.
  assert (setConfigObject s index properties'
          = setElements s (<[index := ObjectLiteralExpression properties']> elements))
    as Hset by (unfold setConfigObject; rewrite Hs; reflexivity).
  rewrite Hset. split_and!.
  - reflexivity.
  - unfold findConfigByFiles in *. rewrite Hs in Hfind. simpl.
    rewrite (findFrom_insert 0 filePattern elements index properties properties'
               Hindex Hfiles), Hfind.
    simpl. rewrite decide_True by reflexivity. reflexivity.
  - intros patterns. unfold findConfigByFiles. rewrite Hs. simpl.
    rewrite (findFrom_insert 0 patterns elements index properties properties'
               Hindex Hfiles).
    destruct (findFrom 0 patterns elements) as [[i ps]|]; reflexivity.
Qed.

End Members.

(* ===================================================================== *)
(** * What the editing operations keep *)
(* ===================================================================== *)

Section Frames.
Context `{TsMorph}.

#[local] Arguments existingFiles : simpl never.

Lemma foldl_Throw {A} (f : Session -> A -> Result Session) (message : string) (l : list A) :
  foldl (fun acc x => let! s' := acc in f s' x) (Throw message) l = Throw message.
Proof. induction l as [|x l IH]; simpl; [reflexivity | exact IH]. Qed.

Lemma addMultipleRules_cons (filePattern : list string) (entry : string * JsValue)
    (rest : list (string * JsValue)) (s : Session) :
  addMultipleRules filePattern (entry :: rest) s
  = let! s' := addRule filePattern entry.1 entry.2 s in
    addMultipleRules filePattern rest s'.
Proof.
  unfold addMultipleRules. simpl.
  destruct (addRule filePattern entry.1 entry.2 s) as [s'|message]; simpl.
  - reflexivity.
  - apply (foldl_Throw (fun s' entry => addRule filePattern entry.1 entry.2 s')).
Qed.

Lemma setConfigObject_defined (s : Session) (index : nat) (properties : list Member) :
  is_Some (configArray s) -> is_Some (configArray (setConfigObject s index properties)).
Proof. intros [elements Hs]. unfold setConfigObject. rewrite Hs. simpl. eauto. Qed.

Lemma addOrUpdateConfig_defined (config : list (string * JsValue)) (s : Session) :
  is_Some (configArray s) ->
  exists s', addOrUpdateConfig config s = Ok s' /\ is_Some (configArray s').
Proof.
  intros [elements Hs]. unfold addOrUpdateConfig, addNewConfigObject. rewrite Hs.
  destruct (findConfigByFiles (filesOf config) s) as [[index existing]|];
    eexists; (split; [reflexivity | simpl; eauto]).
Qed.

Lemma addRule_defined (filePattern : list string) (ruleName : string) (ruleConfig : JsValue)
    (s : Session) :
  is_Some (configArray s) ->
  exists s', addRule filePattern ruleName ruleConfig s = Ok s' /\ is_Some (configArray s').
Proof.
  intros Hs. unfold addRule.
  destruct (findConfigByFiles filePattern s) as [[index configObj]|].
  - destruct (getProperty "rules" configObj) as [[j [name init| | | | |]]|];
      try (eexists; split; [reflexivity | by apply setConfigObject_defined]).
    destruct init;
      eexists; (split; [reflexivity | by (try apply setConfigObject_defined)]).
  - by apply addOrUpdateConfig_defined.
Qed.

Lemma updateRule_defined (filePattern : list string) (ruleName : string)
    (ruleConfig : JsValue) (s : Session) :
  is_Some (configArray s) ->
  exists s', updateRule filePattern ruleName ruleConfig s = Ok s' /\ is_Some (configArray s').
Proof.
  intros Hs. unfold updateRule.
  destruct (findConfigByFiles filePattern s) as [[index configObj]|].
  - destruct (getProperty "rules" configObj) as [[j [name init| | | | |]]|];
      try (eexists; split; [reflexivity | exact Hs]).
    destruct init;
      eexists; (split; [reflexivity | by (try apply setConfigObject_defined)]).
  - by apply addRule_defined.
Qed.

Lemma removeRule_defined (filePattern : list string) (ruleName : string) (s : Session) :
  is_Some (configArray s) -> is_Some (configArray (removeRule filePattern ruleName s)).
Proof.
  intros Hs. unfold removeRule.
  destruct (findConfigByFiles filePattern s) as [[index configObj]|]; [|exact Hs].
  destruct (getProperty "rules" configObj) as [[j [name init| | | | |]]|]; try exact Hs.
  destruct init; try exact Hs.
  destruct (getRuleProperty ruleName properties) as [[k m]|]; [|exact Hs].
  by apply setConfigObject_defined.
Qed.

(** X4.  A constructed session always holds its configuration array, and
    no operation loses it.  So after construction [addOrUpdateConfig],
    [addRule], [updateRule] and [addMultipleRules] never throw: the guard
    "Config array not found" is never taken. *)
Theorem config_array_is_kept_and_upserts_do_not_throw :
  (forall input path s, constructor input path = Ok s -> is_Some (configArray s))
  /\ (forall s,
        is_Some (configArray s) ->
        (forall config,
            exists s', addOrUpdateConfig config s = Ok s' /\ is_Some (configArray s')) /\
        (forall filePattern ruleName ruleConfig,
            exists s', addRule filePattern ruleName ruleConfig s = Ok s' /\
                       is_Some (configArray s')) /\
        (forall filePattern ruleName ruleConfig,
            exists s', updateRule filePattern ruleName ruleConfig s = Ok s' /\
                       is_Some (configArray s')) /\
        (forall filePattern rules,
            exists s', addMultipleRules filePattern rules s = Ok s' /\
                       is_Some (configArray s')) /\
        (forall filePattern, is_Some (configArray (removeConfig filePattern s))) /\
        (forall filePattern ruleName,
            is_Some (configArray (removeRule filePattern ruleName s))) /\
        (forall filePattern ruleNames,
            is_Some (configArray (removeMultipleRules filePattern ruleNames s)))).
Proof.
  split.
  - intros input path s. unfold constructor.
    destruct input as [sf|t].
    + destruct (parseConfigArray sf _) as [elements|]; simpl; [|discriminate].
      intros [= <-]. simpl. eauto.
    + destruct path as [p|]; [|discriminate].
      destruct (String.eqb p ""); [discriminate|].
      destruct (parseConfigArray _ p) as [elements|]; simpl; [|discriminate].
      intros [= <-]. simpl. eauto.
  - intros s Hs. split_and!.
    + intros config. by apply addOrUpdateConfig_defined.
    + intros. by apply addRule_defined.
    + intros. by apply updateRule_defined.
    + intros filePattern rules. revert s Hs.
      induction rules as [|entry rest IH]; intros s Hs.
      * exists s. split; [reflexivity | exact Hs].
      * rewrite addMultipleRules_cons.
        destruct (addRule_defined filePattern entry.1 entry.2 s Hs) as (s1 & -> & Hs1).
        simpl. exact (IH s1 Hs1).
    + intros filePattern. destruct Hs as [elements Hs]. unfold removeConfig. rewrite Hs.
      destruct (findFrom 0 filePattern elements) as [[index ps]|]; simpl; eauto.
    + intros. by apply removeRule_defined.
    + intros filePattern ruleNames. revert s Hs. unfold removeMultipleRules.
      induction ruleNames as [|ruleName rest IH]; intros s Hs; simpl; [exact Hs|].
      apply IH. by apply removeRule_defined.
Qed.

Lemma keepsOtherElements_refl (s : Session) : keepsOtherElements s s.
Proof. intros elements Hs. exists elements. auto. Qed.

Lemma keepsOtherElements_trans (s1 s2 s3 : Session) :
  keepsOtherElements s1 s2 -> keepsOtherElements s2 s3 -> keepsOtherElements s1 s3.
Proof.
  intros H12 H23 elements Hs.
  destruct (H12 elements Hs) as (elements2 & Hs2 & Hlen2 & Hkeep2).
  destruct (H23 elements2 Hs2) as (elements3 & Hs3 & Hlen3 & Hkeep3).
  exists elements3. split_and!; [exact Hs3 | lia | eauto].
Qed.

Lemma keepsOtherElements_setConfigObject (s : Session) (filePattern : list string)
    (index : nat) (properties properties' : list Member) :
  findConfigByFiles filePattern s = Some (index, properties) ->
  keepsOtherElements s (setConfigObject s index properties').
Proof.
  intros Hfind elements Hs.
  pose proof (findConfigByFiles_lookup s elements filePattern index properties Hs Hfind)
    as Hindex.
  unfold setConfigObject. rewrite Hs.
  exists (<[index := ObjectLiteralExpression properties']> elements).
  split_and!; [reflexivity | by rewrite length_insert |].
  intros j element Hj Hkind.
  rewrite list_lookup_insert_ne; [exact Hj|].
  intros <-. rewrite Hindex in Hj. injection Hj as <-. discriminate.
Qed.

Lemma keepsOtherElements_addOrUpdateConfig (config : list (string * JsValue))
    (s s' : Session) :
  addOrUpdateConfig config s = Ok s' -> keepsOtherElements s s'.
Proof.
  unfold addOrUpdateConfig, addNewConfigObject.
  destruct (configArray s) as [elements|] eqn:Hs; [|discriminate].
  destruct (findConfigByFiles (filesOf config) s) as [[index existing]|] eqn:Hfind.
  - intros [= <-].
    pose proof (keepsOtherElements_setConfigObject s (filesOf config) index existing
                  (updateConfigObject existing config) Hfind) as Hkeep.
    unfold setConfigObject in Hkeep. rewrite Hs in Hkeep. exact Hkeep.
  - intros [= <-]. intros elements0 Hs0. rewrite Hs in Hs0. injection Hs0 as <-.
    eexists. split_and!; [reflexivity | rewrite length_app; lia |].
    intros j element Hj _. by apply lookup_app_l_Some.
Qed.

Lemma keepsOtherElements_addRule (filePattern : list string) (ruleName : string)
    (ruleConfig : JsValue) (s s' : Session) :
  addRule filePattern ruleName ruleConfig s = Ok s' -> keepsOtherElements s s'.
Proof.
  unfold addRule.
  destruct (findConfigByFiles filePattern s) as [[index configObj]|] eqn:Hfind.
  - destruct (getProperty "rules" configObj) as [[j [name init| | | | |]]|];
      try (intros [= <-]; by eapply keepsOtherElements_setConfigObject).
    destruct init; intros [= <-];
      try apply keepsOtherElements_refl; by eapply keepsOtherElements_setConfigObject.
  - apply keepsOtherElements_addOrUpdateConfig.
Qed.

Lemma keepsOtherElements_removeRule (filePattern : list string) (ruleName : string)
    (s : Session) :
  keepsOtherElements s (removeRule filePattern ruleName s).
Proof.
  unfold removeRule.
  destruct (findConfigByFiles filePattern s) as [[index configObj]|] eqn:Hfind;
    [|apply keepsOtherElements_refl].
  destruct (getProperty "rules" configObj) as [[j [name init| | | | |]]|];
    try apply keepsOtherElements_refl.
  destruct init; try apply keepsOtherElements_refl.
  destruct (getRuleProperty ruleName properties) as [[k m]|];
    [|apply keepsOtherElements_refl].
  by eapply keepsOtherElements_setConfigObject.
Qed.

(** X5.  No editing operation other than [removeConfig] drops an element
    of the exported array or moves one, and each leaves every element that
    is not an object literal (such as [...baseConfig]) exactly where it
    is. *)
Theorem edits_keep_the_other_elements (s : Session) (filePattern : list string) :
  (forall config s', addOrUpdateConfig config s = Ok s' -> keepsOtherElements s s') /\
  (forall ruleName ruleConfig s',
      addRule filePattern ruleName ruleConfig s = Ok s' -> keepsOtherElements s s') /\
  (forall ruleName ruleConfig s',
      updateRule filePattern ruleName ruleConfig s = Ok s' -> keepsOtherElements s s') /\
  (forall rules s',
      addMultipleRules filePattern rules s = Ok s' -> keepsOtherElements s s') /\
  (forall ruleName, keepsOtherElements s (removeRule filePattern ruleName s)) /\
  (forall ruleNames, keepsOtherElements s (removeMultipleRules filePattern ruleNames s)) /\
  keepsOtherElements s (clearAllRules filePattern s) /\
  (forall spreadExpression s',
      addSpreadToRules filePattern spreadExpression s = Ok s' \/
      removeSpreadFromRules filePattern spreadExpression s = Ok s' \/
      addSpreadToConfig filePattern spreadExpression s = Ok s' \/
      removeSpreadFromConfig filePattern spreadExpression s = Ok s' ->
      keepsOtherElements s s').
Proof.
  split_and!.
  - intros config s'. apply keepsOtherElements_addOrUpdateConfig.
  - intros ruleName ruleConfig s'. apply keepsOtherElements_addRule.
  - intros ruleName ruleConfig s'. unfold updateRule.
    destruct (findConfigByFiles filePattern s) as [[index configObj]|] eqn:Hfind;
      [|apply keepsOtherElements_addRule].
    destruct (getProperty "rules" configObj) as [[j [name init| | | | |]]|];
      try (intros [= <-]; apply keepsOtherElements_refl).
    destruct init; intros [= <-];
      try apply keepsOtherElements_refl; by eapply keepsOtherElements_setConfigObject.
  - intros rules. revert s.
    induction rules as [|entry rest IH]; intros s s'.
    + intros [= <-]. apply keepsOtherElements_refl.
    + rewrite addMultipleRules_cons.
      destruct (addRule filePattern entry.1 entry.2 s) as [s1|] eqn:Hadd; [|discriminate].
      simpl. intros Hrest.
      eapply keepsOtherElements_trans;
        [by eapply keepsOtherElements_addRule | by apply IH].
  - intros ruleName. apply keepsOtherElements_removeRule.
  - intros ruleNames. revert s. unfold removeMultipleRules.
    induction ruleNames as [|ruleName rest IH]; intros s; simpl;
      [apply keepsOtherElements_refl|].
    eapply keepsOtherElements_trans; [apply keepsOtherElements_removeRule | apply IH].
  - unfold clearAllRules.
    destruct (findConfigByFiles filePattern s) as [[index configObj]|] eqn:Hfind;
      [|apply keepsOtherElements_refl].
    destruct (getProperty "rules" configObj) as [[j [name init| | | | |]]|];
      try apply keepsOtherElements_refl.
    by eapply keepsOtherElements_setConfigObject.
  - intros spreadExpression s'.
    unfold addSpreadToRules, removeSpreadFromRules, onRulesObject,
      addSpreadToConfig, removeSpreadFromConfig.
    destruct (findConfigByFiles filePattern s) as [[index configObj]|] eqn:Hfind;
      [|intros [|[|[|]]]; discriminate].
    destruct (getProperty "rules" configObj) as [[j [name init| | | | |]]|];
      try (intros [|[|[|]]]; try discriminate;
           match goal with Heq : Ok _ = Ok _ |- _ => injection Heq as <- end;
           by eapply keepsOtherElements_setConfigObject).
    destruct init;
      (intros [|[|[|]]]; try discriminate;
       match goal with Heq : Ok _ = Ok _ |- _ => injection Heq as <- end;
       by eapply keepsOtherElements_setConfigObject).
Qed.

End Frames.

Lemma config_array_is_kept_and_upserts_do_not_throw_witness :
  exists s', addOrUpdateConfig (H := Reference.host) Examples.rulesOnly Examples.emptySession
             = Ok s' /\ is_Some (configArray s').
Proof.
  exact (proj1 (proj2 (config_array_is_kept_and_upserts_do_not_throw (H := Reference.host))
                  Examples.emptySession (ex_intro _ [] eq_refl))
           Examples.rulesOnly).
Defined.

Lemma edits_keep_the_other_elements_witness :
  keepsOtherElements
    (Examples.sessionOf [Examples.baseSpread; Examples.tsEntry])
    (removeRule ["**/*.ts"] "no-console"
       (Examples.sessionOf [Examples.baseSpread; Examples.tsEntry])).
Proof.
  exact (proj1 (proj2 (proj2 (proj2 (proj2
           (edits_keep_the_other_elements (H := Reference.host)
              (Examples.sessionOf [Examples.baseSpread; Examples.tsEntry])
              ["**/*.ts"])))))
           "no-console").
Defined.

Section Patching.
Context `{TsMorph}.

#[local] Arguments existingFiles : simpl never.

Lemma objHas_cons (key k : string) (v : JsValue) (rest : list (string * JsValue)) :
  objHas key ((k, v) :: rest) = String.eqb k key || objHas key rest.
Proof. reflexivity. Qed.

(** One round of either patching loop keeps every member in place and
    under its name, and changes at most the property assignment found
    under the key. *)
Lemma patch_round_keeps_members (round : list Member -> string * JsValue -> list Member)
    (members : list Member) (entry : string * JsValue) (i : nat) (m : Member) :
  round = updateConfigEntry \/ round = updateRulesEntry ->
  members !! i = Some m ->
  length members <= length (round members entry) /\
  exists m',
    round members entry !! i = Some m' /\ getName m' = getName m /\
    (getName m <> Some entry.1 \/ isPropertyAssignment m = false -> m' = m).
Proof.
  intros Hround Hi. destruct entry as [key value]. simpl.
  assert (forall (index : nat) (name : string) (old new : Node),
             getProperty key members = Some (index, PropertyAssignment name old) ->
             length members <= length (<[index := PropertyAssignment name new]> members) /\
             exists m',
               <[index := PropertyAssignment name new]> members !! i = Some m' /\
               getName m' = getName m /\
               (getName m <> Some key \/ isPropertyAssignment m = false -> m' = m))
    as Hreplace.
  { intros index name old new Hget.
    apply getProperty_name in Hget as [Hindex Hname].
    split; [by rewrite length_insert|].
    destruct (decide (i = index)) as [->|Hne].
    - rewrite Hindex in Hi. injection Hi as <-.
      exists (PropertyAssignment name new). split_and!.
      + apply list_lookup_insert_eq. by eapply lookup_lt_Some.
      + reflexivity.
      + intros [Hother | Hkind]; [contradiction | discriminate].
    - exists m. split_and!; [by rewrite list_lookup_insert_ne | reflexivity | reflexivity]. }
  assert (forall member : Member,
             length members <= length (members ++ [member]) /\
             exists m',
               (members ++ [member]) !! i = Some m' /\ getName m' = getName m /\
               (getName m <> Some key \/ isPropertyAssignment m = false -> m' = m))
    as Happend.
  { intros member. split; [rewrite length_app; lia|].
    exists m. split_and!; [by apply lookup_app_l_Some | reflexivity | reflexivity]. }
  destruct Hround as [-> | ->].
  - unfold updateConfigEntry, setInitializer, addPropertyAssignment.
    destruct (getProperty key members) as [[index [name init| | | | |]]|] eqn:Hget;
      try apply Happend.
    destruct (String.eqb key "rules" && isObjectLike value); by eapply Hreplace.
  - unfold updateRulesEntry, setInitializer, addPropertyAssignment.
    destruct (getProperty key members) as [[index [name init| | | | |]]|] eqn:Hget;
      try apply Happend.
    by eapply Hreplace.
Qed.

Lemma patch_loop_keeps_members (round : list Member -> string * JsValue -> list Member)
    (entries : list (string * JsValue)) (members : list Member) (i : nat) (m : Member) :
  round = updateConfigEntry \/ round = updateRulesEntry ->
  members !! i = Some m ->
  length members <= length (foldl round members entries) /\
  exists m',
    foldl round members entries !! i = Some m' /\ getName m' = getName m /\
    (isPropertyAssignment m = false -> m' = m) /\
    ((forall key, getName m = Some key -> objHas key entries = false) -> m' = m).
Proof.
  intros Hround. revert members m.
  induction entries as [|[key value] rest IH]; intros members m Hi.
  - simpl. split; [lia|]. exists m. auto.
  - change (foldl round members ((key, value) :: rest))
      with (foldl round (round members (key, value)) rest).
    destruct (patch_round_keeps_members round members (key, value) i m Hround Hi)
      as (Hlen1 & m1 & Hi1 & Hname1 & Hsame1).
    destruct (IH (round members (key, value)) m1 Hi1)
      as (Hlen & m' & Hi' & Hname' & Hkind' & Hsame').
    split; [lia|]. exists m'. split_and!.
    + exact Hi'.
    + congruence.
    + intros Hkind. rewrite <- (Hsame1 (or_intror Hkind)) in Hkind |- *.
      exact (Hkind' Hkind).
    + intros Hfresh.
      assert (m1 = m) as ->.
      { apply Hsame1. left. simpl. intros Hkey.
        specialize (Hfresh key Hkey). rewrite objHas_cons, String.eqb_refl in Hfresh.
        discriminate. }
      apply Hsame'. intros k Hk. specialize (Hfresh k Hk).
      rewrite objHas_cons in Hfresh. apply orb_false_iff in Hfresh as [_ ?]. assumption.
Qed.

(** X6.  An upsert into an existing entry is a patch of its fields: no
    member of the entry is dropped or moved, every member keeps its name,
    members that are not property assignments (spreads, shorthands,
    methods) are left as they are, and so is every property whose name is
    not a key of the upserted object.  The merge of rules into an existing
    rules object literal keeps its members in the same way. *)
Theorem upsert_keeps_untouched_members (members : list Member)
    (entries : list (string * JsValue)) (i : nat) (m : Member) :
  members !! i = Some m ->
  (length members <= length (updateConfigObject members entries) /\
   exists m',
     updateConfigObject members entries !! i = Some m' /\ getName m' = getName m /\
     (isPropertyAssignment m = false -> m' = m) /\
     ((forall key, getName m = Some key -> objHas key entries = false) -> m' = m))
  /\ (exists merged,
        updateRulesProperty (ObjectLiteralExpression members) (VObject entries)
        = ObjectLiteralExpression merged /\
        length members <= length merged /\
        exists m',
          merged !! i = Some m' /\ getName m' = getName m /\
          (isPropertyAssignment m = false -> m' = m) /\
          ((forall key, getName m = Some key -> objHas key entries = false) -> m' = m)).
Proof.
  intros Hi. split.
  - apply (patch_loop_keeps_members updateConfigEntry); auto.
  - eexists. split; [reflexivity|].
    apply (patch_loop_keeps_members updateRulesEntry); auto.
Qed.

Lemma existingFiles_insert_rules (config : list Member) (j : nat) (name : string)
    (old : Node) (member : Member) :
  getProperty "rules" config = Some (j, PropertyAssignment name old) ->
  getName member = Some name ->
  existingFiles (ObjectLiteralExpression (<[j := member]> config))
  = existingFiles (ObjectLiteralExpression config).
Proof.
  intros Hget Hname. apply getProperty_name in Hget as [Hj Hrules]. simpl in Hrules.
  apply existingFiles_same_files. f_equal.
  apply (getProperty_insert_other "files" config j (PropertyAssignment name old) member Hj).
  - exact Hname.
  - simpl. congruence.
Qed.

Lemma existingFiles_app_other (config : list Member) (member : Member) :
  getName member <> Some "files" ->
  existingFiles (ObjectLiteralExpression (config ++ [member]))
  = existingFiles (ObjectLiteralExpression config).
Proof.
  intros Hother. apply existingFiles_same_files. f_equal.
  by apply getProperty_app_other.
Qed.

(** X7.  The editing of rules and spreads never changes which element a
    list of patterns finds: after [addRule], [updateRule], [removeRule],
    [clearAllRules] or one of the four spread operations on an entry that
    exists, every lookup by patterns returns the position it returned
    before. *)
Theorem rule_and_spread_edits_keep_lookups (s : Session) (filePattern : list string)
    (index : nat) (config : list Member) :
  is_Some (configArray s) ->
  findConfigByFiles filePattern s = Some (index, config) ->
  (forall ruleName ruleConfig s',
      addRule filePattern ruleName ruleConfig s = Ok s' \/
      updateRule filePattern ruleName ruleConfig s = Ok s' -> sameLookups s s') /\
  (forall ruleName, sameLookups s (removeRule filePattern ruleName s)) /\
  sameLookups s (clearAllRules filePattern s) /\
  (forall spreadExpression s',
      addSpreadToRules filePattern spreadExpression s = Ok s' \/
      removeSpreadFromRules filePattern spreadExpression s = Ok s' \/
      addSpreadToConfig filePattern spreadExpression s = Ok s' \/
      removeSpreadFromConfig filePattern spreadExpression s = Ok s' ->
      sameLookups s s').
Proof.
  intros [elements Hs] Hfind.
  assert (sameLookups s s) as Hrefl by (intros patterns; reflexivity).
  assert (forall properties',
             existingFiles (ObjectLiteralExpression properties')
             = existingFiles (ObjectLiteralExpression config) ->
             sameLookups s (setConfigObject s index properties')) as Hset.
  { intros properties' Hfiles.
    by apply (findConfigByFiles_setConfigObject s elements filePattern index config). }
  split_and!.
  - intros ruleName ruleConfig s'. unfold addRule, updateRule. rewrite Hfind.
    destruct (getProperty "rules" config) as [[j [name init| | | | |]]|] eqn:Hget;
      try (intros [[= <-]|[= <-]]; try exact Hrefl;
           apply Hset, existingFiles_app_other; discriminate).
    destruct init; intros [[= <-]|[= <-]]; try exact Hrefl;
      apply Hset; by eapply existingFiles_insert_rules.
  - intros ruleName. unfold removeRule. rewrite Hfind.
    destruct (getProperty "rules" config) as [[j [name init| | | | |]]|] eqn:Hget;
      try exact Hrefl.
    destruct init; try exact Hrefl.
    destruct (getRuleProperty ruleName properties) as [[k m]|]; [|exact Hrefl].
    apply Hset. by eapply existingFiles_insert_rules.
  - unfold clearAllRules. rewrite Hfind.
    destruct (getProperty "rules" config) as [[j [name init| | | | |]]|] eqn:Hget;
      try exact Hrefl.
    apply Hset, existingFiles_same_files.
    apply getProperty_name in Hget as [Hj Hname].
    apply (getProperty_delete_other "files" config j _ Hj). simpl in *. congruence.
  - intros spreadExpression s'.
    unfold addSpreadToRules, removeSpreadFromRules, onRulesObject,
      addSpreadToConfig, removeSpreadFromConfig, addSpreadAssignment.
    rewrite Hfind.
    assert (sameLookups s (setConfigObject s index
                             (config ++ [SpreadAssignment (parseExpression spreadExpression)])))
      as Hadd by (apply Hset, existingFiles_app_other; discriminate).
    assert (sameLookups s (setConfigObject s index (removeSpread spreadExpression config)))
      as Hdel by (apply Hset, existingFiles_same_files, getProperty_removeSpread).
    destruct (getProperty "rules" config) as [[j [name init| | | | |]]|] eqn:Hget;
      try (intros [|[|[|]]]; try discriminate;
           match goal with Heq : Ok _ = Ok _ |- _ => injection Heq as <- end;
           assumption).
    destruct init;
      (intros [|[|[|]]]; try discriminate;
       match goal with Heq : Ok _ = Ok _ |- _ => injection Heq as <- end;
       try assumption; apply Hset; by eapply existingFiles_insert_rules).
Qed.

End Patching.

Lemma upsert_keeps_untouched_members_witness :
  length Examples.tsConfig
  <= length (updateConfigObject (H := Reference.host) Examples.tsConfig Examples.tsUpdate).
Proof.
  exact (proj1 (proj1 (upsert_keeps_untouched_members (H := Reference.host)
                         Examples.tsConfig Examples.tsUpdate 0
                         (PropertyAssignment "files"
                            (ArrayLiteralExpression [StringLiteral "**/*.ts"]))
                         eq_refl))).
Defined.

Lemma rule_and_spread_edits_keep_lookups_witness :
  sameLookups
    (Examples.sessionOf [Examples.baseSpread; Examples.tsEntry])
    (clearAllRules ["**/*.ts"]
       (Examples.sessionOf [Examples.baseSpread; Examples.tsEntry])).
Proof.
  exact (proj1 (proj2 (proj2
           (rule_and_spread_edits_keep_lookups (H := Reference.host)
              (Examples.sessionOf [Examples.baseSpread; Examples.tsEntry])
              ["**/*.ts"] 1 Examples.tsConfig
              (ex_intro _ [Examples.baseSpread; Examples.tsEntry] eq_refl) eq_refl)))).
Defined.

(* ===================================================================== *)
(** * Rules: adding, looking up, removing, updating *)
(* ===================================================================== *)

Section RuleEdits.
Context `{TsMorph}.

#[local] Arguments existingFiles : simpl never.

Lemma objGet_objSet_eq (key : string) (value : JsValue) (entries : list (string * JsValue)) :
  objGet key (objSet key value entries) = value.
Proof.
  induction entries as [|[k v] rest IH]; simpl.
  - rewrite String.eqb_refl. reflexivity.
  - destruct (String.eqb k key) eqn:Hk; simpl; rewrite Hk; [reflexivity | exact IH].
Qed.

Lemma objGet_objSet_ne (key other : string) (value : JsValue)
    (entries : list (string * JsValue)) :
  other <> key -> objGet other (objSet key value entries) = objGet other entries.
Proof.
  intros Hne. induction entries as [|[k v] rest IH]; simpl.
  - destruct (String.eqb_spec key other); [congruence | reflexivity].
  - destruct (String.eqb_spec k key) as [->|Hk]; simpl.
    + destruct (String.eqb_spec key other); [congruence | reflexivity].
    + destruct (String.eqb k other); [reflexivity | exact IH].
Qed.

Lemma objHas_objSet_eq (key : string) (value : JsValue) (entries : list (string * JsValue)) :
  objHas key (objSet key value entries) = true.
Proof.
  unfold objHas. induction entries as [|[k v] rest IH]; simpl.
  - rewrite String.eqb_refl. reflexivity.
  - destruct (String.eqb k key) eqn:Hk; simpl; rewrite Hk; [reflexivity | exact IH].
Qed.

Lemma parseRulesObject_snoc (rules : list Member) (name : string) (init : Node) :
  parseRulesObject (rules ++ [PropertyAssignment name init])
  = objSet (stripQuotes name) (parsePropertyValue (Some init)) (parseRulesObject rules).
Proof. unfold parseRulesObject. rewrite foldl_app. reflexivity. Qed.

Lemma string_length_app (a b : string) :
  String.length (a +:+ b) = String.length a + String.length b.
Proof. induction a as [|c a IH]; simpl; [reflexivity | by rewrite IH]. Qed.

Lemma quoted_name_differs (open close ruleName : string) :
  open <> "" -> open +:+ ruleName +:+ close <> ruleName.
Proof.
  intros Hopen Heq. apply (f_equal String.length) in Heq.
  rewrite !string_length_app in Heq.
  destruct open; [contradiction | simpl in Heq; lia].
Qed.

(** A name that none of the three lookups of [getRuleProperty] finds is
    found, once appended under single quotes, at the appended member. *)
Lemma getRuleProperty_appended (ruleName : string) (rules : list Member) (init : Node) :
  getRuleProperty ruleName rules = None ->
  getRuleProperty ruleName (rules ++ [PropertyAssignment ("'" +:+ ruleName +:+ "'") init])
  = Some (length rules, PropertyAssignment ("'" +:+ ruleName +:+ "'") init).
Proof.
  unfold getRuleProperty. intros Hnone.
  destruct (getProperty ruleName rules) eqn:Hbare; [discriminate|].
  destruct (getProperty ("'" +:+ ruleName +:+ "'") rules) eqn:Hsingle; [discriminate|].
  rewrite getProperty_app_other, Hbare.
  - by rewrite (getProperty_app_new _ rules _ Hsingle).
  - simpl. intros [= Heq]. by apply (quoted_name_differs "'" "'" ruleName).
Qed.

(** The session after the rules of the entry found have been replaced. *)
Lemma rules_replaced (s : Session) (elements : list Node) (filePattern : list string)
    (index : nat) (configObj : list Member) (j : nat) (name : string)
    (rules rules' : list Member) :
  configArray s = Some elements ->
  findConfigByFiles filePattern s = Some (index, configObj) ->
  getProperty "rules" configObj
  = Some (j, PropertyAssignment name (ObjectLiteralExpression rules)) ->
  let configObj' :=
    <[j := PropertyAssignment name (ObjectLiteralExpression rules')]> configObj in
  let s' := setConfigObject s index configObj' in
  s' = setElements s (<[index := ObjectLiteralExpression configObj']> elements) /\
  configArray s' = Some (<[index := ObjectLiteralExpression configObj']> elements) /\
  findConfigByFiles filePattern s' = Some (index, configObj') /\
  getProperty "rules" configObj'
  = Some (j, PropertyAssignment name (ObjectLiteralExpression rules')).
Proof.
  intros Hs Hfind Hrules configObj' s'.
  destruct (findConfigByFiles_setConfigObject s elements filePattern index configObj
              configObj' Hs Hfind) as (Hset & Hfind' & _).
  { by eapply existingFiles_insert_rules. }
  split_and!; [exact Hset | | exact Hfind' |].
  - unfold s'. rewrite Hset. reflexivity.
  - by eapply getProperty_insert_same.
Qed.

Lemma addRule_into_rules_object (s : Session) (filePattern : list string)
    (index : nat) (configObj : list Member) (j : nat) (name : string)
    (rules : list Member) (ruleName : string) (ruleConfig : JsValue) :
  findConfigByFiles filePattern s = Some (index, configObj) ->
  getProperty "rules" configObj
  = Some (j, PropertyAssignment name (ObjectLiteralExpression rules)) ->
  addRule filePattern ruleName ruleConfig s
  = Ok (setConfigObject s index
          (<[j := PropertyAssignment name
                    (ObjectLiteralExpression
                       (rules ++ [PropertyAssignment ("'" +:+ ruleName +:+ "'")
                                    (parseExpression (valueToString ruleConfig))]))]>
             configObj)).
Proof. intros Hfind Hrules. unfold addRule. rewrite Hfind, Hrules. reflexivity. Qed.

(** X8.  A rule added to an entry that has a rules object literal is what
    the lookups then report: [hasRule] holds, the decoded rules map the
    name to the decoded new value (also when the name was there already),
    and every other name decodes as before.  The name is on one line and
    is not [__proto__], which is no ordinary key of a JavaScript object. *)
Theorem addRule_is_seen_by_the_lookups (s : Session) (elements : list Node)
    (filePattern : list string) (index : nat) (configObj : list Member)
    (j : nat) (name : string) (rules : list Member)
    (ruleName : string) (ruleConfig : JsValue) :
  configArray s = Some elements ->
  findConfigByFiles filePattern s = Some (index, configObj) ->
  getProperty "rules" configObj
  = Some (j, PropertyAssignment name (ObjectLiteralExpression rules)) ->
  hasLineTerminator ruleName = false ->
  ruleName <> "__proto__" ->
  exists s' decoded,
    addRule filePattern ruleName ruleConfig s = Ok s' /\
    getRulesForPattern filePattern s' = Some decoded /\
    hasRule filePattern ruleName s' = true /\
    objGet ruleName decoded
    = parsePropertyValue (Some (parseExpression (valueToString ruleConfig))) /\
    forall other, other <> ruleName ->
                  objGet other decoded = objGet other (parseRulesObject rules).
Proof.
  intros Hs Hfind Hrules Hline _.
  set (rules' := rules ++ [PropertyAssignment ("'" +:+ ruleName +:+ "'")
                             (parseExpression (valueToString ruleConfig))]).
  destruct (rules_replaced s elements filePattern index configObj j name rules rules'
              Hs Hfind Hrules) as (_ & _ & Hfind' & Hrules').
  assert (parseRulesObject rules'
          = objSet ruleName
              (parsePropertyValue (Some (parseExpression (valueToString ruleConfig))))
              (parseRulesObject rules)) as Hdecoded.
  { unfold rules'. rewrite parseRulesObject_snoc, (stripQuotes_quoted ruleName Hline).
    reflexivity. }
  exists (setConfigObject s index
            (<[j := PropertyAssignment name (ObjectLiteralExpression rules')]> configObj)),
    (parseRulesObject rules').
  split_and!.
  - by apply addRule_into_rules_object.
  - unfold getRulesForPattern. rewrite Hfind', Hrules'. reflexivity.
  - unfold hasRule, getRulesForPattern, objIn. rewrite Hfind', Hrules', Hdecoded.
    rewrite objHas_objSet_eq. reflexivity.
  - rewrite Hdecoded. apply objGet_objSet_eq.
  - intros other Hother. rewrite Hdecoded. by apply objGet_objSet_ne.
Qed.

(** X9.  Adding a rule and removing it again restores the session, when
    the entry has a rules object literal that did not hold the name bare,
    single-quoted or double-quoted. *)
Theorem addRule_then_removeRule_restores (s : Session) (elements : list Node)
    (filePattern : list string) (index : nat) (configObj : list Member)
    (j : nat) (name : string) (rules : list Member)
    (ruleName : string) (ruleConfig : JsValue) :
  configArray s = Some elements ->
  findConfigByFiles filePattern s = Some (index, configObj) ->
  getProperty "rules" configObj
  = Some (j, PropertyAssignment name (ObjectLiteralExpression rules)) ->
  getRuleProperty ruleName rules = None ->
  exists s', addRule filePattern ruleName ruleConfig s = Ok s' /\
             removeRule filePattern ruleName s' = s.
Proof.
  intros Hs Hfind Hrules Hfresh.
  set (added := PropertyAssignment ("'" +:+ ruleName +:+ "'")
                  (parseExpression (valueToString ruleConfig))).
  destruct (rules_replaced s elements filePattern index configObj j name rules
              (rules ++ [added]) Hs Hfind Hrules) as (Hset & Hs' & Hfind' & Hrules').
  eexists. split; [by apply addRule_into_rules_object|].
  fold added. unfold removeRule. rewrite Hfind', Hrules'.
  unfold added. rewrite (getRuleProperty_appended ruleName rules _ Hfresh).
  fold added. unfold setConfigObject at 1. rewrite Hs'.
  rewrite (delete_middle rules [] added), app_nil_r.
  rewrite !list_insert_insert_eq.
  apply getProperty_name in Hrules as [Hj _].
  rewrite (list_insert_id configObj j _ Hj).
  rewrite Hset, setElements_setElements.
  rewrite (list_insert_id elements index).
  - by apply setElements_same.
  - by eapply findConfigByFiles_lookup.
Qed.

(** X10.  [updateRule], and so [ensureRule], is idempotent on an entry
    with a rules object literal: a second call with the same arguments
    changes nothing, provided the name is either not found or found as a
    property assignment under its bare, single-quoted or double-quoted
    form. *)
Theorem updateRule_is_idempotent (s : Session) (elements : list Node)
    (filePattern : list string) (index : nat) (configObj : list Member)
    (j : nat) (name : string) (rules : list Member)
    (ruleName : string) (ruleConfig : JsValue) :
  configArray s = Some elements ->
  findConfigByFiles filePattern s = Some (index, configObj) ->
  getProperty "rules" configObj
  = Some (j, PropertyAssignment name (ObjectLiteralExpression rules)) ->
  (getRuleProperty ruleName rules = None \/
   exists k key old, getRuleProperty ruleName rules = Some (k, PropertyAssignment key old)) ->
  exists s1, updateRule filePattern ruleName ruleConfig s = Ok s1 /\
             updateRule filePattern ruleName ruleConfig s1 = Ok s1 /\
             ensureRule filePattern ruleName ruleConfig s1 = Ok s1.
Proof.
  intros Hs Hfind Hrules Hrule.
  set (new := parseExpression (valueToString ruleConfig)).
  assert (exists rules1,
             match getRuleProperty ruleName rules with
             | Some (k, PropertyAssignment ruleKey _) =>
                 setInitializer k ruleKey (valueToString ruleConfig) rules
             | _ => addPropertyAssignment ("'" +:+ ruleName +:+ "'")
                      (valueToString ruleConfig) rules
             end = rules1 /\
             match getRuleProperty ruleName rules1 with
             | Some (k, PropertyAssignment ruleKey _) =>
                 setInitializer k ruleKey (valueToString ruleConfig) rules1
             | _ => addPropertyAssignment ("'" +:+ ruleName +:+ "'")
                      (valueToString ruleConfig) rules1
             end = rules1) as (rules1 & Hfirst & Hsecond).
  { destruct Hrule as [Hnone | (k & key & old & Hsome)].
    - rewrite Hnone. eexists. split; [reflexivity|].
      unfold addPropertyAssignment.
      rewrite (getRuleProperty_appended ruleName rules _ Hnone).
      unfold setInitializer. apply list_insert_id.
      by rewrite lookup_app_r, Nat.sub_diag.
    - rewrite Hsome. eexists. split; [reflexivity|].
      unfold setInitializer. fold new.
      assert (rules !! k = Some (PropertyAssignment key old)) as Hk.
      { unfold getRuleProperty in Hsome.
        destruct (getProperty ruleName rules) as [found|] eqn:H1.
        - injection Hsome as ->. by apply getProperty_name in H1 as [? _].
        - destruct (getProperty ("'" +:+ ruleName +:+ "'") rules) as [found|] eqn:H2.
          + injection Hsome as ->. by apply getProperty_name in H2 as [? _].
          + by apply getProperty_name in Hsome as [? _]. }
      assert (getRuleProperty ruleName (<[k := PropertyAssignment key new]> rules)
              = Some (k, PropertyAssignment key new)) as ->.
      { unfold getRuleProperty in *.
        rewrite !(getProperty_insert _ rules k _ (PropertyAssignment key new) Hk eq_refl).
        destruct (getProperty ruleName rules) as [found|].
        - injection Hsome as ->. simpl. by rewrite decide_True.
        - destruct (getProperty ("'" +:+ ruleName +:+ "'") rules) as [found|].
          + injection Hsome as ->. simpl. by rewrite decide_True.
          + rewrite Hsome. simpl. by rewrite decide_True. }
      apply list_insert_insert_eq. }
  destruct (rules_replaced s elements filePattern index configObj j name rules rules1
              Hs Hfind Hrules) as (Hset & Hs1 & Hfind1 & Hrules1).
  assert (updateRule filePattern ruleName ruleConfig
            (setConfigObject s index
               (<[j := PropertyAssignment name (ObjectLiteralExpression rules1)]> configObj))
          = Ok (setConfigObject s index
                  (<[j := PropertyAssignment name (ObjectLiteralExpression rules1)]>
                     configObj))) as Hagain.
  { unfold updateRule. rewrite Hfind1, Hrules1, Hsecond.
    unfold setConfigObject at 1. rewrite Hs1.
    rewrite !list_insert_insert_eq. rewrite Hset, setElements_setElements. reflexivity. }
  eexists. split_and!; [| exact Hagain | exact Hagain].
  unfold updateRule. rewrite Hfind, Hrules, Hfirst. reflexivity.
Qed.

Lemma addMultipleRules_into_rules_object (newRules : list (string * JsValue))
    (s : Session) (elements : list Node)
    (filePattern : list string) (index : nat) (configObj : list Member)
    (j : nat) (name : string) (rules : list Member) :
  configArray s = Some elements ->
  findConfigByFiles filePattern s = Some (index, configObj) ->
  getProperty "rules" configObj
  = Some (j, PropertyAssignment name (ObjectLiteralExpression rules)) ->
  addMultipleRules filePattern newRules s
  = Ok (setElements s
          (<[index :=
               ObjectLiteralExpression
                 (<[j := PropertyAssignment name
                           (ObjectLiteralExpression
                              (rules ++
                               List.map (fun entry : string * JsValue =>
                                           PropertyAssignment ("'" +:+ entry.1 +:+ "'")
                                             (parseExpression (valueToString entry.2)))
                                        newRules))]> configObj)]> elements)).
Proof.
  revert s elements configObj rules.
  induction newRules as [|entry rest IH]; intros s elements configObj rules Hs Hfind Hrules.
  - simpl. rewrite app_nil_r.
    pose proof Hrules as [Hj _]%getProperty_name.
    rewrite (list_insert_id configObj j _ Hj).
    rewrite (list_insert_id elements index)
      by (by eapply findConfigByFiles_lookup).
    unfold addMultipleRules. simpl. by rewrite setElements_same.
  - set (added := PropertyAssignment ("'" +:+ entry.1 +:+ "'")
                    (parseExpression (valueToString entry.2))).
    destruct (rules_replaced s elements filePattern index configObj j name rules
                (rules ++ [added]) Hs Hfind Hrules) as (Hset & Hs1 & Hfind1 & Hrules1).
    rewrite addMultipleRules_cons.
    rewrite (addRule_into_rules_object s filePattern index configObj j name rules
               entry.1 entry.2 Hfind Hrules).
    simpl bind. fold added.
    rewrite (IH _ _ _ _ Hs1 Hfind1 Hrules1).
    rewrite Hset, setElements_setElements, !list_insert_insert_eq.
    simpl List.map. fold added. rewrite <- app_assoc. reflexivity.
Qed.

(** X11.  On an entry with a rules object literal [addMultipleRules]
    appends one property per given rule, single-quoted and in the order
    in which [Object.entries] lists the rules, after the rules that were
    there. *)
Theorem addMultipleRules_appends_in_order (newRules : list (string * JsValue))
    (s : Session) (elements : list Node)
    (filePattern : list string) (index : nat) (configObj : list Member)
    (j : nat) (name : string) (rules : list Member) :
  configArray s = Some elements ->
  findConfigByFiles filePattern s = Some (index, configObj) ->
  getProperty "rules" configObj
  = Some (j, PropertyAssignment name (ObjectLiteralExpression rules)) ->
  addMultipleRules filePattern newRules s
  = Ok (setElements s
          (<[index :=
               ObjectLiteralExpression
                 (<[j := PropertyAssignment name
                           (ObjectLiteralExpression
                              (rules ++
                               List.map (fun entry : string * JsValue =>
                                           PropertyAssignment ("'" +:+ entry.1 +:+ "'")
                                             (parseExpression (valueToString entry.2)))
                                        newRules))]> configObj)]> elements)).
Proof. apply addMultipleRules_into_rules_object. Qed.

(** X12.  [mergeRulesFromPattern] does nothing when the source patterns
    have no decoded rules.  Otherwise, when the target entry has a rules
    object literal, it appends to it one single-quoted property per
    decoded rule of the source, each with the decoded value encoded anew,
    in the order of the source.  The decoded keys are ordinary keys,
    which an object lists in the order of insertion. *)
Theorem mergeRulesFromPattern_appends_decoded_rules (s : Session) (elements : list Node)
    (sourcePattern targetPattern : list string) (index : nat) (configObj : list Member)
    (j : nat) (name : string) (rules : list Member) :
  configArray s = Some elements ->
  findConfigByFiles targetPattern s = Some (index, configObj) ->
  getProperty "rules" configObj
  = Some (j, PropertyAssignment name (ObjectLiteralExpression rules)) ->
  (getRulesForPattern sourcePattern s = None ->
   mergeRulesFromPattern sourcePattern targetPattern s = Ok s) /\
  (forall sourceRules,
      getRulesForPattern sourcePattern s = Some sourceRules ->
      forallb (fun entry : string * JsValue => isOrdinaryKey entry.1) sourceRules = true ->
      mergeRulesFromPattern sourcePattern targetPattern s
      = Ok (setElements s
              (<[index :=
                   ObjectLiteralExpression
                     (<[j := PropertyAssignment name
                               (ObjectLiteralExpression
                                  (rules ++
                                   List.map (fun entry : string * JsValue =>
                                               PropertyAssignment ("'" +:+ entry.1 +:+ "'")
                                                 (parseExpression (valueToString entry.2)))
                                            sourceRules))]> configObj)]> elements))).
Proof.
  intros Hs Hfind Hrules. unfold mergeRulesFromPattern. split.
  - by intros ->.
  - intros sourceRules -> _. by apply addMultipleRules_into_rules_object.
Qed.

End RuleEdits.

Lemma addRule_is_seen_by_the_lookups_witness :
  exists s',
    addRule (H := Reference.host) ["**/*.ts"] "no-debugger" (VString "warn")
      (Examples.sessionOf [Examples.tsEntry]) = Ok s' /\
    hasRule (H := Reference.host) ["**/*.ts"] "no-debugger" s' = true.
Proof.
  destruct (addRule_is_seen_by_the_lookups (H := Reference.host)
              (Examples.sessionOf [Examples.tsEntry]) [Examples.tsEntry]
              ["**/*.ts"] 0 Examples.tsConfig 1 "rules" Examples.tsRules
              "no-debugger" (VString "warn"))
    as (s' & decoded & Hadd & _ & Hhas & _);
    [reflexivity | reflexivity | reflexivity | reflexivity | discriminate |].
  exists s'. split; [exact Hadd | exact Hhas].
Defined.

Lemma addRule_then_removeRule_restores_witness :
  exists s',
    addRule (H := Reference.host) ["**/*.ts"] "no-debugger" (VString "warn")
      (Examples.sessionOf [Examples.tsEntry]) = Ok s' /\
    removeRule ["**/*.ts"] "no-debugger" s' = Examples.sessionOf [Examples.tsEntry].
Proof.
  exact (addRule_then_removeRule_restores (H := Reference.host)
           (Examples.sessionOf [Examples.tsEntry]) [Examples.tsEntry]
           ["**/*.ts"] 0 Examples.tsConfig 1 "rules" Examples.tsRules
           "no-debugger" (VString "warn") eq_refl eq_refl eq_refl eq_refl).
Defined.

Lemma updateRule_is_idempotent_witness :
  exists s1,
    updateRule (H := Reference.host) ["**/*.ts"] "no-console" (VString "warn")
      (Examples.sessionOf [Examples.tsEntry]) = Ok s1 /\
    updateRule (H := Reference.host) ["**/*.ts"] "no-console" (VString "warn") s1 = Ok s1 /\
    ensureRule (H := Reference.host) ["**/*.ts"] "no-console" (VString "warn") s1 = Ok s1.
Proof.
  apply (updateRule_is_idempotent (H := Reference.host)
           (Examples.sessionOf [Examples.tsEntry]) [Examples.tsEntry]
           ["**/*.ts"] 0 Examples.tsConfig 1 "rules" Examples.tsRules
           "no-console" (VString "warn") eq_refl eq_refl eq_refl).
  right. exists 0, "'no-console'", (StringLiteral "error"). reflexivity.
Defined.

Lemma addMultipleRules_appends_in_order_witness :
  addMultipleRules (H := Reference.host) ["**/*.ts"]
    [("semi", VString "error"); ("max-len", VNumber 100)]
    (Examples.sessionOf [Examples.tsEntry])
  = Ok (setElements (Examples.sessionOf [Examples.tsEntry])
          [ObjectLiteralExpression
             [PropertyAssignment "files"
                (ArrayLiteralExpression [StringLiteral "**/*.ts"]);
              PropertyAssignment "rules"
                (ObjectLiteralExpression
                   [PropertyAssignment "'no-console'" (StringLiteral "error");
                    PropertyAssignment "'semi'" (StringLiteral "error");
                    PropertyAssignment "'max-len'" (NumericLiteral 100)])]]).
Proof.
  exact (addMultipleRules_appends_in_order (H := Reference.host)
           [("semi", VString "error"); ("max-len", VNumber 100)]
           (Examples.sessionOf [Examples.tsEntry]) [Examples.tsEntry]
           ["**/*.ts"] 0 Examples.tsConfig 1 "rules" Examples.tsRules
           eq_refl eq_refl eq_refl).
Defined.

Lemma mergeRulesFromPattern_appends_decoded_rules_witness :
  mergeRulesFromPattern (H := Reference.host) ["**/*.js"] ["**/*.ts"]
    (Examples.sessionOf [Examples.jsEntry; Examples.tsEntry])
  = Ok (setElements (Examples.sessionOf [Examples.jsEntry; Examples.tsEntry])
          [Examples.jsEntry;
           ObjectLiteralExpression
             [PropertyAssignment "files"
                (ArrayLiteralExpression [StringLiteral "**/*.ts"]);
              PropertyAssignment "rules"
                (ObjectLiteralExpression
                   [PropertyAssignment "'no-console'" (StringLiteral "error");
                    PropertyAssignment "'...baseRules'" NullKeyword;
                    PropertyAssignment "'semi'" (StringLiteral "error")])]]).
Proof.
  exact (proj2 (mergeRulesFromPattern_appends_decoded_rules (H := Reference.host)
                  (Examples.sessionOf [Examples.jsEntry; Examples.tsEntry])
                  [Examples.jsEntry; Examples.tsEntry]
                  ["**/*.js"] ["**/*.ts"] 1 Examples.tsConfig 1 "rules" Examples.tsRules
                  eq_refl eq_refl eq_refl)
           [("...baseRules", VNull); ("semi", VString "error")] eq_refl eq_refl).
Defined.

(* ===================================================================== *)
(** * Decoding and encoding *)
(* ===================================================================== *)

Section Codec.
Context `{TsMorph}.

Lemma objHas_false (key : string) (entries : list (string * JsValue)) :
  objHas key entries = false <-> key ∉ List.map fst entries.
Proof.
  unfold objHas. induction entries as [|[k v] rest IH]; simpl.
  - split; [intros _ Hin; inversion Hin | reflexivity].
  - rewrite orb_false_iff, IH, not_elem_of_cons.
    destruct (String.eqb_spec k key) as [->|Hne]; split;
      try (intros [? ?]; congruence); try (intros [? ?]; split; congruence); intuition.
Qed.

Lemma objSet_keys (key : string) (value : JsValue) (entries : list (string * JsValue)) :
  List.map fst (objSet key value entries)
  = if objHas key entries then List.map fst entries else List.map fst entries ++ [key].
Proof.
  unfold objHas. induction entries as [|[k v] rest IH]; simpl; [reflexivity|].
  destruct (String.eqb k key); simpl; [reflexivity|].
  rewrite IH. destruct (existsb _ rest); reflexivity.
Qed.

Lemma objSet_NoDup (key : string) (value : JsValue) (entries : list (string * JsValue)) :
  NoDup (List.map fst entries) -> NoDup (List.map fst (objSet key value entries)).
Proof.
  intros Hnodup. rewrite objSet_keys.
  destruct (objHas key entries) eqn:Hhas; [exact Hnodup|].
  apply NoDup_app. split_and!; [exact Hnodup | | apply NoDup_singleton].
  intros x Hx ->%list_elem_of_singleton. by apply objHas_false in Hhas.
Qed.

Lemma foldl_NoDup (step : list (string * JsValue) -> Member -> list (string * JsValue))
    (properties : list Member) :
  (forall acc m, NoDup (List.map fst acc) -> NoDup (List.map fst (step acc m))) ->
  NoDup (List.map fst (foldl step [] properties)).
Proof.
  intros Hstep.
  assert (forall acc, NoDup (List.map fst acc) ->
                      NoDup (List.map fst (foldl step acc properties))) as Hall.
  { induction properties as [|m rest IH]; intros acc Hacc; simpl; [exact Hacc|].
    apply IH, Hstep, Hacc. }
  apply Hall. constructor.
Qed.

(** Members after the last one that bears a key do not change what the
    key decodes to. *)
Lemma foldl_keeps_key (step : list (string * JsValue) -> Member -> list (string * JsValue))
    (key : string) (after : list Member) (acc : list (string * JsValue)) :
  (forall acc m, decodedKey m <> Some key -> objGet key (step acc m) = objGet key acc) ->
  (forall m, m ∈ after -> decodedKey m <> Some key) ->
  objGet key (foldl step acc after) = objGet key acc.
Proof.
  intros Hstep. revert acc.
  induction after as [|m rest IH]; intros acc Hafter; simpl; [reflexivity|].
  rewrite IH.
  - apply Hstep, Hafter. by left.
  - intros m' Hin. apply Hafter. by right.
Qed.

(** X13.  The decoders of object literals never return a key twice, and a
    key that the source holds more than once decodes to the value of its
    last occurrence (for a key other than [__proto__], which is no
    ordinary key of a JavaScript object). *)
Theorem decoded_objects_have_distinct_keys (properties : list Member) :
  NoDup (List.map fst (parseRulesObject properties)) /\
  NoDup (List.map fst (parseObjectLiteral properties)) /\
  NoDup (List.map fst (parseConfigObject properties)) /\
  forall before name init after,
    properties = before ++ PropertyAssignment name init :: after ->
    stripQuotes name <> "__proto__" ->
    (forall m, m ∈ after -> decodedKey m <> Some (stripQuotes name)) ->
    objGet (stripQuotes name) (parseRulesObject properties)
    = parsePropertyValue (Some init) /\
    objGet (stripQuotes name) (parseObjectLiteral properties)
    = parsePropertyValue (Some init).
Proof.
  split_and!.
  - apply foldl_NoDup. intros acc m Hacc. destruct m; try exact Hacc; by apply objSet_NoDup.
  - apply foldl_NoDup. intros acc m Hacc. destruct m; try exact Hacc; by apply objSet_NoDup.
  - apply foldl_NoDup. intros acc m Hacc. destruct m; try exact Hacc;
      repeat (match goal with |- context [if ?c then _ else _] => destruct c end);
      by apply objSet_NoDup.
  - intros before name init after -> _ Hafter.
    unfold parseRulesObject, parseObjectLiteral.
    rewrite !foldl_app. simpl foldl. split.
    + rewrite foldl_keeps_key; [apply objGet_objSet_eq | | exact Hafter].
      intros acc m Hm. destruct m; simpl in Hm; try reflexivity;
        apply objGet_objSet_ne; congruence.
    + rewrite foldl_keeps_key; [apply objGet_objSet_eq | | exact Hafter].
      intros acc m Hm. destruct m; simpl in Hm; try reflexivity;
        apply objGet_objSet_ne; congruence.
Qed.

Lemma parsePropertyValue_fallback (valueNode : Node) :
  isRecognizedShape valueNode = false ->
  parsePropertyValue (Some valueNode) = VString (getText valueNode).
Proof.
  destruct valueNode as [| | | | | | |name|els|props|e|e|f args|text];
    simpl; try discriminate; try reflexivity.
  - intros ->. reflexivity.
  - destruct e as [| | | | | | |n|els|props|e'|e'|callee args|text]; try reflexivity.
    intros Hshape.
    destruct (parseDynamicImport callee args) as [v|] eqn:E; [|reflexivity].
    apply parseDynamicImport_Some in E as [Hc (m & r & -> & _)].
    congruence.
Qed.

(** X14.  Decoding and encoding again does not give back an expression
    that the decoder does not recognize: its decoded value is its source
    text, and [valueToString] renders that as a single-quoted string
    literal of the text. *)
Theorem opaque_expression_is_reencoded_as_string_literal (valueNode : Node) :
  isRecognizedShape valueNode = false ->
  valueToString (parsePropertyValue (Some valueNode))
  = "'" +:+ escapeSingleQuotes (getText valueNode) +:+ "'".
Proof. intros Hshape. rewrite (parsePropertyValue_fallback _ Hshape). reflexivity. Qed.

(** X15.  A recognized dynamic import is encoded again as
    [await import('path')] with the one module path, whatever the callee
    form and whatever further arguments the call had; with the empty path
    it is encoded as the object literal of the tag instead. *)
Theorem dynamic_import_is_reencoded_as_import (callee : Node) (modulePath : string)
    (rest : list Node) :
  isImportCallee callee = true ->
  valueToString
    (parsePropertyValue
       (Some (AwaitExpression (CallExpression callee (StringLiteral modulePath :: rest)))))
  = if String.eqb modulePath "" then "{ '__dynamicImport': '' }"
    else "await import('" +:+ modulePath +:+ "')".
Proof.
  intros Hcallee.
  assert (parseDynamicImport callee (StringLiteral modulePath :: rest)
          = Some (dynamicImport modulePath)) as Hparse
    by (apply parseDynamicImport_Some; eauto).
  simpl. rewrite Hparse. unfold dynamicImport. simpl.
  destruct (String.eqb_spec modulePath "") as [->|Hne]; reflexivity.
Qed.

End Codec.

Lemma decoded_objects_have_distinct_keys_witness :
  objGet "semi"
    (parseRulesObject (H := Reference.host)
       [PropertyAssignment "semi" (StringLiteral "warn");
        PropertyAssignment "'semi'" (StringLiteral "error")])
  = VString "error".
Proof.
  refine (proj1 (proj2 (proj2 (proj2
            (decoded_objects_have_distinct_keys (H := Reference.host)
               [PropertyAssignment "semi" (StringLiteral "warn");
                PropertyAssignment "'semi'" (StringLiteral "error")])))
            [PropertyAssignment "semi" (StringLiteral "warn")]
            "'semi'" (StringLiteral "error") [] eq_refl _ _)).
  - discriminate.
  - intros m Hm. by apply elem_of_nil in Hm.
Defined.

Lemma opaque_expression_is_reencoded_as_string_literal_witness :
  valueToString (parsePropertyValue (H := Reference.host) (Some (Identifier "tsFiles")))
  = "'tsFiles'".
Proof.
  exact (opaque_expression_is_reencoded_as_string_literal (H := Reference.host)
           (Identifier "tsFiles") eq_refl).
Defined.

Lemma dynamic_import_is_reencoded_as_import_witness :
  valueToString
    (parsePropertyValue (H := Reference.host)
       (Some (AwaitExpression
                (CallExpression ImportKeyword [StringLiteral "./plugin.js"]))))
  = "await import('./plugin.js')".
Proof.
  exact (dynamic_import_is_reencoded_as_import (H := Reference.host)
           ImportKeyword "./plugin.js" [] eq_refl).
Defined.

Section ClearRules.
Context `{TsMorph}.

#[local] Arguments existingFiles : simpl never.

(** X16.  [clearAllRules] takes the [rules] property out of the entry
    found and keeps the entry: when no second member is named [rules],
    the entry is still found under its patterns, it has no decoded rules
    any more, and [hasRule] is false for every name. *)
Theorem clearAllRules_leaves_entry_without_rules (s : Session) (elements : list Node)
    (filePattern : list string) (index : nat) (config : list Member)
    (j : nat) (name : string) (init : Node) :
  configArray s = Some elements ->
  findConfigByFiles filePattern s = Some (index, config) ->
  getProperty "rules" config = Some (j, PropertyAssignment name init) ->
  getProperty "rules" (delete j config) = None ->
  findConfigByFiles filePattern (clearAllRules filePattern s)
  = Some (index, delete j config) /\
  getRulesForPattern filePattern (clearAllRules filePattern s) = None /\
  forall ruleName, hasRule filePattern ruleName (clearAllRules filePattern s) = false.
Proof.
  intros Hs Hfind Hrules Hnone.
  assert (clearAllRules filePattern s = setConfigObject s index (delete j config)) as ->
    by (unfold clearAllRules; rewrite Hfind, Hrules; reflexivity).
  destruct (findConfigByFiles_setConfigObject s elements filePattern index config
              (delete j config) Hs Hfind) as (_ & Hfind' & _).
  { apply existingFiles_same_files.
    apply getProperty_name in Hrules as [Hj Hname].
    apply (getProperty_delete_other "files" config j _ Hj). simpl in *. congruence. }
  assert (getRulesForPattern filePattern (setConfigObject s index (delete j config)) = None)
    as Hdecoded by (unfold getRulesForPattern; rewrite Hfind', Hnone; reflexivity).
  split_and!; [exact Hfind' | exact Hdecoded |].
  intros ruleName. unfold hasRule. rewrite Hdecoded. reflexivity.
Qed.

End ClearRules.

Lemma clearAllRules_leaves_entry_without_rules_witness :
  findConfigByFiles ["**/*.ts"]
    (clearAllRules ["**/*.ts"] (Examples.sessionOf [Examples.tsEntry]))
  = Some (0, [PropertyAssignment "files"
                (ArrayLiteralExpression [StringLiteral "**/*.ts"])]) /\
  getRulesForPattern (H := Reference.host) ["**/*.ts"]
    (clearAllRules ["**/*.ts"] (Examples.sessionOf [Examples.tsEntry])) = None.
Proof.
  destruct (clearAllRules_leaves_entry_without_rules (H := Reference.host)
              (Examples.sessionOf [Examples.tsEntry]) [Examples.tsEntry]
              ["**/*.ts"] 0 Examples.tsConfig 1 "rules"
              (ObjectLiteralExpression Examples.tsRules)
              eq_refl eq_refl eq_refl eq_refl) as (Hfound & Hrules & _).
  split; [exact Hfound | exact Hrules].
Defined.

(* ===================================================================== *)
(** * Imports: ensuring, querying, removing *)
(* ===================================================================== *)

Section ImportEdits.
Import ImportTsMorphUtil.

Lemma addSpecifierToImport_module (d d' : ImportDeclaration) (x : string)
    (importType : ImportType) :
  addSpecifierToImport d x importType = Ok d' ->
  moduleSpecifierValue d' = moduleSpecifierValue d.
Proof.
  unfold addSpecifierToImport, setDefaultImport, setNamespaceImport, addNamedImport.
  destruct importType.
  - destruct (negb _); [|by intros [= <-]].
    destruct (namedImports d), (namespaceImport d); try discriminate; by intros [= <-].
  - destruct (defaultImport d); [by intros [= <-]|].
    destruct (isNullOrWhitespace x); by intros [= <-].
  - destruct (namespaceImport d) eqn:Hns; [by intros [= <-]|].
    destruct (isNullOrWhitespace x); [by intros [= <-]|].
    destruct (namedImports d); [by intros [= <-] | discriminate].
  - by intros [= <-].
Qed.

(** After a specifier has been added it is found, unless the slot of its
    kind was taken. *)
Lemma addSpecifierToImport_has (d d' : ImportDeclaration) (x : string)
    (importType : ImportType) :
  isNullOrWhitespace x = false ->
  addSpecifierToImport d x importType = Ok d' ->
  hasImportSpecifier d' x importType = true \/
  d' = d /\
  (importType = default /\ is_Some (defaultImport d) \/
   importType = namespace /\ is_Some (namespaceImport d) \/
   importType = full).
Proof.
  intros Hx.
  unfold addSpecifierToImport, setDefaultImport, setNamespaceImport, addNamedImport.
  rewrite Hx. destruct importType.
  - destruct (hasImportSpecifier d x named) eqn:Hhas; simpl.
    + intros [= <-]. by left.
    + destruct (namedImports d) eqn:Hnamed, (namespaceImport d); try discriminate;
        intros [= <-]; left; simpl; rewrite ?existsb_app; simpl;
        unfold specifierMatches; simpl; rewrite String.eqb_refl;
        rewrite ?orb_true_r; reflexivity.
  - destruct (defaultImport d) eqn:Hdefault.
    + intros [= <-]. right. eauto 6.
    + intros [= <-]. left. simpl. apply String.eqb_refl.
  - destruct (namespaceImport d) eqn:Hns.
    + intros [= <-]. right. eauto 6.
    + destruct (namedImports d); [|discriminate].
      intros [= <-]. left. simpl. apply String.eqb_refl.
  - intros [= <-]. right. eauto 6.
Qed.

Lemma newImportDeclaration_has (x m : string) (importType : ImportType) :
  importType <> full ->
  hasImportSpecifier (newImportDeclaration x m importType) x importType = true.
Proof.
  destruct importType; intros Hkind; try contradiction; simpl;
    unfold specifierMatches; simpl; rewrite String.eqb_refl; reflexivity.
Qed.

Lemma isIdentifierText_not_blank (importType : ImportType) (x : string) :
  importType = full \/ isIdentifierText x = true ->
  importType = full \/ isNullOrWhitespace x = false.
Proof.
  intros [-> | Hx]; [by left | right].
  destruct x as [|c rest]; [discriminate|].
  apply andb_true_iff in Hx as [Hstart _]. simpl.
  destruct (Ascii.is_space c) eqn:Hspace; [|reflexivity].
  destruct c as [[] [] [] [] [] [] [] []]; vm_compute in Hstart, Hspace; congruence.
Qed.

(** X17.  [ensureImport] is idempotent for every kind of import: when a
    call returns, the same call on the result changes nothing.  The
    specifier of a named, default or namespace import is an identifier. *)
Theorem ensureImport_is_idempotent (s s1 : Imports) (x m : string)
    (importType : ImportType) :
  importType = full \/ isIdentifierText x = true ->
  ensureImport x m importType s = Ok s1 ->
  ensureImport x m importType s1 = Ok s1.
Proof.
  intros Hx%isIdentifierText_not_blank. unfold ensureImport.
  destruct (findImportDeclaration m s) as [[index d]|] eqn:Hfind.
  - destruct (ImportType_eqb importType full || hasImportSpecifier d x importType)
      eqn:Hcond.
    + intros [= <-]. rewrite Hfind, Hcond. reflexivity.
    + destruct (addSpecifierToImport d x importType) as [d'|] eqn:Hadd; [|discriminate].
      simpl. intros [= <-].
      pose proof (findImportDeclaration_Some m s index d Hfind) as (_ & Hm & _).
      rewrite (findImportDeclaration_insert m s index d d' Hfind)
        by (rewrite (addSpecifierToImport_module d d' x importType Hadd); exact Hm).
      apply orb_false_iff in Hcond as [Hfull Hhas].
      destruct Hx as [-> | Hx]; [discriminate|].
      destruct (addSpecifierToImport_has d d' x importType Hx Hadd)
        as [-> | [-> Hslot]].
      * rewrite orb_true_r. reflexivity.
      * rewrite Hfull, Hhas, Hadd. simpl. by rewrite list_insert_insert_eq.
  - intros [= <-]. unfold createImportDeclaration.
    rewrite (findImportDeclaration_new m s (newImportDeclaration x m importType) Hfind)
      by (destruct importType; reflexivity).
    destruct importType; try reflexivity;
      rewrite newImportDeclaration_has by discriminate; reflexivity.
Qed.

(** X18.  After [ensureImport] has returned, [hasImport] holds for the
    same arguments, except when a default or namespace import was asked
    for and the declaration already had another one: then nothing was
    changed.  The specifier of a named, default or namespace import is
    an identifier. *)
Theorem ensureImport_then_hasImport (s s1 : Imports) (x m : string)
    (importType : ImportType) :
  importType = full \/ isIdentifierText x = true ->
  ensureImport x m importType s = Ok s1 ->
  hasImport x m importType s1 = true \/
  s1 = s /\
  exists index d,
    findImportDeclaration m s = Some (index, d) /\
    (importType = default /\ is_Some (defaultImport d) \/
     importType = namespace /\ is_Some (namespaceImport d)).
Proof.
  intros Hx%isIdentifierText_not_blank. unfold ensureImport, hasImport.
  destruct (findImportDeclaration m s) as [[index d]|] eqn:Hfind.
  - destruct (ImportType_eqb importType full || hasImportSpecifier d x importType)
      eqn:Hcond.
    + intros [= <-]. left. rewrite Hfind.
      destruct (ImportType_eqb importType full); [reflexivity | exact Hcond].
    + destruct (addSpecifierToImport d x importType) as [d'|] eqn:Hadd; [|discriminate].
      simpl. intros [= <-].
      pose proof (findImportDeclaration_Some m s index d Hfind) as (Hindex & Hm & _).
      apply orb_false_iff in Hcond as [Hfull Hhas].
      destruct Hx as [-> | Hx]; [discriminate|].
      destruct (addSpecifierToImport_has d d' x importType Hx Hadd)
        as [Hnow | [-> Hslot]].
      * left.
        rewrite (findImportDeclaration_insert m s index d d' Hfind)
          by (rewrite (addSpecifierToImport_module d d' x importType Hadd); exact Hm).
        rewrite Hfull. exact Hnow.
      * right. split; [by apply list_insert_id|].
        exists index, d. split; [reflexivity|].
        destruct Hslot as [? | [? | Hfull']]; [by left | by right |].
        subst importType. discriminate.
  - intros [= <-]. left. unfold createImportDeclaration.
    rewrite (findImportDeclaration_new m s (newImportDeclaration x m importType) Hfind)
      by (destruct importType; reflexivity).
    destruct importType; try reflexivity;
      rewrite newImportDeclaration_has by discriminate; reflexivity.
Qed.

Lemma removeSpecifierFromImport_absent (d : ImportDeclaration) (x : string)
    (importType : ImportType) :
  hasImportSpecifier d x importType = false ->
  removeSpecifierFromImport d x importType = (d, false).
Proof.
  unfold removeSpecifierFromImport.
  destruct importType; simpl; intros Hhas; rewrite ?Hhas; reflexivity.
Qed.

(** X19.  Removing a specifier that [hasImport] does not report changes
    nothing: neither the declaration nor the list of declarations. *)
Theorem removeImport_of_absent_specifier (s : Imports) (x m : string)
    (importType : ImportType) :
  importType <> full ->
  hasImport x m importType s = false ->
  removeImport x m importType s = s.
Proof.
  intros Hkind. unfold hasImport, removeImport.
  destruct (findImportDeclaration m s) as [[index d]|] eqn:Hfind; [|reflexivity].
  destruct importType; try contradiction; simpl ImportType_eqb; cbv iota;
    intros Hhas; rewrite (removeSpecifierFromImport_absent d x _ Hhas); simpl;
    apply list_insert_id; by apply findImportDeclaration_Some in Hfind as [? _].
Qed.

Lemma otherModules_insert (m : string) (s : Imports) (index : nat)
    (d d' : ImportDeclaration) :
  s !! index = Some d ->
  moduleSpecifierValue d = m ->
  moduleSpecifierValue d' = m ->
  otherModules m (<[index := d']> s) = otherModules m s.
Proof.
  intros Hindex Hm Hm'. unfold otherModules.
  rewrite insert_take_drop by (by eapply lookup_lt_Some).
  rewrite <- (take_drop_middle s index d Hindex) at 3.
  rewrite !filter_app, !filter_cons.
  rewrite !decide_False by (intros Hne; contradiction); reflexivity.
Qed.

Lemma otherModules_delete (m : string) (s : Imports) (index : nat) (d : ImportDeclaration) :
  s !! index = Some d ->
  moduleSpecifierValue d = m ->
  otherModules m (delete index s) = otherModules m s.
Proof.
  intros Hindex Hm. unfold otherModules.
  rewrite delete_take_drop.
  rewrite <- (take_drop_middle s index d Hindex) at 3.
  rewrite !filter_app, !filter_cons.
  rewrite decide_False by (intros Hne; contradiction). reflexivity.
Qed.

(** X20.  Ensuring or removing an import of module [m] leaves the
    declarations of all other modules as they are and in their order, and
    [ensureImport] never adds a second declaration for a module that has
    one. *)
Theorem import_edits_leave_other_modules (s : Imports) (x m : string)
    (importType : ImportType) :
  (forall s1,
      ensureImport x m importType s = Ok s1 ->
      otherModules m s1 = otherModules m s /\
      (is_Some (findImportDeclaration m s) -> length s1 = length s)) /\
  otherModules m (removeImport x m importType s) = otherModules m s.
Proof.
  split.
  - intros s1. unfold ensureImport.
    destruct (findImportDeclaration m s) as [[index d]|] eqn:Hfind.
    + pose proof (findImportDeclaration_Some m s index d Hfind) as (Hindex & Hm & _).
      destruct (ImportType_eqb importType full || hasImportSpecifier d x importType).
      * intros [= <-]. auto.
      * destruct (addSpecifierToImport d x importType) as [d'|] eqn:Hadd; [|discriminate].
        simpl. intros [= <-]. split; [|by rewrite length_insert].
        apply (otherModules_insert m s index d d' Hindex Hm).
        rewrite (addSpecifierToImport_module d d' x importType Hadd). exact Hm.
    + intros [= <-]. split; [|by intros [? [=]]].
      unfold createImportDeclaration, otherModules.
      rewrite filter_app, filter_cons, decide_False, filter_nil, app_nil_r; [reflexivity|].
      intros Hne. apply Hne. destruct importType; reflexivity.
  - unfold removeImport.
    destruct (findImportDeclaration m s) as [[index d]|] eqn:Hfind; [|reflexivity].
    pose proof (findImportDeclaration_Some m s index d Hfind) as (Hindex & Hm & _).
    destruct (ImportType_eqb importType full);
      [by apply (otherModules_delete m s index d)|].
    destruct (removeSpecifierFromImport d x importType) as [d' removed] eqn:Hremove.
    destruct (removed && isImportEmpty d');
      [by apply (otherModules_delete m s index d)|].
    apply (otherModules_insert m s index d d' Hindex Hm).
    unfold removeSpecifierFromImport in Hremove.
    destruct importType;
      repeat (match type of Hremove with
              | context [if ?c then _ else _] => destruct c
              end);
      injection Hremove as <- _; exact Hm.
Qed.

Lemma isImportEmpty_lists_nothing (d : ImportDeclaration) :
  isImportEmpty d = true <-> getImportSpecifiers d = [].
Proof.
  unfold isImportEmpty, getImportSpecifiers.
  destruct (defaultImport d), (namespaceImport d), (namedImports d); simpl;
    split; try discriminate; reflexivity.
Qed.

(** X21.  [removeImport] never leaves behind a declaration that it has
    emptied: a declaration of the result for which [getImports] lists no
    specifier (a side-effect import) was in the file before. *)
Theorem removeImport_leaves_no_emptied_declaration (s : Imports) (x m : string)
    (importType : ImportType) (d : ImportDeclaration) :
  d ∈ removeImport x m importType s ->
  getImportSpecifiers d = [] ->
  d ∈ s.
Proof.
  intros Hin Hnone. unfold removeImport in Hin.
  destruct (findImportDeclaration m s) as [[index found]|] eqn:Hfind; [|exact Hin].
  pose proof (findImportDeclaration_Some m s index found Hfind) as (Hindex & _ & _).
  assert (forall l : list ImportDeclaration, d ∈ delete index l -> d ∈ l) as Hdelete.
  { intros l (j & _ & Hj)%elem_of_delete. by eapply list_elem_of_lookup_2. }
  destruct (ImportType_eqb importType full); [by apply Hdelete|].
  destruct (removeSpecifierFromImport found x importType) as [d' removed] eqn:Hremove.
  destruct (removed && isImportEmpty d') eqn:Hcond; [by apply Hdelete|].
  apply list_elem_of_lookup in Hin as [j Hj].
  apply list_lookup_insert_Some in Hj as [(-> & -> & _) | (_ & Hj)];
    [|by eapply list_elem_of_lookup_2].
  apply isImportEmpty_lists_nothing in Hnone. rewrite Hnone, andb_true_r in Hcond.
  subst removed.
  assert (d = found) as ->; [|by eapply list_elem_of_lookup_2].
  unfold removeSpecifierFromImport in Hremove.
  destruct importType;
    repeat (match type of Hremove with
            | context [if ?c then _ else _] => destruct c
            end);
    by injection Hremove.
Qed.

End ImportEdits.

Lemma ensureImport_is_idempotent_witness :
  ImportTsMorphUtil.ensureImport "useRef" "react" ImportTsMorphUtil.named
    [ImportTsMorphUtil.mkImport "react" (Some "React") None
       [ImportTsMorphUtil.mkSpecifier "useState" None;
        ImportTsMorphUtil.mkSpecifier "useRef" None]]
  = Ok [ImportTsMorphUtil.mkImport "react" (Some "React") None
          [ImportTsMorphUtil.mkSpecifier "useState" None;
           ImportTsMorphUtil.mkSpecifier "useRef" None]].
Proof.
  apply (ensureImport_is_idempotent [Examples.reactImport]
           [ImportTsMorphUtil.mkImport "react" (Some "React") None
              [ImportTsMorphUtil.mkSpecifier "useState" None;
               ImportTsMorphUtil.mkSpecifier "useRef" None]]
           "useRef" "react" ImportTsMorphUtil.named).
  - right. reflexivity.
  - reflexivity.
Defined.

Lemma ensureImport_then_hasImport_witness :
  ImportTsMorphUtil.hasImport "Other" "react" ImportTsMorphUtil.default
    [Examples.reactImport] = true \/
  [Examples.reactImport] = [Examples.reactImport] /\
  exists index d,
    ImportTsMorphUtil.findImportDeclaration "react" [Examples.reactImport]
    = Some (index, d) /\
    (ImportTsMorphUtil.default = ImportTsMorphUtil.default /\
     is_Some (ImportTsMorphUtil.defaultImport d) \/
     ImportTsMorphUtil.default = ImportTsMorphUtil.namespace /\
     is_Some (ImportTsMorphUtil.namespaceImport d)).
Proof.
  apply (ensureImport_then_hasImport [Examples.reactImport] [Examples.reactImport]
           "Other" "react" ImportTsMorphUtil.default).
  - right. reflexivity.
  - reflexivity.
Defined.

Lemma removeImport_of_absent_specifier_witness :
  ImportTsMorphUtil.removeImport "useRef" "react" ImportTsMorphUtil.named
    [Examples.lodashImport; Examples.reactImport]
  = [Examples.lodashImport; Examples.reactImport].
Proof.
  apply (removeImport_of_absent_specifier [Examples.lodashImport; Examples.reactImport]
           "useRef" "react" ImportTsMorphUtil.named).
  - discriminate.
  - reflexivity.
Defined.

Lemma import_edits_leave_other_modules_witness :
  otherModules "react"
    (ImportTsMorphUtil.removeImport "useState" "react" ImportTsMorphUtil.named
       [Examples.lodashImport; Examples.reactImport])
  = otherModules "react" [Examples.lodashImport; Examples.reactImport].
Proof.
  exact (proj2 (import_edits_leave_other_modules
                  [Examples.lodashImport; Examples.reactImport]
                  "useState" "react" ImportTsMorphUtil.named)).
Defined.

Lemma removeImport_leaves_no_emptied_declaration_witness :
  Examples.polyfillImport
  ∈ [Examples.polyfillImport;
     ImportTsMorphUtil.mkImport "m" None None [ImportTsMorphUtil.mkSpecifier "only" None]].
Proof.
  apply (removeImport_leaves_no_emptied_declaration
           [Examples.polyfillImport;
            ImportTsMorphUtil.mkImport "m" None None
              [ImportTsMorphUtil.mkSpecifier "only" None]]
           "only" "m" ImportTsMorphUtil.named Examples.polyfillImport).
  - vm_compute. constructor.
  - reflexivity.
Defined.
